(** * ST7735 display calibration tool: a shallow embedding

    The calibration sketch keeps its whole session in global variables and
    mutates them from a single cooperative loop.  Here the globals are the
    fields of one record [State]; every procedure of the sketch becomes a
    function from [State] to [State] (paired with its return value when it
    has one).  Serial output and pixels are not part of the state, except
    for what [exportConfig] prints, which is returned as a value.

    [int] is 32 bits on the target (SAM3X).  It is embedded as [Z]; signed
    overflow is undefined in C++, and [clamp_no_overflow] below shows that
    the clamping arithmetic stays inside the 32-bit range on every
    realistic surface.  [/] and [%] are the truncating [Z.quot] and
    [Z.rem]. *)

From Stdlib Require Import ZArith Lia Bool List String Ascii DecimalString
  DecimalPos.
Import ListNotations.
Open Scope string_scope.
Open Scope Z_scope.

(** ** Constants of the sketch *)

Definition TFT_CS : Z := 7.
Definition TFT_DC : Z := 10.
Definition TFT_RST : Z := 8.
Definition TFT_BL : Z := 9.

Definition PUBLISHED_WIDTH : Z := 160.
Definition PUBLISHED_HEIGHT : Z := 128.

(** ** The canvas *)

(** The canvas [tft] is an [Adafruit_ST7735] initialised with
    [INITR_BLACKTAB]; the driver is not part of the repository.  What the
    sketch uses of it is its rotation register and the [width()] and
    [height()] that follow from it. *)
Module Tft.

(** Modelled from the spec: the native size of the panel, 128 columns by
    160 rows (the published 160 by 128 is its landscape reading). *)
Definition ST7735_TFTWIDTH_128 : Z := 128.
Definition ST7735_TFTHEIGHT_160 : Z := 160.

(** Modelled from the spec: [setRotation] of the canvas; rotation takes
    one of four values, the two low bits of the argument. *)
Definition setRotation (m : Z) : Z := Z.land m 3.

(** Modelled from the spec: [width()] of the canvas reflects the current
    rotation, the long side in the landscape rotations 1 and 3 and the
    short side in the portrait rotations 0 and 2. *)
Definition width (rotation : Z) : Z :=
  if Z.odd rotation then ST7735_TFTHEIGHT_160 else ST7735_TFTWIDTH_128.

(** Modelled from the spec: [height()] of the canvas, the other side. *)
Definition height (rotation : Z) : Z :=
  if Z.odd rotation then ST7735_TFTWIDTH_128 else ST7735_TFTHEIGHT_160.

End Tft.

(** ** Session state *)

Inductive CalibrationMode : Set :=
| MODE_NONE
| MODE_EDGE_ADJUST
| MODE_FRAME_MOVE
| MODE_THICKNESS
| MODE_ROTATION
| MODE_SAVE_EXIT
| MODE_EXIT_NO_SAVE.

(** The numeric value of each enumerator. *)
Definition mode_value (m : CalibrationMode) : Z :=
  match m with
  | MODE_NONE => -1
  | MODE_EDGE_ADJUST => 0
  | MODE_FRAME_MOVE => 1
  | MODE_THICKNESS => 2
  | MODE_ROTATION => 3
  | MODE_SAVE_EXIT => 4
  | MODE_EXIT_NO_SAVE => 5
  end.

Record SavedState : Set := mkSaved {
  saved_rotation : Z;
  saved_usableOriginX : Z;
  saved_usableOriginY : Z;
  saved_usableWidth : Z;
  saved_usableHeight : Z;
  saved_frameThickness : Z
}.

Record State : Set := mkState {
  tftRotation : Z;            (* rotation register of [tft] *)
  currentRotation : Z;
  usableOriginX : Z;
  usableOriginY : Z;
  usableWidth : Z;
  usableHeight : Z;
  frameThickness : Z;
  currentMode : CalibrationMode;
  lastSavedState : SavedState;
  hasUnsavedChanges : bool;
  hasEverSaved : bool;
  currentDisplayName : string;
  configExists : bool;
  halted : bool               (* the sketch sits in [while(true)] *)
}.

(** Assignments to single globals. *)

Definition set_tftRotation (v : Z) (s : State) : State :=
  mkState v (currentRotation s) (usableOriginX s) (usableOriginY s)
    (usableWidth s) (usableHeight s) (frameThickness s) (currentMode s)
    (lastSavedState s) (hasUnsavedChanges s) (hasEverSaved s)
    (currentDisplayName s) (configExists s) (halted s).

Definition set_currentRotation (v : Z) (s : State) : State :=
  mkState (tftRotation s) v (usableOriginX s) (usableOriginY s)
    (usableWidth s) (usableHeight s) (frameThickness s) (currentMode s)
    (lastSavedState s) (hasUnsavedChanges s) (hasEverSaved s)
    (currentDisplayName s) (configExists s) (halted s).

Definition set_usableOriginX (v : Z) (s : State) : State :=
  mkState (tftRotation s) (currentRotation s) v (usableOriginY s)
    (usableWidth s) (usableHeight s) (frameThickness s) (currentMode s)
    (lastSavedState s) (hasUnsavedChanges s) (hasEverSaved s)
    (currentDisplayName s) (configExists s) (halted s).

Definition set_usableOriginY (v : Z) (s : State) : State :=
  mkState (tftRotation s) (currentRotation s) (usableOriginX s) v
    (usableWidth s) (usableHeight s) (frameThickness s) (currentMode s)
    (lastSavedState s) (hasUnsavedChanges s) (hasEverSaved s)
    (currentDisplayName s) (configExists s) (halted s).

Definition set_usableWidth (v : Z) (s : State) : State :=
  mkState (tftRotation s) (currentRotation s) (usableOriginX s)
    (usableOriginY s) v (usableHeight s) (frameThickness s) (currentMode s)
    (lastSavedState s) (hasUnsavedChanges s) (hasEverSaved s)
    (currentDisplayName s) (configExists s) (halted s).

Definition set_usableHeight (v : Z) (s : State) : State :=
  mkState (tftRotation s) (currentRotation s) (usableOriginX s)
    (usableOriginY s) (usableWidth s) v (frameThickness s) (currentMode s)
    (lastSavedState s) (hasUnsavedChanges s) (hasEverSaved s)
    (currentDisplayName s) (configExists s) (halted s).

Definition set_frameThickness (v : Z) (s : State) : State :=
  mkState (tftRotation s) (currentRotation s) (usableOriginX s)
    (usableOriginY s) (usableWidth s) (usableHeight s) v (currentMode s)
    (lastSavedState s) (hasUnsavedChanges s) (hasEverSaved s)
    (currentDisplayName s) (configExists s) (halted s).

Definition set_currentMode (v : CalibrationMode) (s : State) : State :=
  mkState (tftRotation s) (currentRotation s) (usableOriginX s)
    (usableOriginY s) (usableWidth s) (usableHeight s) (frameThickness s) v
    (lastSavedState s) (hasUnsavedChanges s) (hasEverSaved s)
    (currentDisplayName s) (configExists s) (halted s).

Definition set_lastSavedState (v : SavedState) (s : State) : State :=
  mkState (tftRotation s) (currentRotation s) (usableOriginX s)
    (usableOriginY s) (usableWidth s) (usableHeight s) (frameThickness s)
    (currentMode s) v (hasUnsavedChanges s) (hasEverSaved s)
    (currentDisplayName s) (configExists s) (halted s).

Definition set_hasUnsavedChanges (v : bool) (s : State) : State :=
  mkState (tftRotation s) (currentRotation s) (usableOriginX s)
    (usableOriginY s) (usableWidth s) (usableHeight s) (frameThickness s)
    (currentMode s) (lastSavedState s) v (hasEverSaved s)
    (currentDisplayName s) (configExists s) (halted s).

Definition set_hasEverSaved (v : bool) (s : State) : State :=
  mkState (tftRotation s) (currentRotation s) (usableOriginX s)
    (usableOriginY s) (usableWidth s) (usableHeight s) (frameThickness s)
    (currentMode s) (lastSavedState s) (hasUnsavedChanges s) v
    (currentDisplayName s) (configExists s) (halted s).

Definition set_currentDisplayName (v : string) (s : State) : State :=
  mkState (tftRotation s) (currentRotation s) (usableOriginX s)
    (usableOriginY s) (usableWidth s) (usableHeight s) (frameThickness s)
    (currentMode s) (lastSavedState s) (hasUnsavedChanges s) (hasEverSaved s)
    v (configExists s) (halted s).

Definition set_configExists (v : bool) (s : State) : State :=
  mkState (tftRotation s) (currentRotation s) (usableOriginX s)
    (usableOriginY s) (usableWidth s) (usableHeight s) (frameThickness s)
    (currentMode s) (lastSavedState s) (hasUnsavedChanges s) (hasEverSaved s)
    (currentDisplayName s) v (halted s).

Definition set_halted (v : bool) (s : State) : State :=
  mkState (tftRotation s) (currentRotation s) (usableOriginX s)
    (usableOriginY s) (usableWidth s) (usableHeight s) (frameThickness s)
    (currentMode s) (lastSavedState s) (hasUnsavedChanges s) (hasEverSaved s)
    (currentDisplayName s) (configExists s) v.

(** [tft.width()] and [tft.height()] as the sketch reads them. *)
Definition tft_width (s : State) : Z := Tft.width (tftRotation s).
Definition tft_height (s : State) : Z := Tft.height (tftRotation s).

(** The values of the globals at program start, before [setup] runs. *)
Definition initial_globals : State :=
  mkState 0 1 0 0 0 0 2 MODE_NONE (mkSaved 1 0 0 0 0 2)
    false false EmptyString false false.

(** The four calibration numbers as one tuple [(x, y, width, height)]. *)
Definition bounds (s : State) : Z * Z * Z * Z :=
  (usableOriginX s, usableOriginY s, usableWidth s, usableHeight s).

(** The sentinel test the sketch uses in every guard. *)
Definition bounds_unset (s : State) : bool :=
  (usableWidth s =? 0) || (usableHeight s =? 0).

(** ** Geometry: clamping *)

(** One guarded assignment of [validateAndClampBounds]:
    [if (c) { s = f(s); modified = true; }]. *)
Definition fix_if (c : State -> bool) (f : State -> State)
    (p : State * bool) : State * bool :=
  if c (fst p) then (f (fst p), true) else p.

(** The body of [validateAndClampBounds] once [maxX] and [maxY] have been
    read from the canvas. *)
Definition validateAndClampBounds_at (maxX maxY : Z) (s : State)
    : State * bool :=
  let p := (s, false) in
  (* Clamp origin to valid range *)
  let p := fix_if (fun s => usableOriginX s <? 0) (set_usableOriginX 0) p in
  let p := fix_if (fun s => usableOriginY s <? 0) (set_usableOriginY 0) p in
  (* Ensure origin doesn't exceed display bounds *)
  let p := fix_if (fun s => usableOriginX s >=? maxX)
                  (set_usableOriginX (maxX - 1)) p in
  let p := fix_if (fun s => usableOriginY s >=? maxY)
                  (set_usableOriginY (maxY - 1)) p in
  (* Clamp width and height to prevent exceeding display bounds *)
  let maxAllowedWidth := maxX - usableOriginX (fst p) in
  let maxAllowedHeight := maxY - usableOriginY (fst p) in
  let p := fix_if (fun s => usableWidth s >? maxAllowedWidth)
                  (set_usableWidth maxAllowedWidth) p in
  let p := fix_if (fun s => usableHeight s >? maxAllowedHeight)
                  (set_usableHeight maxAllowedHeight) p in
  (* Ensure minimum size *)
  let p := fix_if (fun s => usableWidth s <? 10) (set_usableWidth 10) p in
  let p := fix_if (fun s => usableHeight s <? 10) (set_usableHeight 10) p in
  (* Final safety check: ensure total bounds don't exceed display *)
  let p := fix_if (fun s => usableOriginX s + usableWidth s >? maxX)
                  (fun s => set_usableWidth (maxX - usableOriginX s) s) p in
  let p := fix_if (fun s => usableOriginY s + usableHeight s >? maxY)
                  (fun s => set_usableHeight (maxY - usableOriginY s) s) p in
  p.

Definition validateAndClampBounds (s : State) : State * bool :=
  validateAndClampBounds_at (tft_width s) (tft_height s) s.

(** The clamp as a function on states, dropping the [modified] flag. *)
Definition clamp (maxX maxY : Z) (s : State) : State :=
  fst (validateAndClampBounds_at maxX maxY s).

(** ** Rotation *)

Definition setRotation (rotation : Z) (s : State) : State :=
  if (rotation >=? 0) && (rotation <=? 3) then
    let s := set_currentRotation rotation s in
    let s := set_tftRotation (Tft.setRotation rotation) s in
    (* Reset usable area when rotation changes *)
    let s := set_usableOriginX 0 s in
    let s := set_usableOriginY 0 s in
    let s := set_usableWidth 0 s in
    let s := set_usableHeight 0 s in
    s
  else s.

(** ** Bootstrap and the legacy setters *)

Definition initializeBoundsFromPublished (s : State) : State :=
  if (currentRotation s =? 1) || (currentRotation s =? 3) then
    (* Landscape orientations - use published width x height *)
    let s := set_usableOriginX 0 s in
    let s := set_usableOriginY 0 s in
    let s := set_usableWidth PUBLISHED_WIDTH s in
    let s := set_usableHeight PUBLISHED_HEIGHT s in
    s
  else
    (* Portrait orientations - swap dimensions *)
    let s := set_usableOriginX 0 s in
    let s := set_usableOriginY 0 s in
    let s := set_usableWidth PUBLISHED_HEIGHT s in
    let s := set_usableHeight PUBLISHED_WIDTH s in
    s.

Definition setUsableBounds (left right top bottom : Z) (s : State) : State :=
  let s := set_usableOriginX left s in
  let s := set_usableOriginY top s in
  let s := set_usableWidth (right - left + 1) s in
  let s := set_usableHeight (bottom - top + 1) s in
  s.

(** [drawUsableCenter] falls back to estimated values when the bounds are
    unset; the drawing itself leaves the globals alone. *)
Definition drawUsableCenter (s : State) : State :=
  if (usableWidth s =? 0) || (usableHeight s =? 0) then
    let s := set_usableOriginX 1 s in
    let s := set_usableOriginY 2 s in
    let s := set_usableWidth (tft_width s - 2) s in
    let s := set_usableHeight (tft_height s - 3) s in
    s
  else s.

(** [runCalibrationTest]: the rotation loop, then [drawFrame] (drawing
    only) and [drawUsableCenter]. *)
Definition runCalibrationTest (s : State) : State :=
  let s := fold_left (fun s rot => setRotation rot s) [0; 1; 2; 3] s in
  drawUsableCenter s.

Definition markModified (s : State) : State :=
  set_hasUnsavedChanges true s.

(** [redrawFrame]: of its three calls only the clamp touches the globals. *)
Definition redrawFrame (s : State) : State :=
  fst (validateAndClampBounds s).

(** ** Edit operations *)

Definition adjustEdge (direction : ascii) (s : State) : State :=
  (* Guard: need initial bounds set *)
  if (usableWidth s =? 0) || (usableHeight s =? 0) then s else
  let step := 1 in
  let maxX := tft_width s in
  let maxY := tft_height s in
  let '(s, changed) :=
    if Ascii.eqb direction "U" then
      if (usableOriginY s >? 0) && (usableOriginY s - step >=? 0) then
        let s := set_usableOriginY (usableOriginY s - step) s in
        let s := set_usableHeight (usableHeight s + step) s in
        let s := if usableOriginY s + usableHeight s >? maxY
                 then set_usableHeight (maxY - usableOriginY s) s else s in
        (s, true)
      else (s, false)
    else if Ascii.eqb direction "D" then
      if (usableHeight s >? 10) && (usableOriginY s + step <? maxY) then
        let s := set_usableOriginY (usableOriginY s + step) s in
        let s := set_usableHeight (usableHeight s - step) s in
        (s, true)
      else (s, false)
    else if Ascii.eqb direction "L" then
      if (usableOriginX s >? 0) && (usableOriginX s - step >=? 0) then
        let s := set_usableOriginX (usableOriginX s - step) s in
        let s := set_usableWidth (usableWidth s + step) s in
        let s := if usableOriginX s + usableWidth s >? maxX
                 then set_usableWidth (maxX - usableOriginX s) s else s in
        (s, true)
      else (s, false)
    else if Ascii.eqb direction "R" then
      if (usableWidth s >? 10) && (usableOriginX s + step <? maxX) then
        let s := set_usableOriginX (usableOriginX s + step) s in
        let s := set_usableWidth (usableWidth s - step) s in
        (s, true)
      else (s, false)
    else (s, false) in
  if changed then
    let s := fst (validateAndClampBounds s) in
    let s := markModified s in
    let s := redrawFrame s in
    s
  else s.

Definition moveFrame (direction : ascii) (s : State) : State :=
  (* Guard: need initial bounds set *)
  if (usableWidth s =? 0) || (usableHeight s =? 0) then s else
  let step := 1 in
  let maxX := tft_width s in
  let maxY := tft_height s in
  let '(s, changed) :=
    if Ascii.eqb direction "U" then
      if usableOriginY s >? 0
      then (set_usableOriginY (usableOriginY s - step) s, true)
      else (s, false)
    else if Ascii.eqb direction "D" then
      if usableOriginY s + usableHeight s <? maxY
      then (set_usableOriginY (usableOriginY s + step) s, true)
      else (s, false)
    else if Ascii.eqb direction "L" then
      if usableOriginX s >? 0
      then (set_usableOriginX (usableOriginX s - step) s, true)
      else (s, false)
    else if Ascii.eqb direction "R" then
      if usableOriginX s + usableWidth s <? maxX
      then (set_usableOriginX (usableOriginX s + step) s, true)
      else (s, false)
    else (s, false) in
  if changed then
    let s := fst (validateAndClampBounds s) in
    let s := markModified s in
    let s := redrawFrame s in
    s
  else s.

Definition adjustThickness (direction : ascii) (s : State) : State :=
  let '(s, changed) :=
    if Ascii.eqb direction "U" && (frameThickness s <? 5) then
      (set_frameThickness (frameThickness s + 1) s, true)
    else if Ascii.eqb direction "D" && (frameThickness s >? 1) then
      (set_frameThickness (frameThickness s - 1) s, true)
    else (s, false) in
  if changed then
    let s := markModified s in
    let s := redrawFrame s in
    s
  else s.

Definition rotateDisplay (direction : ascii) (s : State) : State :=
  let s :=
    if Ascii.eqb direction "L" then
      set_currentRotation (Z.rem (currentRotation s + 3) 4) s   (* CCW *)
    else if Ascii.eqb direction "R" then
      set_currentRotation (Z.rem (currentRotation s + 1) 4) s   (* CW *)
    else s in
  let s := setRotation (currentRotation s) s in
  let s := markModified s in
  s.

(** ** Record exporter *)

(** [String(int)]: the decimal rendering of an integer. *)
Definition String_of_int (z : Z) : string :=
  NilZero.string_of_int (Z.to_int z).

(** A double quote character, and a string between double quotes. *)
Definition dquote : string := String "034"%char EmptyString.
Definition quoted (s : string) : string := dquote ++ s ++ dquote.

(** The orientation string chosen by [exportConfig]. *)
Definition orientation_of (rotation : Z) : string :=
  let orientation := "landscape" in
  if rotation =? 0 then "portrait"
  else if rotation =? 1 then "landscape"
  else if rotation =? 2 then "reverse_portrait"
  else if rotation =? 3 then "reverse_landscape"
  else orientation.

(** The locals [exportConfig] computes before printing. *)
Record ExportLocals : Set := mkLocals {
  orientation : string;
  centerX : Z;
  centerY : Z;
  rightEdge : Z;
  bottomEdge : Z
}.

Definition export_locals (s : State) : ExportLocals :=
  {| orientation := orientation_of (currentRotation s);
     (* Calculate center *)
     centerX := usableOriginX s + Z.quot (usableWidth s) 2;
     centerY := usableOriginY s + Z.quot (usableHeight s) 2;
     (* Calculate right and bottom edges *)
     rightEdge := usableOriginX s + usableWidth s - 1;
     bottomEdge := usableOriginY s + usableHeight s - 1 |}.

(** The lines of the configuration block, from the [BEGIN] marker to the
    [END] marker. *)
Definition config_file (s : State) : list string :=
  let l := export_locals s in
  [ "========== BEGIN CONFIG FILE ==========";
    "# ST7735 Display Configuration - " ++ currentDisplayName s;
    "# Format: TOML v1.0.0";
    "# Generated by cal_lcd.cpp v2.0";
    EmptyString;
    "[device]";
    "name = " ++ quoted (currentDisplayName s);
    "manufacturer = " ++ quoted "Unknown" ++ "  # TODO: Set manufacturer";
    "model = " ++ quoted "Generic ST7735" ++ "  # TODO: Set model";
    "published_resolution = [" ++ String_of_int PUBLISHED_WIDTH ++ ", "
      ++ String_of_int PUBLISHED_HEIGHT ++ "]";
    EmptyString;
    "[pinout]";
    "# Arduino Due pin assignments";
    "rst = " ++ String_of_int TFT_RST;
    "dc = " ++ String_of_int TFT_DC;
    "cs = " ++ String_of_int TFT_CS;
    "bl = " ++ String_of_int TFT_BL;
    EmptyString;
    "[calibration]";
    "orientation = " ++ quoted (orientation l);
    "# Usable area bounds (0-indexed, inclusive)";
    "left = " ++ String_of_int (usableOriginX s);
    "right = " ++ String_of_int (rightEdge l);
    "top = " ++ String_of_int (usableOriginY s);
    "bottom = " ++ String_of_int (bottomEdge l);
    "# Calculated center point";
    "center = [" ++ String_of_int (centerX l) ++ ", "
      ++ String_of_int (centerY l) ++ "]";
    "=========== END CONFIG FILE ===========" ].

(** What one call of [exportConfig] reports. *)
Inductive Exported : Set :=
| BoundsNotSet                        (* the error message, no record *)
| ConfigFile (lines : list string).

Definition exportConfig (s : State) : Exported * State :=
  if (usableWidth s =? 0) || (usableHeight s =? 0)
  then (BoundsNotSet, s)
  else (ConfigFile (config_file s), s).

(** ** Mode state machine *)

(** The cast [(CalibrationMode)v].  Only 0..5 reach it in [setMode]. *)
Definition CalibrationMode_of (v : Z) : CalibrationMode :=
  if v =? 0 then MODE_EDGE_ADJUST
  else if v =? 1 then MODE_FRAME_MOVE
  else if v =? 2 then MODE_THICKNESS
  else if v =? 3 then MODE_ROTATION
  else if v =? 4 then MODE_SAVE_EXIT
  else if v =? 5 then MODE_EXIT_NO_SAVE
  else MODE_NONE.

Definition snapshot (s : State) : SavedState :=
  {| saved_rotation := currentRotation s;
     saved_usableOriginX := usableOriginX s;
     saved_usableOriginY := usableOriginY s;
     saved_usableWidth := usableWidth s;
     saved_usableHeight := usableHeight s;
     saved_frameThickness := frameThickness s |}.

(** [saveAndExit] returns what its call of [exportConfig] reported. *)
Definition saveAndExit (s : State) : Exported * State :=
  let '(out, s) := exportConfig s in
  let s := set_hasUnsavedChanges false s in
  let s := set_hasEverSaved true s in
  let s := set_lastSavedState (snapshot s) s in
  (out, s).

(** [checkUnsavedChanges]; [response] is the byte the operator answers
    with, read only when there are unsaved changes. *)
Definition checkUnsavedChanges (response : ascii) (s : State) : bool :=
  if negb (hasUnsavedChanges s) then false
  else if Ascii.eqb response "027" then false
  else Ascii.eqb response "y" || Ascii.eqb response "Y".

Definition exitWithoutSaving (response : ascii) (s : State) : State :=
  if hasUnsavedChanges s && negb (checkUnsavedChanges response s) then
    set_currentMode MODE_NONE s   (* Reset to no mode *)
  else
    set_halted true s.            (* Halt execution *)

Definition setMode (mode : Z) (response : ascii) (s : State) : State :=
  if (mode >=? 1) && (mode <=? 6) then
    let s := set_currentMode (CalibrationMode_of (mode - 1)) s in
    (* Modes 5 and 6 are actions, not adjustment modes *)
    match currentMode s with
    | MODE_SAVE_EXIT => snd (saveAndExit s)
    | MODE_EXIT_NO_SAVE => exitWithoutSaving response s
    | _ => s
    end
  else s.

Definition handleEscapeKey (s : State) : State :=
  if (mode_value (currentMode s) >=? mode_value MODE_EDGE_ADJUST)
     && (mode_value (currentMode s) <=? mode_value MODE_ROTATION) then
    set_currentMode MODE_NONE s
  else
    match currentMode s with
    | MODE_NONE => snd (saveAndExit s)
    | _ => s
    end.

Definition handleArrowKey (key : ascii) (s : State) : State :=
  match currentMode s with
  | MODE_EDGE_ADJUST => adjustEdge key s
  | MODE_FRAME_MOVE => moveFrame key s
  | MODE_THICKNESS => adjustThickness key s
  | MODE_ROTATION => rotateDisplay key s
  | MODE_SAVE_EXIT | MODE_EXIT_NO_SAVE => s
  | MODE_NONE => s
  end.

(** ** Legacy text commands *)

(** The operations of the Arduino core's [String] class that
    [processCommand] relies on, written over [string] with the conventions
    of the C++ originals: positions are integers, [indexOf] answers -1
    when the character is absent, and [toInt] is [atol]. *)
Module WString.

Definition length (s : string) : Z := Z.of_nat (String.length s).

Definition isspace (c : ascii) : bool :=
  let n := Z.of_nat (nat_of_ascii c) in
  (n =? 32) || ((9 <=? n) && (n <=? 13)).

Definition isdigit (c : ascii) : bool :=
  let n := Z.of_nat (nat_of_ascii c) in
  (48 <=? n) && (n <=? 57).

Definition tolower (c : ascii) : ascii :=
  let n := nat_of_ascii c in
  if (65 <=? n)%nat && (n <=? 90)%nat then ascii_of_nat (n + 32) else c.

Fixpoint skip_space (s : string) : string :=
  match s with
  | String c r => if isspace c then skip_space r else s
  | EmptyString => s
  end.

Fixpoint drop_trailing_space (s : string) : string :=
  match s with
  | String c r =>
      match drop_trailing_space r with
      | EmptyString => if isspace c then EmptyString
                       else String c EmptyString
      | r' => String c r'
      end
  | EmptyString => EmptyString
  end.

Definition trim (s : string) : string :=
  drop_trailing_space (skip_space s).

Fixpoint toLowerCase (s : string) : string :=
  match s with
  | String c r => String (tolower c) (toLowerCase r)
  | EmptyString => EmptyString
  end.

Definition startsWith (s pre : string) : bool := String.prefix pre s.

Fixpoint drop (n : nat) (s : string) : string :=
  match n, s with
  | O, _ => s
  | S n', String _ r => drop n' r
  | S _, EmptyString => EmptyString
  end.

Fixpoint take (n : nat) (s : string) : string :=
  match n, s with
  | O, _ => EmptyString
  | S n', String c r => String c (take n' r)
  | S _, EmptyString => EmptyString
  end.

(** Position of the first [ch] in [s], counted from [pos]. *)
Fixpoint strchr (ch : ascii) (pos : Z) (s : string) : Z :=
  match s with
  | String c r => if Ascii.eqb c ch then pos else strchr ch (pos + 1) r
  | EmptyString => -1
  end.

Definition indexOf (ch : ascii) (fromIndex : Z) (s : string) : Z :=
  if (fromIndex <? 0) || (fromIndex >=? length s) then -1
  else strchr ch fromIndex (drop (Z.to_nat fromIndex) s).

Definition substring (left right : Z) (s : string) : string :=
  let lo := if left >? right then right else left in
  let hi := if left >? right then left else right in
  if lo >=? length s then EmptyString
  else
    let hi := if hi >? length s then length s else hi in
    take (Z.to_nat (hi - lo)) (drop (Z.to_nat lo) s).

Definition substring_from (left : Z) (s : string) : string :=
  substring left (length s) s.

Fixpoint digits (acc : Z) (s : string) : Z :=
  match s with
  | String c r =>
      if isdigit c
      then digits (10 * acc + (Z.of_nat (nat_of_ascii c) - 48)) r
      else acc
  | EmptyString => acc
  end.

Definition toInt (s : string) : Z :=
  match skip_space s with
  | String c r =>
      if Ascii.eqb c "-" then - digits 0 r
      else if Ascii.eqb c "+" then digits 0 r
      else digits 0 (String c r)
  | EmptyString => 0
  end.

End WString.

(** The [bounds L,R,T,B] branch of [processCommand]; [command] is the
    trimmed line in its original case. *)
Definition processBounds (command : string) (s : State) : State :=
  let params := WString.substring_from 7 command in
  let commaPos1 := WString.indexOf "," 0 params in
  let commaPos2 := WString.indexOf "," (commaPos1 + 1) params in
  let commaPos3 := WString.indexOf "," (commaPos2 + 1) params in
  if (commaPos1 >? 0) && (commaPos2 >? 0) && (commaPos3 >? 0) then
    let left := WString.toInt (WString.substring 0 commaPos1 params) in
    let right :=
      WString.toInt (WString.substring (commaPos1 + 1) commaPos2 params) in
    let top :=
      WString.toInt (WString.substring (commaPos2 + 1) commaPos3 params) in
    let bottom :=
      WString.toInt (WString.substring_from (commaPos3 + 1) params) in
    setUsableBounds left right top bottom s
  else s.

(** [frame], [clear] and [cross] only draw, [info] and [help] only print,
    and an unknown or empty line does nothing. *)
Definition processCommand (command : string) (s : State) : State :=
  let command := WString.trim command in
  let commandLower := WString.toLowerCase command in
  if String.eqb commandLower "rot0" then setRotation 0 s
  else if String.eqb commandLower "rot1" then setRotation 1 s
  else if String.eqb commandLower "rot2" then setRotation 2 s
  else if String.eqb commandLower "rot3" then setRotation 3 s
  else if String.eqb commandLower "frame" then s
  else if String.eqb commandLower "clear" then s
  else if String.eqb commandLower "cross" then s
  else if String.eqb commandLower "test" then runCalibrationTest s
  else if String.eqb commandLower "center" then drawUsableCenter s
  else if WString.startsWith commandLower "bounds "
       then processBounds command s
  else if String.eqb commandLower "export" then snd (exportConfig s)
  else s.

(** ** Session bootstrap *)

(** [selectOrCreateDisplay]; [choice] and [name] are the two lines the
    operator types.  Options 1 and 2 both end with the name stored and
    [configExists] set; an empty name or any other choice halts. *)
Definition selectOrCreateDisplay (choice name : string) (s : State) : State :=
  if String.eqb choice "1" || String.eqb choice "2" then
    let s := set_currentDisplayName name s in
    if WString.length (currentDisplayName s) =? 0
    then set_halted true s
    else set_configExists true s
  else set_halted true s.

Definition setup (choice name : string) (s : State) : State :=
  (* Set default rotation *)
  let s := set_currentRotation 1 s in
  let s := set_tftRotation (Tft.setRotation (currentRotation s)) s in
  (* Display selection / creation menu *)
  let s := selectOrCreateDisplay choice name s in
  if halted s then s else
  (* Initialize bounds from published dimensions *)
  let s := initializeBoundsFromPublished s in
  (* Initialize saved state *)
  set_lastSavedState
    (mkSaved (currentRotation s) 0 0 0 0 (frameThickness s)) s.

(** ** The input loop *)

(** One pass of [loop] that finds a byte [c] waiting.  [pending] is what
    the serial buffer holds behind it (after the short wait, for an
    escape), and [response] is the answer to the unsaved-changes question
    should it be asked. *)
Definition arrow_direction (arrowCode : ascii) : option ascii :=
  if Ascii.eqb arrowCode "A" then Some "U"%char
  else if Ascii.eqb arrowCode "B" then Some "D"%char
  else if Ascii.eqb arrowCode "C" then Some "R"%char
  else if Ascii.eqb arrowCode "D" then Some "L"%char
  else None.

Fixpoint readStringUntil (terminator : ascii) (pending : string) : string :=
  match pending with
  | String c r => if Ascii.eqb c terminator then EmptyString
                  else String c (readStringUntil terminator r)
  | EmptyString => EmptyString
  end.

Definition loop (c : ascii) (pending : string) (response : ascii)
    (s : State) : State :=
  if halted s then s else
  let n := Z.of_nat (nat_of_ascii c) in
  (* Check for Ctrl-C (ASCII 3) *)
  if n =? 3 then snd (saveAndExit s)
  (* Check for ESC key or ANSI escape sequence (arrow keys) *)
  else if n =? 27 then
    match pending with
    | String "[" rest =>
        match rest with
        | String arrowCode _ =>
            match arrow_direction arrowCode with
            | Some direction => handleArrowKey direction s
            | None => s
            end
        | EmptyString => s
        end
    | _ => handleEscapeKey s
    end
  (* Check for mode selection (1-6) *)
  else if (n >=? 49) && (n <=? 54) then setMode (n - 48) response s
  (* Check for newline (legacy command mode) *)
  else if (n =? 10) || (n =? 13) then s
  (* Handle text commands (for backwards compatibility) *)
  else processCommand (String c (readStringUntil "010" pending)) s.

(** The session as the spec's data model describes it: rotation in 0..3
    and the canvas rotated the same way. *)
Definition session_ok (s : State) : Prop :=
  0 <= currentRotation s <= 3 /\ tftRotation s = currentRotation s.

(** The state the sketch is in when [setup] returns for a named display. *)
Definition bootstrap : State := setup "1" "DueLCD01" initial_globals.

(** ** Drawing the frame *)

(** The Arduino macros [constrain] and [min]. *)
Definition constrain (amt low high : Z) : Z :=
  if amt <? low then low else if amt >? high then high else amt.

Definition min_of (a b : Z) : Z := if a <? b then a else b.

Inductive Color : Set := ST77XX_WHITE | ST77XX_RED | ST77XX_GREEN | ST77XX_BLUE.

(** One call [tft.drawRect(x, y, w, h, color)]. *)
Record Rect : Set := mkRect {
  rect_x : Z;
  rect_y : Z;
  rect_w : Z;
  rect_h : Z;
  rect_color : Color
}.

(** The values the counter of [for (int i = 0; i < n; i++)] takes. *)
Definition upto (n : Z) : list Z := map Z.of_nat (seq 0 (Z.to_nat n)).

(** [drawFrame] writes no global; what it does is the rectangles it asks
    the canvas for, in order. *)
Definition drawFrame (s : State) : list Rect :=
  (* If usable bounds are set, draw frame at those bounds *)
  if (usableWidth s >? 0) && (usableHeight s >? 0) then
    (* Ensure bounds are within display limits *)
    let maxX := tft_width s in
    let maxY := tft_height s in
    (* Clamp values to valid range *)
    let clampedX := constrain (usableOriginX s) 0 (maxX - 1) in
    let clampedY := constrain (usableOriginY s) 0 (maxY - 1) in
    let clampedW := constrain (usableWidth s) 1 (maxX - clampedX) in
    let clampedH := constrain (usableHeight s) 1 (maxY - clampedY) in
    (* Draw frame with current thickness, ensuring it stays within bounds *)
    let maxThickness :=
      min_of (frameThickness s)
        (min_of (Z.quot clampedW 2) (Z.quot clampedH 2)) in
    flat_map
      (fun i =>
         let rectW := clampedW - 2 * i in
         let rectH := clampedH - 2 * i in
         if (rectW >? 0) && (rectH >? 0)
         then [mkRect (clampedX + i) (clampedY + i) rectW rectH ST77XX_WHITE]
         else [])
      (upto maxThickness)
  else
    (* Legacy mode - step through insets *)
    [ mkRect 0 0 (tft_width s) (tft_height s) ST77XX_WHITE;
      mkRect 1 1 (tft_width s - 2) (tft_height s - 2) ST77XX_RED;
      mkRect 2 2 (tft_width s - 4) (tft_height s - 4) ST77XX_GREEN;
      mkRect 3 3 (tft_width s - 6) (tft_height s - 6) ST77XX_BLUE ].

(** ** Reading a line *)

Definition remove_last (s : string) : string :=
  WString.take (String.length s - 1) s.

(** [readSerialLine] over the bytes that will arrive, with the line typed
    so far.  It returns the line and the bytes left; [None] stands for the
    sketch still waiting when the bytes run out. *)
Fixpoint readSerialLine_from (input : string) (incoming : list ascii)
    : option (string * list ascii) :=
  match incoming with
  | [] => None
  | c :: rest =>
      let n := Z.of_nat (nat_of_ascii c) in
      if (n =? 10) || (n =? 13) then
        if WString.length input >? 0 then Some (input, rest)
        else readSerialLine_from input rest
      else if (n >=? 32) && (n <=? 126) then   (* Printable characters *)
        readSerialLine_from (input ++ String c EmptyString) rest
      else if (n =? 8) || (n =? 127) then      (* Backspace *)
        if WString.length input >? 0
        then readSerialLine_from (remove_last input) rest
        else readSerialLine_from input rest
      else readSerialLine_from input rest
  end.

Definition readSerialLine (incoming : list ascii)
    : option (string * list ascii) :=
  readSerialLine_from EmptyString incoming.

(** ** The display registry (DisplayManager.cpp) *)

Module DisplayManager.

(** Modelled from the spec: [DisplayConfig] is declared in DisplayManager.h,
    which is not among the sources; these are the fields the
    implementation reads, the record an exported calibration is turned
    into.  [name] is a C string and may be null. *)
Record DisplayConfig : Set := mkConfig {
  name : option string;
  manufacturer : string;
  width : Z;
  height : Z;
  cs : Z;
  dc : Z;
  rst : Z;
  bl : Z;
  rotation : Z;
  usableX : Z;
  usableY : Z;
  usableWidth : Z;
  usableHeight : Z;
  centerX : Z;
  centerY : Z
}.

(** A [DisplayInstance]: its configuration and the flags the functions
    below read.  The driver object [tft] exists exactly when [initialized]
    is set; allocation with [new] is taken to succeed. *)
Record DisplayInstance : Set := mkInstance {
  config : DisplayConfig;
  initialized : bool;
  imageFrameEnabled : bool;
  imageFrameThickness : Z
}.

(** The constructor. *)
Definition new_instance (cfg : DisplayConfig) : DisplayInstance :=
  mkInstance cfg false false 1.

Definition getName (d : DisplayInstance) : option string := name (config d).

(** [strcmp(a, b) == 0] on two C strings that are not null. *)
Definition same_name (a b : option string) : bool :=
  match a, b with
  | Some x, Some y => String.eqb x y
  | _, _ => false
  end.

Definition initialize (d : DisplayInstance) : bool * DisplayInstance :=
  (* Already initialized - return success *)
  if initialized d then (true, d)
  (* Validate config before initializing *)
  else if (cs (config d) =? 0) || (dc (config d) =? 0)
          || (rst (config d) =? 0)
  then (false, d)
  else (true, mkInstance (config d) true (imageFrameEnabled d)
                (imageFrameThickness d)).

Definition isWithinBounds (d : DisplayInstance) (x y : Z) : bool :=
  (x >=? 0) && (x <? width (config d))
  && (y >=? 0) && (y <? height (config d)).

(** Conversion to [int16_t]. *)
Definition to_int16 (z : Z) : Z := (z + 32768) mod 65536 - 32768.

Definition isWithinFrameBounds (d : DisplayInstance) (x y : Z)
    (adjustTop adjustBottom adjustLeft adjustRight : Z) : bool :=
  let c := config d in
  let frameTop := to_int16 (usableY c - adjustTop) in
  let frameLeft := to_int16 (usableX c - adjustLeft) in
  let frameBottom :=
    to_int16 ((usableY c + usableHeight c - 1) + adjustBottom) in
  let frameRight :=
    to_int16 ((usableX c + usableWidth c - 1) + adjustRight) in
  (x >=? frameLeft) && (x <=? frameRight)
  && (y >=? frameTop) && (y <=? frameBottom).

(** The layers of [drawImageFrame]'s loop over the values the counter
    [i] still has to take: it stops at the first layer with no space. *)
Fixpoint frame_layers (x y w h : Z) (counter : list Z)
    : list (Z * Z * Z * Z) :=
  match counter with
  | [] => []
  | i :: rest =>
      let fx := to_int16 (x + i) in
      let fy := to_int16 (y + i) in
      let fw := to_int16 (w - 2 * i) in
      let fh := to_int16 (h - 2 * i) in
      if (fw <=? 0) || (fh <=? 0) then []
      else (fx, fy, fw, fh) :: frame_layers x y w h rest
  end.

(** [drawImageFrame]: the rectangles [(x, y, w, h)] it draws, all in the
    colour it was given. *)
Definition drawImageFrame (d : DisplayInstance) (thickness : Z)
    (adjustTop adjustBottom adjustLeft adjustRight : Z)
    : list (Z * Z * Z * Z) :=
  if negb (initialized d) then [] else
  let c := config d in
  let top := to_int16 (usableY c - adjustTop) in
  let bottom :=
    to_int16 ((usableY c + usableHeight c - 1) + adjustBottom) in
  let left := to_int16 (usableX c - adjustLeft) in
  let right :=
    to_int16 ((usableX c + usableWidth c - 1) + adjustRight) in
  (* Calculate dimensions from adjusted edges *)
  let x := left in
  let y := top in
  let w := to_int16 (right - left + 1) in
  let h := to_int16 (bottom - top + 1) in
  (* Bounds checking to prevent crashes *)
  let x := if x <? -10 then -10 else x in
  let y := if y <? -10 then -10 else y in
  if (w <=? 0) || (h <=? 0) then []
  else frame_layers x y w h (upto thickness).

(** [clearImageFrame]: the rectangles it paints black. *)
Definition clearImageFrame (d : DisplayInstance) : list (Z * Z * Z * Z) :=
  if negb (initialized d) then [] else
  let x := to_int16 (usableX (config d)) in
  let y := to_int16 (usableY (config d)) in
  let w := to_int16 (usableWidth (config d)) in
  let h := to_int16 (usableHeight (config d)) in
  map (fun i => (to_int16 (x - i), to_int16 (y - i),
                 to_int16 (w + 2 * i), to_int16 (h + 2 * i)))
      (upto (imageFrameThickness d)).

(** [enableImageFrame]: the instance with its flags set, and the
    rectangles drawn (in the frame colour) or cleared (in black). *)
Definition enableImageFrame (enable : bool) (thickness : Z)
    (adjustTop adjustBottom adjustLeft adjustRight : Z)
    (d : DisplayInstance) : DisplayInstance * list (Z * Z * Z * Z) :=
  let d := mkInstance (config d) (initialized d) enable thickness in
  if enable
  then (d, drawImageFrame d thickness adjustTop adjustBottom adjustLeft
             adjustRight)
  else (d, clearImageFrame d).

(** The registry: [displays] up to [displayCount], oldest first.  Every
    slot below [displayCount] holds an instance, so the null tests of the
    loops never fail. *)
Definition Registry : Set := list DisplayInstance.

Definition displayCount (m : Registry) : Z := Z.of_nat (List.length m).

(** [addDisplay], with the capacity [MAX_DISPLAYS] of DisplayManager.h as
    a parameter. *)
Definition addDisplay (MAX_DISPLAYS : Z) (cfg : DisplayConfig)
    (m : Registry) : bool * Registry :=
  (* Check capacity *)
  if displayCount m >=? MAX_DISPLAYS then (false, m)
  (* Validate config *)
  else if match name cfg with None => true | Some _ => false end
          || (width cfg =? 0) || (height cfg =? 0)
  then (false, m)
  (* Check for duplicate names *)
  else if existsb (fun d => same_name (getName d) (name cfg)) m
  then (false, m)
  (* Create display instance *)
  else (true, m ++ [new_instance cfg])%list.

Definition getDisplay_by_name (n : string) (m : Registry)
    : option DisplayInstance :=
  find (fun d => same_name (getName d) (Some n)) m.

Definition getDisplay_by_index (index : Z) (m : Registry)
    : option DisplayInstance :=
  if index <? displayCount m then nth_error m (Z.to_nat index) else None.

(** [initializeAll]: every display is tried, also after a failure. *)
Fixpoint initializeAll (m : Registry) : bool * Registry :=
  match m with
  | [] => (true, [])
  | d :: rest =>
      let '(ok, d') := initialize d in
      let '(allSuccess, rest') := initializeAll rest in
      (ok && allSuccess, d' :: rest')
  end.

(** Registering a list of configurations one after the other. *)
Definition addDisplays (MAX_DISPLAYS : Z) (cfgs : list DisplayConfig)
    (m : Registry) : Registry :=
  fold_left (fun m cfg => snd (addDisplay MAX_DISPLAYS cfg m)) cfgs m.

(** The configuration that the calibration scenario exports, for a
    display of a given name. *)
Definition sample_config (n : string) : DisplayConfig :=
  mkConfig (Some n) "Unknown" 160 128 7 10 8 9 1 1 2 158 126 80 65.

End DisplayManager.

(** ** Vocabulary of the properties *)

(** A guarded assignment seen on the state alone. *)
Definition guarded (c : State -> bool) (f : State -> State) (s : State)
    : State :=
  if c s then f s else s.

(** Writing all four calibration numbers at once. *)
Definition with_bounds (b : Z * Z * Z * Z) (s : State) : State :=
  let '(x, y, w, h) := b in
  set_usableHeight h
    (set_usableWidth w (set_usableOriginY y (set_usableOriginX x s))).

(** Closed forms of what the clamp computes on one axis. *)
Definition clamp_origin (maxv v : Z) : Z := Z.min (Z.max v 0) (maxv - 1).

Definition clamp_size (maxv origin size : Z) : Z :=
  Z.min (Z.max size 10) (maxv - origin).

(** The invariants of the usable bounds on a [maxX] by [maxY] surface,
    one proposition each. *)
Definition origin_nonneg (s : State) : Prop :=
  0 <= usableOriginX s /\ 0 <= usableOriginY s.

Definition inside_surface (maxX maxY : Z) (s : State) : Prop :=
  usableOriginX s + usableWidth s <= maxX /\
  usableOriginY s + usableHeight s <= maxY.

Definition min_size (s : State) : Prop :=
  10 <= usableWidth s /\ 10 <= usableHeight s.

Definition invariants (maxX maxY : Z) (s : State) : Prop :=
  origin_nonneg s /\ inside_surface maxX maxY s /\ min_size s.

(** The same invariants as a test that computes. *)
Definition invariantsb (maxX maxY : Z) (s : State) : bool :=
  (0 <=? usableOriginX s) && (0 <=? usableOriginY s)
  && (usableOriginX s + usableWidth s <=? maxX)
  && (usableOriginY s + usableHeight s <=? maxY)
  && (10 <=? usableWidth s) && (10 <=? usableHeight s).

(** The range of a 32-bit [int]. *)
Definition int_range (z : Z) : Prop := - 2 ^ 31 <= z < 2 ^ 31.

(** The calibration scenario: contract the left edge once, then the top
    edge twice. *)
Definition scenario (s0 : State) : State :=
  adjustEdge "D" (adjustEdge "D" (adjustEdge "R" s0)).

Definition center_line (cx cy : Z) : string :=
  "center = [" ++ String_of_int cx ++ ", " ++ String_of_int cy ++ "]".

(** What the scenario is expected to produce, with the centre left open. *)
Definition scenario_outcome (s0 : State) (cx cy : Z) : Prop :=
  tft_width s0 = 160 /\ tft_height s0 = 128 /\ currentRotation s0 = 1 /\
  bounds s0 = (0, 0, 160, 128) /\
  bounds (adjustEdge "R" s0) = (1, 0, 159, 128) /\
  bounds (scenario s0) = (1, 2, 159, 126) /\
  exists lines,
    fst (exportConfig (scenario s0)) = ConfigFile lines /\
    In "left = 1" lines /\ In "right = 159" lines /\
    In "top = 2" lines /\ In "bottom = 127" lines /\
    In (center_line cx cy) lines.

(** The usable bounds are in order on the current surface: either the
    sentinel that [setRotation] writes, or a rectangle that satisfies the
    invariants. *)
Definition bounds_ok (s : State) : Prop :=
  bounds s = (0, 0, 0, 0) \/ invariants (tft_width s) (tft_height s) s.

(** The two rotation registers of a state. *)
Definition rot (s : State) : Z * Z := (currentRotation s, tftRotation s).

(** States the running sketch can be in: what a [setup] that did not halt
    leaves, and what a pass of [loop] makes of such a state. *)
Inductive reachable : State -> Prop :=
| reach_setup choice name :
    halted (setup choice name initial_globals) = false ->
    reachable (setup choice name initial_globals)
| reach_loop s c pending response :
    reachable s -> reachable (loop c pending response s).

(** The part of the state that [session_ok] and [bounds_ok] look at. *)
Definition geom (s : State) : Z * Z * Z * Z * (Z * Z) := (bounds s, rot s).

(** The bytes that [loop] handles as keys rather than as the start of a
    text command: Ctrl-C, escape, the digits 1 to 6 and the line ends. *)
Definition is_key (c : ascii) : bool :=
  let n := Z.of_nat (nat_of_ascii c) in
  (n =? 3) || (n =? 27) || ((n >=? 49) && (n <=? 54))
  || (n =? 10) || (n =? 13).



(** A rectangle with positive sides that lies on a [maxX] by [maxY]
    surface. *)
Definition on_screen (maxX maxY : Z) (r : Rect) : Prop :=
  0 <= rect_x r /\ 0 <= rect_y r /\ 0 < rect_w r /\ 0 < rect_h r /\
  rect_x r + rect_w r <= maxX /\ rect_y r + rect_h r <= maxY.

(** A printable character, as [readSerialLine] tests it. *)
Definition printable (c : ascii) : Prop :=
  32 <= Z.of_nat (nat_of_ascii c) <= 126.

(** States reached with the keys of the arrow-key interface alone. *)
Inductive key_reachable : State -> Prop :=
| key_setup choice name :
    halted (setup choice name initial_globals) = false ->
    key_reachable (setup choice name initial_globals)
| key_loop s c pending response :
    key_reachable s -> is_key c = true ->
    key_reachable (loop c pending response s).

(** What the session holds beside its geometry and its unsaved flag. *)
Definition other (s : State)
    : Z * CalibrationMode * SavedState * bool * string * bool * bool :=
  (frameThickness s, currentMode s, lastSavedState s, hasEverSaved s,
   currentDisplayName s, configExists s, halted s).

(** Every character of a string is printable. *)
Fixpoint all_printable (s : string) : Prop :=
  match s with
  | EmptyString => True
  | String c r => printable c /\ all_printable r
  end.

(** How often a character occurs in a string. *)
Fixpoint count_char (ch : ascii) (s : string) : nat :=
  match s with
  | EmptyString => O
  | String c r => if Ascii.eqb c ch then S (count_char ch r)
                  else count_char ch r
  end.

(** A registry as [addDisplay] builds it: no name twice, every display
    with a name and a non-zero size, at most [MAX_DISPLAYS] of them. *)
Definition registry_ok (MAX_DISPLAYS : Z) (m : DisplayManager.Registry)
    : Prop :=
  NoDup (map DisplayManager.getName m) /\
  Forall (fun d => DisplayManager.getName d <> None /\
                   DisplayManager.width (DisplayManager.config d) <> 0 /\
                   DisplayManager.height (DisplayManager.config d) <> 0) m /\
  DisplayManager.displayCount m <= MAX_DISPLAYS.

(** A display with a pin that [initialize] rejects. *)
Definition bad_pins (d : DisplayManager.DisplayInstance) : Prop :=
  DisplayManager.cs (DisplayManager.config d) = 0 \/
  DisplayManager.dc (DisplayManager.config d) = 0 \/
  DisplayManager.rst (DisplayManager.config d) = 0.

(** Arguments of the frame functions in the range of their C types
    ([int8_t] adjustments, [uint8_t] thickness) on a usable area of at
    most 1000 pixels a side. *)
Definition frame_args_ok (d : DisplayManager.DisplayInstance)
    (thickness adjustTop adjustBottom adjustLeft adjustRight : Z) : Prop :=
  let c := DisplayManager.config d in
  0 <= DisplayManager.usableX c <= 1000 /\
  0 <= DisplayManager.usableY c <= 1000 /\
  0 <= DisplayManager.usableWidth c <= 1000 /\
  0 <= DisplayManager.usableHeight c <= 1000 /\
  0 <= thickness <= 255 /\
  -128 <= adjustTop <= 127 /\ -128 <= adjustBottom <= 127 /\
  -128 <= adjustLeft <= 127 /\ -128 <= adjustRight <= 127.

(** A text after which a number ends: nothing, or a character that is
    not a digit. *)
Definition ends_number (rest : string) : Prop :=
  match rest with
  | EmptyString => True
  | String c _ => WString.isdigit c = false
  end.

(** Every character of a string passes a test. *)
Fixpoint all_chars (p : ascii -> bool) (s : string) : bool :=
  match s with
  | EmptyString => true
  | String c r => p c && all_chars p r
  end.

(** The characters of a decimal numeral. *)
Definition decimal_char (c : ascii) : bool :=
  WString.isdigit c || Ascii.eqb c "-".

(** Four edges on which [setUsableBounds] and the [exportConfig] that
    follows evaluate every [int] expression in range: [right - left],
    [right - left + 1] and their vertical twins on the way in, and
    [usableOriginX + usableWidth] = [right + 1] on the way out. *)
Definition edges_in_range (l r t b : Z) : Prop :=
  int_range l /\ int_range r /\ int_range t /\ int_range b /\
  int_range (r - l) /\ int_range (r - l + 1) /\
  int_range (b - t) /\ int_range (b - t + 1) /\
  int_range (r + 1) /\ int_range (b + 1).

(** Bounds whose edges [exportConfig] computes in range. *)
Definition bounds_in_range (s : State) : Prop :=
  int_range (usableOriginX s) /\ int_range (usableOriginY s) /\
  int_range (usableWidth s) /\ int_range (usableHeight s) /\
  int_range (usableOriginX s + usableWidth s) /\
  int_range (usableOriginX s + usableWidth s - 1) /\
  int_range (usableOriginY s + usableHeight s) /\
  int_range (usableOriginY s + usableHeight s - 1) /\
  int_range (usableWidth s - 1) /\ int_range (usableHeight s - 1).

(** * Properties *)

(** ** Clamping *)

Lemma fst_fix_if c f p : fst (fix_if c f p) = guarded c f (fst p).
Proof. unfold fix_if, guarded. destruct (c (fst p)); reflexivity. Qed.

Ltac eval_setters :=
  cbv beta iota delta
    [with_bounds bounds
     set_tftRotation set_currentRotation
     set_usableHeight set_usableWidth set_usableOriginY set_usableOriginX
     set_frameThickness set_currentMode set_lastSavedState
     set_hasUnsavedChanges set_hasEverSaved set_currentDisplayName
     set_configExists set_halted
     markModified tft_width tft_height rot
     tftRotation currentRotation usableOriginX usableOriginY usableWidth
     usableHeight frameThickness currentMode lastSavedState hasUnsavedChanges
     hasEverSaved currentDisplayName configExists halted].

Tactic Notation "eval_setters" "in" hyp(H) :=
  cbv beta iota delta
    [with_bounds bounds
     set_tftRotation set_currentRotation
     set_usableHeight set_usableWidth set_usableOriginY set_usableOriginX
     set_frameThickness set_currentMode set_lastSavedState
     set_hasUnsavedChanges set_hasEverSaved set_currentDisplayName
     set_configExists set_halted
     markModified tft_width tft_height rot
     tftRotation currentRotation usableOriginX usableOriginY usableWidth
     usableHeight frameThickness currentMode lastSavedState hasUnsavedChanges
     hasEverSaved currentDisplayName configExists halted] in H.

(** Turning a decided test into the arithmetic fact it stands for. *)
Ltac bool_facts E :=
  repeat first
    [ rewrite andb_true_iff in E | rewrite andb_false_iff in E
    | rewrite orb_true_iff in E | rewrite orb_false_iff in E
    | rewrite Z.gtb_ltb in E | rewrite Z.geb_leb in E
    | rewrite Z.ltb_lt in E | rewrite Z.ltb_ge in E
    | rewrite Z.leb_le in E | rewrite Z.leb_gt in E
    | rewrite Z.eqb_eq in E | rewrite Z.eqb_neq in E ].

(** Case analysis on the outermost test, keeping what it says. *)
Ltac step_if :=
  match goal with
  | |- context [if ?c then _ else _] =>
      let E := fresh "E" in
      destruct c eqn:E;
      cbv beta iota delta
        [set_usableHeight set_usableWidth set_usableOriginY
         set_usableOriginX set_frameThickness tft_width tft_height
         tftRotation usableOriginX usableOriginY usableWidth usableHeight
         frameThickness] in E;
      bool_facts E
  end;
  cbv beta iota.

(** Closed goals about concrete runs are settled by evaluation. *)
Ltac by_computation :=
  cbv zeta;
  repeat match goal with |- _ /\ _ => split end;
  vm_compute; first [reflexivity | discriminate].

Ltac split_ifs :=
  repeat match goal with
  | |- context [if ?c then _ else _] => destruct c
  end;
  cbv beta iota.

Ltac same_or_flagged H :=
  lazymatch goal with
  | |- ?x = ?x \/ _ => left; reflexivity
  | |- _ => right; apply H
  end.

Ltac norm_state :=
  cbn -[guarded Z.sub Z.add Z.min Z.max Z.ltb Z.gtb Z.geb Z.leb Z.eqb].

(** Each guarded assignment of the clamp is a [min] or a [max]. *)

Lemma guarded_x_lo s :
  guarded (fun s => usableOriginX s <? 0) (set_usableOriginX 0) s =
  set_usableOriginX (Z.max (usableOriginX s) 0) s.
Proof.
  destruct s as [tr cr x y w h ft cm ls hu he nm ce hl].
  unfold guarded; eval_setters.
  destruct (Z.ltb_spec x 0); f_equal; lia.
Qed.

Lemma guarded_y_lo s :
  guarded (fun s => usableOriginY s <? 0) (set_usableOriginY 0) s =
  set_usableOriginY (Z.max (usableOriginY s) 0) s.
Proof.
  destruct s as [tr cr x y w h ft cm ls hu he nm ce hl].
  unfold guarded; eval_setters.
  destruct (Z.ltb_spec y 0); f_equal; lia.
Qed.

Lemma guarded_x_hi m s :
  guarded (fun s => usableOriginX s >=? m) (set_usableOriginX (m - 1)) s =
  set_usableOriginX (Z.min (usableOriginX s) (m - 1)) s.
Proof.
  destruct s as [tr cr x y w h ft cm ls hu he nm ce hl].
  unfold guarded; eval_setters.
  destruct (Z.geb_spec x m); f_equal; lia.
Qed.

Lemma guarded_y_hi m s :
  guarded (fun s => usableOriginY s >=? m) (set_usableOriginY (m - 1)) s =
  set_usableOriginY (Z.min (usableOriginY s) (m - 1)) s.
Proof.
  destruct s as [tr cr x y w h ft cm ls hu he nm ce hl].
  unfold guarded; eval_setters.
  destruct (Z.geb_spec y m); f_equal; lia.
Qed.

Lemma guarded_w_hi m s :
  guarded (fun s => usableWidth s >? m) (set_usableWidth m) s =
  set_usableWidth (Z.min (usableWidth s) m) s.
Proof.
  destruct s as [tr cr x y w h ft cm ls hu he nm ce hl].
  unfold guarded; eval_setters.
  destruct (Z.gtb_spec w m); f_equal; lia.
Qed.

Lemma guarded_h_hi m s :
  guarded (fun s => usableHeight s >? m) (set_usableHeight m) s =
  set_usableHeight (Z.min (usableHeight s) m) s.
Proof.
  destruct s as [tr cr x y w h ft cm ls hu he nm ce hl].
  unfold guarded; eval_setters.
  destruct (Z.gtb_spec h m); f_equal; lia.
Qed.

Lemma guarded_w_lo s :
  guarded (fun s => usableWidth s <? 10) (set_usableWidth 10) s =
  set_usableWidth (Z.max (usableWidth s) 10) s.
Proof.
  destruct s as [tr cr x y w h ft cm ls hu he nm ce hl].
  unfold guarded; eval_setters.
  destruct (Z.ltb_spec w 10); f_equal; lia.
Qed.

Lemma guarded_h_lo s :
  guarded (fun s => usableHeight s <? 10) (set_usableHeight 10) s =
  set_usableHeight (Z.max (usableHeight s) 10) s.
Proof.
  destruct s as [tr cr x y w h ft cm ls hu he nm ce hl].
  unfold guarded; eval_setters.
  destruct (Z.ltb_spec h 10); f_equal; lia.
Qed.

Lemma guarded_w_fit m s :
  guarded (fun s => usableOriginX s + usableWidth s >? m)
          (fun s => set_usableWidth (m - usableOriginX s) s) s =
  set_usableWidth (Z.min (usableWidth s) (m - usableOriginX s)) s.
Proof.
  destruct s as [tr cr x y w h ft cm ls hu he nm ce hl].
  unfold guarded; eval_setters.
  destruct (Z.gtb_spec (x + w) m); f_equal; lia.
Qed.

Lemma guarded_h_fit m s :
  guarded (fun s => usableOriginY s + usableHeight s >? m)
          (fun s => set_usableHeight (m - usableOriginY s) s) s =
  set_usableHeight (Z.min (usableHeight s) (m - usableOriginY s)) s.
Proof.
  destruct s as [tr cr x y w h ft cm ls hu he nm ce hl].
  unfold guarded; eval_setters.
  destruct (Z.gtb_spec (y + h) m); f_equal; lia.
Qed.

(** The clamp rewrites the four calibration numbers, each axis on its
    own, and nothing else. *)
Lemma clamp_closed maxX maxY s :
  clamp maxX maxY s =
  with_bounds
    (clamp_origin maxX (usableOriginX s),
     clamp_origin maxY (usableOriginY s),
     clamp_size maxX (clamp_origin maxX (usableOriginX s)) (usableWidth s),
     clamp_size maxY (clamp_origin maxY (usableOriginY s)) (usableHeight s))
    s.
Proof.
  unfold clamp, validateAndClampBounds_at.
  cbv zeta.
  rewrite !fst_fix_if. cbn [fst].
  destruct s as [tr cr x y w h ft cm ls hu he nm ce hl].
  rewrite guarded_x_lo; norm_state.
  rewrite guarded_y_lo; norm_state.
  rewrite guarded_x_hi; norm_state.
  rewrite guarded_y_hi; norm_state.
  rewrite guarded_w_hi; norm_state.
  rewrite guarded_h_hi; norm_state.
  rewrite guarded_w_lo; norm_state.
  rewrite guarded_h_lo; norm_state.
  rewrite guarded_w_fit; norm_state.
  rewrite guarded_h_fit; norm_state.
  unfold clamp_origin, clamp_size. eval_setters.
  f_equal; lia.
Qed.

Lemma validateAndClampBounds_clamp s :
  fst (validateAndClampBounds s) = clamp (tft_width s) (tft_height s) s.
Proof. unfold validateAndClampBounds, clamp. reflexivity. Qed.

(** On a surface that fits in an [int] with ten to spare, no expression
    the clamp evaluates on an axis leaves the 32-bit range. *)
Lemma clamp_no_overflow maxv v size :
  0 < maxv <= 2 ^ 31 - 11 -> int_range v -> int_range size ->
  let v' := clamp_origin maxv v in
  int_range (maxv - 1) /\ int_range (maxv - v') /\
  int_range (v' + Z.max (Z.min size (maxv - v')) 10).
Proof.
  unfold int_range, clamp_origin. intros Hm Hv Hs. cbv zeta.
  change (2 ^ 31) with 2147483648 in *. lia.
Qed.

(** Bounds that already satisfy the invariants are left alone. *)
Lemma clamp_fixes_valid maxX maxY s :
  invariants maxX maxY s -> clamp maxX maxY s = s.
Proof.
  intros [[Hx Hy] [[Hw Hh] [Hmw Hmh]]].
  rewrite clamp_closed.
  destruct s as [tr cr x y w h ft cm ls hu he nm ce hl].
  unfold clamp_origin, clamp_size. eval_setters.
  cbn in Hx, Hy, Hw, Hh, Hmw, Hmh.
  f_equal; lia.
Qed.

Lemma clamp_frame maxX maxY s :
  tftRotation (clamp maxX maxY s) = tftRotation s /\
  currentRotation (clamp maxX maxY s) = currentRotation s /\
  frameThickness (clamp maxX maxY s) = frameThickness s /\
  currentMode (clamp maxX maxY s) = currentMode s /\
  lastSavedState (clamp maxX maxY s) = lastSavedState s /\
  hasUnsavedChanges (clamp maxX maxY s) = hasUnsavedChanges s /\
  hasEverSaved (clamp maxX maxY s) = hasEverSaved s /\
  halted (clamp maxX maxY s) = halted s.
Proof.
  rewrite clamp_closed.
  destruct s as [tr cr x y w h ft cm ls hu he nm ce hl].
  eval_setters. repeat split.
Qed.

(** C2, as the code has it: on every surface of positive width and height
    and for every input rectangle, the clamped origin is non-negative, the
    clamped rectangle lies inside the surface and is at least one pixel
    wide and high.  The ten-pixel floor holds on an axis exactly when the
    clamped origin leaves ten pixels before the edge; otherwise the size
    is what is left up to the edge. *)
Theorem clamp_invariants (maxX maxY : Z) (s : State) :
  0 < maxX -> 0 < maxY ->
  let s' := clamp maxX maxY s in
  origin_nonneg s' /\ inside_surface maxX maxY s' /\
  1 <= usableWidth s' /\ 1 <= usableHeight s' /\
  (usableOriginX s' + 10 <= maxX -> 10 <= usableWidth s') /\
  (usableOriginY s' + 10 <= maxY -> 10 <= usableHeight s') /\
  (maxX < usableOriginX s' + 10 -> usableWidth s' = maxX - usableOriginX s') /\
  (maxY < usableOriginY s' + 10 -> usableHeight s' = maxY - usableOriginY s').
Proof.
  intros HX HY s'. subst s'. rewrite clamp_closed.
  destruct s as [tr cr x y w h ft cm ls hu he nm ce hl].
  unfold origin_nonneg, inside_surface, clamp_origin, clamp_size.
  eval_setters. lia.
Qed.

Lemma clamp_invariants_witness :
  let s' := clamp 160 128 (setUsableBounds 155 174 (-3) 500 initial_globals) in
  bounds s' = (155, 0, 5, 128) /\
  origin_nonneg s' /\ inside_surface 160 128 s' /\
  1 <= usableWidth s' /\ 1 <= usableHeight s' /\
  (usableOriginX s' + 10 <= 160 -> 10 <= usableWidth s') /\
  (usableOriginY s' + 10 <= 128 -> 10 <= usableHeight s') /\
  (160 < usableOriginX s' + 10 -> usableWidth s' = 160 - usableOriginX s') /\
  (128 < usableOriginY s' + 10 -> usableHeight s' = 128 - usableOriginY s').
Proof.
  split; [reflexivity |].
  apply (clamp_invariants 160 128); lia.
Defined.

(** C2, as the spec states it, fails: an origin five pixels from the right
    edge leaves a clamped width of five. *)
Lemma clamp_below_min_size :
  ~ invariants 160 128
      (clamp 160 128 (setUsableBounds 155 174 0 127 initial_globals)).
Proof.
  unfold invariants, min_size. intros [_ [_ [H _]]].
  vm_compute in H. apply H. reflexivity.
Qed.

Lemma clamp_twice maxX maxY s :
  clamp maxX maxY (clamp maxX maxY s) = clamp maxX maxY s.
Proof.
  rewrite !clamp_closed.
  destruct s as [tr cr x y w h ft cm ls hu he nm ce hl].
  unfold clamp_origin, clamp_size. eval_setters.
  f_equal; lia.
Qed.

(** C8: clamping twice gives the bounds (and the whole state) that
    clamping once gives, on every surface, for [validateAndClampBounds]
    as well as for its body. *)
Theorem clamp_idempotent (maxX maxY : Z) (s : State) :
  clamp maxX maxY (clamp maxX maxY s) = clamp maxX maxY s /\
  bounds (clamp maxX maxY (clamp maxX maxY s)) = bounds (clamp maxX maxY s) /\
  fst (validateAndClampBounds (fst (validateAndClampBounds s)))
  = fst (validateAndClampBounds s).
Proof.
  split; [apply clamp_twice | split; [rewrite clamp_twice; reflexivity |]].
  rewrite !validateAndClampBounds_clamp.
  unfold tft_width, tft_height.
  destruct (clamp_frame (Tft.width (tftRotation s))
              (Tft.height (tftRotation s)) s) as [-> _].
  apply clamp_twice.
Qed.

(** The [modified] flag is another matter: on bounds squeezed against the
    edge the second run raises the width to ten and shrinks it again, so
    it reports a modification without changing anything. *)
Example clamp_flag_second_run :
  let s1 := clamp 160 128 (setUsableBounds 155 174 0 127 initial_globals) in
  validateAndClampBounds_at 160 128 s1 = (s1, true).
Proof. vm_compute. reflexivity. Qed.

(** ** Rotation *)

Lemma rotation_cases r : 0 <= r <= 3 -> r = 0 \/ r = 1 \/ r = 2 \/ r = 3.
Proof. lia. Qed.

Lemma setRotation_in_range r s :
  0 <= r <= 3 ->
  setRotation r s =
  set_usableHeight 0 (set_usableWidth 0 (set_usableOriginY 0
    (set_usableOriginX 0 (set_tftRotation r (set_currentRotation r s))))).
Proof.
  intros Hr. unfold setRotation.
  destruct (rotation_cases r Hr) as [-> | [-> | [-> | ->]]]; reflexivity.
Qed.

Lemma setRotation_out_of_range r s :
  r < 0 \/ 3 < r -> setRotation r s = s.
Proof.
  intros Hr. unfold setRotation.
  destruct (Z.geb_spec r 0); destruct (Z.leb_spec r 3); cbn; try reflexivity.
  lia.
Qed.

(** C7: from every session state, [Rotate] steps the rotation modulo 4
    (left adds 3, right adds 1), swaps the width and height of the nominal
    surface, resets the usable bounds to the unset sentinel whatever they
    were, and sets the unsaved-changes flag. *)
Theorem rotateDisplay_spec (s : State) :
  session_ok s ->
  (let s' := rotateDisplay "L" s in
   currentRotation s' = (currentRotation s + 3) mod 4 /\
   tft_width s' = tft_height s /\ tft_height s' = tft_width s /\
   bounds s' = (0, 0, 0, 0) /\ bounds_unset s' = true /\
   hasUnsavedChanges s' = true /\ session_ok s') /\
  (let s' := rotateDisplay "R" s in
   currentRotation s' = (currentRotation s + 1) mod 4 /\
   tft_width s' = tft_height s /\ tft_height s' = tft_width s /\
   bounds s' = (0, 0, 0, 0) /\ bounds_unset s' = true /\
   hasUnsavedChanges s' = true /\ session_ok s').
Proof.
  intros [Hr Ht].
  destruct s as [tr cr x y w h ft cm ls hu he nm ce hl].
  cbn in Hr, Ht. subst tr.
  unfold session_ok, tft_width, tft_height.
  destruct (rotation_cases cr Hr) as [-> | [-> | [-> | ->]]];
    cbn; repeat split; lia.
Qed.

Lemma rotateDisplay_spec_witness :
  session_ok bootstrap /\
  currentRotation (rotateDisplay "L" bootstrap) = 0 /\
  bounds (rotateDisplay "L" bootstrap) = (0, 0, 0, 0) /\
  currentRotation (rotateDisplay "R" bootstrap) = 2 /\
  tft_width (rotateDisplay "R" bootstrap) = 128.
Proof.
  assert (Hok : session_ok bootstrap) by (unfold session_ok; cbn; lia).
  destruct (rotateDisplay_spec bootstrap Hok)
    as [[HL [_ [_ [HbL _]]]] [HR [HwR _]]].
  repeat split; try assumption; try (cbn; lia).
Defined.

(** C10: in Rotate mode an arrow that is neither Left nor Right (Up and
    Down in particular) keeps the rotation, and still resets the usable
    bounds to the unset sentinel and sets the unsaved-changes flag. *)
Theorem rotate_mode_other_arrow (s : State) (key : ascii) :
  0 <= currentRotation s <= 3 ->
  currentMode s = MODE_ROTATION ->
  key <> "L"%char -> key <> "R"%char ->
  let s' := handleArrowKey key s in
  currentRotation s' = currentRotation s /\
  bounds s' = (0, 0, 0, 0) /\ bounds_unset s' = true /\
  hasUnsavedChanges s' = true.
Proof.
  intros Hr Hm HL HR. unfold handleArrowKey. rewrite Hm. cbv zeta.
  unfold rotateDisplay.
  apply Ascii.eqb_neq in HL, HR. rewrite HL, HR.
  rewrite setRotation_in_range by exact Hr.
  destruct s as [tr cr x y w h ft cm ls hu he nm ce hl].
  repeat split.
Qed.

Lemma rotate_mode_other_arrow_witness :
  let s := set_currentMode MODE_ROTATION bootstrap in
  bounds s = (0, 0, 160, 128) /\ hasUnsavedChanges s = false /\
  currentRotation (handleArrowKey "U" s) = 1 /\
  bounds (handleArrowKey "U" s) = (0, 0, 0, 0) /\
  bounds_unset (handleArrowKey "D" s) = true /\
  hasUnsavedChanges (handleArrowKey "D" s) = true.
Proof.
  cbv zeta.
  assert (Hr : 0 <= currentRotation (set_currentMode MODE_ROTATION bootstrap)
               <= 3) by (cbn; lia).
  destruct (rotate_mode_other_arrow
              (set_currentMode MODE_ROTATION bootstrap) "U" Hr eq_refl
              ltac:(discriminate) ltac:(discriminate)) as [HU [HbU _]].
  destruct (rotate_mode_other_arrow
              (set_currentMode MODE_ROTATION bootstrap) "D" Hr eq_refl
              ltac:(discriminate) ltac:(discriminate)) as [_ [_ [HuD HfD]]].
  repeat split; assumption.
Defined.

(** ** Export *)

Lemma exportConfig_state s : snd (exportConfig s) = s.
Proof.
  unfold exportConfig.
  destruct ((usableWidth s =? 0) || (usableHeight s =? 0)); reflexivity.
Qed.

(** C9: [exportConfig] never changes the state; it reports the
    bounds-not-set error exactly when the usable bounds are unset and
    prints the configuration block exactly when they are set; the
    orientation line of the block carries the label of the current
    rotation, 0 portrait, 1 landscape, 2 reverse_portrait and
    3 reverse_landscape. *)
Theorem exportConfig_spec (s : State) :
  snd (exportConfig s) = s /\
  (fst (exportConfig s) = BoundsNotSet <-> bounds_unset s = true) /\
  (fst (exportConfig s) = ConfigFile (config_file s)
   <-> bounds_unset s = false) /\
  In ("orientation = " ++ quoted (orientation_of (currentRotation s)))
     (config_file s) /\
  orientation_of 0 = "portrait" /\
  orientation_of 1 = "landscape" /\
  orientation_of 2 = "reverse_portrait" /\
  orientation_of 3 = "reverse_landscape".
Proof.
  unfold exportConfig, bounds_unset.
  destruct ((usableWidth s =? 0) || (usableHeight s =? 0)); cbn [fst snd].
  - repeat split; try reflexivity; try discriminate.
    unfold config_file. cbn [In orientation export_locals].
    do 19 right. left. reflexivity.
  - repeat split; try reflexivity; try discriminate.
    unfold config_file. cbn [In orientation export_locals].
    do 19 right. left. reflexivity.
Qed.

(** ** Modes and saving *)

(** C4, as the spec states it, fails: with Edge Adjust selected, the key
    [5] leaves the mode field at Save-and-Exit, not at Edge Adjust. *)
Lemma mode_select_5_changes_mode :
  let before := loop "1" EmptyString "y" bootstrap in
  let after := loop "5" EmptyString "y" before in
  currentMode before = MODE_EDGE_ADJUST /\
  currentMode after <> currentMode before.
Proof. by_computation. Qed.

(** C4, as the code has it: [ModeSelect(5)] stores Save-and-Exit in the
    mode field and then performs the save-and-export action; whatever the
    mode was before, it is Save-and-Exit afterwards. *)
Theorem mode_select_5_spec (s : State) (response : ascii) :
  setMode 5 response s = snd (saveAndExit (set_currentMode MODE_SAVE_EXIT s))
  /\ currentMode (setMode 5 response s) = MODE_SAVE_EXIT
  /\ bounds (setMode 5 response s) = bounds s
  /\ currentRotation (setMode 5 response s) = currentRotation s
  /\ frameThickness (setMode 5 response s) = frameThickness s.
Proof.
  destruct s as [tr cr x y w h ft cm ls hu he nm ce hl].
  unfold setMode, saveAndExit, exportConfig. eval_setters. cbn.
  destruct ((w =? 0) || (h =? 0)); repeat split.
Qed.

(** [saveAndExit] clears the flag and overwrites the snapshot whatever
    its export reported. *)
Lemma saveAndExit_unconditional s :
  hasUnsavedChanges (snd (saveAndExit s)) = false /\
  hasEverSaved (snd (saveAndExit s)) = true /\
  lastSavedState (snd (saveAndExit s)) = snapshot s /\
  fst (saveAndExit s) = fst (exportConfig s).
Proof.
  destruct s as [tr cr x y w h ft cm ls hu he nm ce hl].
  unfold saveAndExit, exportConfig. eval_setters.
  destruct ((w =? 0) || (h =? 0)); repeat split.
Qed.

(** C5 on the code: after one turn clockwise the bounds are unset and the
    flag is set; the key [5] then reports the bounds-not-set error, and
    nevertheless clears the flag and replaces the last-saved snapshot. *)
Theorem failed_save_clears_flag :
  let before := loop "027" "[C" "y" (loop "4" EmptyString "y" bootstrap) in
  let after := loop "5" EmptyString "y" before in
  bounds_unset before = true /\ hasUnsavedChanges before = true /\
  fst (saveAndExit (set_currentMode MODE_SAVE_EXIT before)) = BoundsNotSet /\
  hasUnsavedChanges after = false /\
  lastSavedState before = mkSaved 1 0 0 0 0 2 /\
  lastSavedState after = mkSaved 2 0 0 0 0 2.
Proof. by_computation. Qed.

(** Every accepted edit sets the flag: each edit operation either returns
    the state it was given or a state with the flag set. *)
Lemma edits_mark_modified key s :
  (adjustEdge key s = s \/ hasUnsavedChanges (adjustEdge key s) = true) /\
  (moveFrame key s = s \/ hasUnsavedChanges (moveFrame key s) = true) /\
  (adjustThickness key s = s
   \/ hasUnsavedChanges (adjustThickness key s) = true) /\
  hasUnsavedChanges (rotateDisplay key s) = true.
Proof.
  assert (Hc : forall s', hasUnsavedChanges
            (redrawFrame (markModified s')) = true).
  { intros s'. unfold redrawFrame. rewrite validateAndClampBounds_clamp.
    destruct (clamp_frame (tft_width (markModified s'))
                (tft_height (markModified s')) (markModified s'))
      as (_ & _ & _ & _ & _ & -> & _).
    reflexivity. }
  split; [| split; [| split]].
  - unfold adjustEdge.
    destruct ((usableWidth s =? 0) || (usableHeight s =? 0));
      [left; reflexivity |].
    cbv zeta. split_ifs; same_or_flagged Hc.
  - unfold moveFrame.
    destruct ((usableWidth s =? 0) || (usableHeight s =? 0));
      [left; reflexivity |].
    cbv zeta. split_ifs; same_or_flagged Hc.
  - unfold adjustThickness. split_ifs; same_or_flagged Hc.
  - unfold rotateDisplay, markModified. cbv zeta.
    destruct (setRotation _ _); reflexivity.
Qed.

(** ** Guards on unset bounds *)

Lemma redraw_after_thickness v s :
  frameThickness (redrawFrame (markModified (set_frameThickness v s))) = v /\
  hasUnsavedChanges (redrawFrame (markModified (set_frameThickness v s)))
  = true.
Proof.
  unfold redrawFrame. rewrite validateAndClampBounds_clamp.
  destruct (clamp_frame
              (tft_width (markModified (set_frameThickness v s)))
              (tft_height (markModified (set_frameThickness v s)))
              (markModified (set_frameThickness v s)))
    as (_ & _ & -> & _ & _ & -> & _).
  split; reflexivity.
Qed.

Lemma edits_guarded key s :
  bounds_unset s = true -> adjustEdge key s = s /\ moveFrame key s = s.
Proof.
  unfold bounds_unset, adjustEdge, moveFrame. intros ->. split; reflexivity.
Qed.

(** ** The calibration scenario *)

(** A [setup] that does not halt ends in the bootstrap state of the
    display it was given. *)
Lemma setup_not_halted choice name :
  halted (setup choice name initial_globals) = false ->
  setup choice name initial_globals =
  mkState 1 1 0 0 160 128 2 MODE_NONE (mkSaved 1 0 0 0 0 2)
    false false name true false.
Proof.
  unfold setup, selectOrCreateDisplay. cbv zeta.
  destruct (String.eqb choice "1" || String.eqb choice "2");
    [| intros H; cbn in H; discriminate].
  destruct name as [| c name]; [intros H; cbn in H; discriminate |].
  assert (Hl : (WString.length
                  (currentDisplayName
                     (set_currentDisplayName (String c name)
                        (set_tftRotation
                           (Tft.setRotation
                              (currentRotation
                                 (set_currentRotation 1 initial_globals)))
                           (set_currentRotation 1 initial_globals)))) =? 0)
               = false).
  { unfold WString.length. cbn [currentDisplayName set_currentDisplayName
      String.length]. apply Z.eqb_neq. lia. }
  rewrite Hl. intros _. reflexivity.
Qed.

(** C1, as the code has it: from the bootstrap state (160 by 128 at
    rotation 1, bounds (0,0,160,128)) one contract-left gives (1,0,159,128),
    two contract-top give (1,2,159,126), and the export prints left = 1,
    right = 159, top = 2, bottom = 127 and center = [80, 65]. *)
Theorem scenario_export (choice name : string) :
  halted (setup choice name initial_globals) = false ->
  scenario_outcome (setup choice name initial_globals) 80 65.
Proof.
  intros H. rewrite (setup_not_halted choice name H).
  unfold scenario_outcome.
  repeat match goal with |- _ /\ _ => split end;
    try (vm_compute; reflexivity).
  eexists. split; [vm_compute; reflexivity |].
  repeat match goal with |- _ /\ _ => split end; vm_compute;
    repeat first [left; reflexivity | right].
Qed.

Lemma scenario_export_witness :
  halted bootstrap = false /\ scenario_outcome bootstrap 80 65.
Proof.
  split; [reflexivity |].
  apply (scenario_export "1" "DueLCD01"). reflexivity.
Defined.

(** C1, as the spec states it, fails: the centre line of that export is
    not [center = [80, 64]]. *)
Lemma scenario_center_not_64 : ~ scenario_outcome bootstrap 80 64.
Proof.
  unfold scenario_outcome.
  intros (_ & _ & _ & _ & _ & _ & lines & Hl & _ & _ & _ & _ & Hc).
  vm_compute in Hl. injection Hl as <-.
  vm_compute in Hc.
  repeat match type of Hc with
  | _ \/ _ => destruct Hc as [Hc | Hc]; [discriminate Hc |]
  end.
  exact Hc.
Qed.

(** ** The legacy [bounds] command *)

Lemma invariantsb_spec maxX maxY s :
  invariantsb maxX maxY s = true <-> invariants maxX maxY s.
Proof.
  unfold invariantsb, invariants, origin_nonneg, inside_surface, min_size.
  rewrite !andb_true_iff, !Z.leb_le. tauto.
Qed.

(** C3 on the code: the line [bounds 0,200,0,127] typed at the bootstrap
    state stores origin (0,0) and size 201 by 128 as parsed.  The bounds
    are not the unset sentinel, they reach past the 160-pixel surface, and
    the export that follows prints right = 200. *)
Theorem legacy_bounds_not_clamped :
  let s := loop "b" "ounds 0,200,0,127" "y" bootstrap in
  s = processCommand "bounds 0,200,0,127" bootstrap /\
  s = setUsableBounds 0 200 0 127 bootstrap /\
  tft_width s = 160 /\ tft_height s = 128 /\
  bounds s = (0, 0, 201, 128) /\
  bounds_unset s = false /\
  invariantsb (tft_width s) (tft_height s) s = false /\
  ~ inside_surface (tft_width s) (tft_height s) s /\
  In "right = 200" (config_file s).
Proof.
  cbv zeta.
  repeat match goal with |- _ /\ _ => split end;
    try (vm_compute; reflexivity).
  - unfold inside_surface. vm_compute. intros [H _]. apply H. reflexivity.
  - vm_compute. repeat first [left; reflexivity | right].
Qed.

(** A line without its three commas is a format error and changes
    nothing. *)
Lemma legacy_bounds_malformed :
  processCommand "bounds 1 158 2 127" bootstrap = bootstrap /\
  processCommand "bounds 1,158,2" bootstrap = bootstrap /\
  processCommand "BOUNDS 1,158,2,127" bootstrap
  = setUsableBounds 1 158 2 127 bootstrap.
Proof. by_computation. Qed.

(** ** What the arrow keys keep *)

Lemma clamp_markModified maxX maxY s :
  clamp maxX maxY (markModified s) = markModified (clamp maxX maxY s).
Proof.
  rewrite !clamp_closed.
  destruct s as [tr cr x y w h ft cm ls hu he nm ce hl].
  eval_setters. reflexivity.
Qed.

Lemma tftRotation_markModified s :
  tftRotation (markModified s) = tftRotation s.
Proof. destruct s; reflexivity. Qed.

(** What an accepted edit does after its assignment: two clamps and the
    flag, which amount to one clamp and the flag. *)
Lemma accepted_edit s :
  redrawFrame (markModified (fst (validateAndClampBounds s)))
  = markModified (clamp (tft_width s) (tft_height s) s).
Proof.
  unfold redrawFrame. rewrite !validateAndClampBounds_clamp.
  set (W := tft_width s). set (H := tft_height s).
  assert (HW : tft_width (markModified (clamp W H s)) = W).
  { unfold tft_width.
    rewrite tftRotation_markModified.
    destruct (clamp_frame W H s) as [-> _]. reflexivity. }
  assert (HH : tft_height (markModified (clamp W H s)) = H).
  { unfold tft_height.
    rewrite tftRotation_markModified.
    destruct (clamp_frame W H s) as [-> _]. reflexivity. }
  rewrite HW, HH, clamp_markModified, clamp_twice. reflexivity.
Qed.

Lemma accepted_edit_rot s :
  rot (redrawFrame (markModified (fst (validateAndClampBounds s)))) = rot s.
Proof.
  rewrite accepted_edit, clamp_closed.
  destruct s as [tr cr x y w h ft cm ls hu he nm ce hl].
  eval_setters. reflexivity.
Qed.

Ltac edit_leaf :=
  split;
  [ try rewrite accepted_edit; try rewrite clamp_closed;
    unfold invariants, origin_nonneg, inside_surface, min_size,
      clamp_origin, clamp_size;
    eval_setters; lia
  | try rewrite accepted_edit_rot; eval_setters; reflexivity ].

(** An edge adjustment keeps the invariants. *)
Lemma adjustEdge_keeps_invariants key s :
  invariants (tft_width s) (tft_height s) s ->
  invariants (tft_width s) (tft_height s) (adjustEdge key s)
  /\ rot (adjustEdge key s) = rot s.
Proof.
  destruct s as [tr cr x y w h ft cm ls hu he nm ce hl].
  intros Hinv.
  unfold invariants, origin_nonneg, inside_surface, min_size in Hinv.
  eval_setters in Hinv.
  unfold adjustEdge. cbv zeta.
  repeat step_if; edit_leaf.
Qed.

(** So does a frame move. *)
Lemma moveFrame_keeps_invariants key s :
  invariants (tft_width s) (tft_height s) s ->
  invariants (tft_width s) (tft_height s) (moveFrame key s)
  /\ rot (moveFrame key s) = rot s.
Proof.
  destruct s as [tr cr x y w h ft cm ls hu he nm ce hl].
  intros Hinv.
  unfold invariants, origin_nonneg, inside_surface, min_size in Hinv.
  eval_setters in Hinv.
  unfold moveFrame. cbv zeta.
  repeat step_if; edit_leaf.
Qed.

Lemma session_ok_surface s :
  session_ok s ->
  (tft_width s = 160 /\ tft_height s = 128) \/
  (tft_width s = 128 /\ tft_height s = 160).
Proof.
  intros [Hr Ht]. unfold tft_width, tft_height. rewrite Ht.
  destruct (rotation_cases _ Hr) as [-> | [-> | [-> | ->]]]; cbn; auto.
Qed.

(** ** A thickness step on unset bounds *)

(** An accepted thickness step is the new thickness, the flag and one
    run of the clamp. *)
Lemma thickness_step_state v s :
  redrawFrame (markModified (set_frameThickness v s))
  = markModified
      (set_frameThickness v (clamp (tft_width s) (tft_height s) s)).
Proof.
  unfold redrawFrame. rewrite validateAndClampBounds_clamp.
  rewrite !clamp_closed.
  destruct s as [tr cr x y w h ft cm ls hu he nm ce hl].
  eval_setters. reflexivity.
Qed.

(** The clamp never leaves a zero width or height behind. *)
Lemma clamp_sets_bounds maxX maxY s :
  0 < maxX -> 0 < maxY ->
  bounds_unset (clamp maxX maxY s) = false /\
  (10 <= maxX -> 10 <= maxY -> bounds s = (0, 0, 0, 0) ->
   bounds (clamp maxX maxY s) = (0, 0, 10, 10)).
Proof.
  intros HX HY. rewrite clamp_closed.
  destruct s as [tr cr x y w h ft cm ls hu he nm ce hl].
  unfold bounds_unset, clamp_origin, clamp_size. eval_setters.
  split.
  - apply orb_false_iff. split; apply Z.eqb_neq; lia.
  - intros HX' HY' E. injection E as -> -> -> ->.
    repeat f_equal; lia.
Qed.

(** C6 on the code: with the usable bounds unset, [adjustEdge] and
    [moveFrame] return at their guard in every direction, and
    [adjustThickness], which has no such guard, accepts Up below 5 and
    Down above 1.  The accepted step changes the state: it stores the new
    thickness, sets the unsaved-changes flag and, through the clamp of
    [redrawFrame], replaces the unset bounds by a rectangle, ten by ten at
    the origin when the sentinel was all zero, so that the bounds are no
    longer unset and an export prints a record.  Nothing else of the
    state moves. *)
Theorem thickness_step_sets_bounds (s : State) (direction : ascii) :
  session_ok s ->
  bounds_unset s = true ->
  (direction = "U"%char /\ frameThickness s < 5) \/
  (direction = "D"%char /\ 1 < frameThickness s) ->
  let s' := adjustThickness direction s in
  (forall d, adjustEdge d s = s /\ moveFrame d s = s) /\
  s' = markModified
         (set_frameThickness
            (if Ascii.eqb direction "U" then frameThickness s + 1
             else frameThickness s - 1)
            (clamp (tft_width s) (tft_height s) s)) /\
  s' <> s /\
  bounds_unset s' = false /\
  (bounds s = (0, 0, 0, 0) -> bounds s' = (0, 0, 10, 10)) /\
  fst (exportConfig s') = ConfigFile (config_file s') /\
  rot s' = rot s /\ currentMode s' = currentMode s /\
  lastSavedState s' = lastSavedState s /\ halted s' = halted s /\
  hasUnsavedChanges s' = true.
Proof.
  intros Hs Hu Hd s'.
  assert (Hsurf : 10 <= tft_width s /\ 10 <= tft_height s).
  { destruct Hs as [Hr Ht]. unfold tft_width, tft_height. rewrite Ht.
    destruct (rotation_cases _ Hr) as [-> | [-> | [-> | ->]]];
      vm_compute; split; discriminate. }
  destruct Hsurf as [HW HH].
  set (v := if Ascii.eqb direction "U" then frameThickness s + 1
            else frameThickness s - 1).
  assert (E : s' = markModified
                     (set_frameThickness v
                        (clamp (tft_width s) (tft_height s) s))).
  { subst s' v. unfold adjustThickness.
    destruct Hd as [[-> Ht] | [-> Ht]]; cbn [Ascii.eqb Bool.eqb andb].
    - destruct (Z.ltb_spec (frameThickness s) 5); [| lia].
      apply thickness_step_state.
    - destruct (Z.gtb_spec (frameThickness s) 1); [| lia].
      apply thickness_step_state. }
  destruct (clamp_sets_bounds (tft_width s) (tft_height s) s
              ltac:(lia) ltac:(lia)) as [Hset Hzero].
  destruct (clamp_frame (tft_width s) (tft_height s) s)
    as (Ftr & Fcr & _ & Fcm & Fls & _ & _ & Fhl).
  assert (Hun : bounds_unset s' = false).
  { rewrite E. revert Hset.
    destruct (clamp (tft_width s) (tft_height s) s). exact (fun H => H). }
  split; [intros d; apply edits_guarded; exact Hu |].
  split; [exact E |].
  split; [intros Heq; rewrite Heq in Hun; congruence |].
  split; [exact Hun |].
  split.
  { intros Hb. rewrite E. specialize (Hzero HW HH Hb). revert Hzero.
    destruct (clamp (tft_width s) (tft_height s) s). exact (fun H => H). }
  split.
  { unfold exportConfig. unfold bounds_unset in Hun. rewrite Hun.
    reflexivity. }
  rewrite E. revert Ftr Fcr Fcm Fls Fhl.
  destruct (clamp (tft_width s) (tft_height s) s), s. eval_setters.
  intros -> -> -> -> ->. repeat split.
Qed.

Lemma thickness_step_sets_bounds_witness :
  let s := loop "3" EmptyString "y"
             (loop "027" "[C" "y" (loop "4" EmptyString "y" bootstrap)) in
  let s' := loop "027" "[A" "y" s in
  bounds s = (0, 0, 0, 0) /\
  s' = adjustThickness "U" s /\
  adjustEdge "U" s = s /\ moveFrame "U" s = s /\
  frameThickness s = 2 /\ frameThickness s' = 3 /\
  bounds s' = (0, 0, 10, 10) /\
  s' <> s /\
  fst (exportConfig s') = ConfigFile (config_file s') /\
  In "right = 9" (config_file s').
Proof.
  cbv zeta.
  set (s := loop "3" EmptyString "y"
              (loop "027" "[C" "y" (loop "4" EmptyString "y" bootstrap))).
  assert (Hs : session_ok s) by (split; vm_compute; [split |]; congruence).
  assert (Hu : bounds_unset s = true) by reflexivity.
  assert (Hd : ("U"%char = "U"%char /\ frameThickness s < 5) \/
               ("U"%char = "D"%char /\ 1 < frameThickness s))
    by (left; split; [reflexivity | vm_compute; reflexivity]).
  assert (Hl : loop "027" "[A" "y" s = adjustThickness "U" s)
    by (vm_compute; reflexivity).
  rewrite Hl.
  destruct (thickness_step_sets_bounds s "U" Hs Hu Hd)
    as (Hg & He & Hne & _ & Hb & Hx & _).
  repeat match goal with |- _ /\ _ => split end.
  - vm_compute; reflexivity.
  - reflexivity.
  - exact (proj1 (Hg "U"%char)).
  - exact (proj2 (Hg "U"%char)).
  - vm_compute; reflexivity.
  - rewrite He. vm_compute; reflexivity.
  - exact (Hb eq_refl).
  - exact Hne.
  - exact Hx.
  - rewrite He. vm_compute. repeat first [left; reflexivity | right].
Defined.

Lemma geom_ok s s' :
  geom s' = geom s ->
  (session_ok s -> session_ok s') /\ (bounds_ok s -> bounds_ok s').
Proof.
  unfold geom, session_ok, bounds_ok, invariants, origin_nonneg,
    inside_surface, min_size, tft_width, tft_height, bounds, rot.
  intros H. injection H as -> -> -> -> -> ->. tauto.
Qed.

Lemma adjustThickness_keeps_bounds_ok key s :
  session_ok s -> bounds_ok s ->
  bounds_ok (adjustThickness key s) /\ rot (adjustThickness key s) = rot s.
Proof.
  intros Hs Hb.
  assert (Hleaf : forall v,
    bounds_ok (redrawFrame (markModified (set_frameThickness v s))) /\
    rot (redrawFrame (markModified (set_frameThickness v s))) = rot s).
  { intros v. unfold redrawFrame.
    rewrite validateAndClampBounds_clamp, clamp_closed.
    pose proof (session_ok_surface s Hs) as HW.
    destruct s as [tr cr x y w h ft cm ls hu he nm ce hl].
    unfold bounds_ok, invariants, origin_nonneg, inside_surface, min_size,
      clamp_origin, clamp_size in *.
    eval_setters in Hb. eval_setters in HW. eval_setters.
    split; [| reflexivity].
    right. destruct Hb as [Hb | Hb]; [injection Hb as -> -> -> -> |]; lia. }
  unfold adjustThickness.
  repeat step_if; first [apply Hleaf | split; [assumption | reflexivity]].
Qed.

Lemma rotateDisplay_keeps_ok key s :
  session_ok s ->
  session_ok (rotateDisplay key s) /\ bounds_ok (rotateDisplay key s).
Proof.
  intros [Hr Ht].
  destruct s as [tr cr x y w h ft cm ls hu he nm ce hl].
  cbn in Hr, Ht. subst tr.
  unfold session_ok, bounds_ok, rotateDisplay.
  destruct (Ascii.eqb key "L"); [| destruct (Ascii.eqb key "R")];
    destruct (rotation_cases cr Hr) as [-> | [-> | [-> | ->]]];
    cbn; (split; [lia | left; reflexivity]).
Qed.

(** Every arrow key, in every mode, keeps the session and its bounds in
    order: the edits clamp after they assign. *)
Lemma handleArrowKey_keeps_ok key s :
  session_ok s -> bounds_ok s ->
  session_ok (handleArrowKey key s) /\ bounds_ok (handleArrowKey key s).
Proof.
  intros Hs Hb. unfold handleArrowKey.
  destruct (currentMode s); try (split; assumption).
  - (* Edge Adjust *)
    destruct Hb as [Hb | Hb].
    + assert (Hu : bounds_unset s = true).
      { unfold bounds, bounds_unset in *. injection Hb as _ _ -> _.
        reflexivity. }
      destruct (edits_guarded key s Hu) as [-> _].
      split; [assumption | left; assumption].
    + destruct (adjustEdge_keeps_invariants key s Hb) as [Hi Hr].
      unfold session_ok, bounds_ok, tft_width, tft_height, rot in *.
      injection Hr as -> ->. split; [assumption | right; assumption].
  - (* Frame Move *)
    destruct Hb as [Hb | Hb].
    + assert (Hu : bounds_unset s = true).
      { unfold bounds, bounds_unset in *. injection Hb as _ _ -> _.
        reflexivity. }
      destruct (edits_guarded key s Hu) as [_ ->].
      split; [assumption | left; assumption].
    + destruct (moveFrame_keeps_invariants key s Hb) as [Hi Hr].
      unfold session_ok, bounds_ok, tft_width, tft_height, rot in *.
      injection Hr as -> ->. split; [assumption | right; assumption].
  - (* Thickness *)
    destruct (adjustThickness_keeps_bounds_ok key s Hs Hb) as [Hi Hr].
    split; [| assumption].
    unfold session_ok, rot in *. injection Hr as -> ->. assumption.
  - (* Rotate *)
    apply rotateDisplay_keeps_ok; assumption.
Qed.

Lemma saveAndExit_geom s : geom (snd (saveAndExit s)) = geom s.
Proof.
  destruct s as [tr cr x y w h ft cm ls hu he nm ce hl].
  unfold saveAndExit, exportConfig. eval_setters.
  destruct ((w =? 0) || (h =? 0)); reflexivity.
Qed.

Lemma setMode_geom mode response s :
  geom (setMode mode response s) = geom s.
Proof.
  unfold setMode. destruct ((mode >=? 1) && (mode <=? 6)); [| reflexivity].
  cbv zeta.
  destruct (currentMode (set_currentMode (CalibrationMode_of (mode - 1)) s));
    try (destruct s; reflexivity).
  - rewrite saveAndExit_geom. destruct s; reflexivity.
  - unfold exitWithoutSaving.
    match goal with
    | |- context [if ?c then _ else _] => destruct c
    end; destruct s; reflexivity.
Qed.

Lemma handleEscapeKey_geom s : geom (handleEscapeKey s) = geom s.
Proof.
  unfold handleEscapeKey.
  match goal with
  | |- context [if ?c then _ else _] => destruct c
  end; [destruct s; reflexivity |].
  destruct (currentMode s); try reflexivity.
  apply saveAndExit_geom.
Qed.

(** Every key of the arrow-key interface keeps the session and its
    bounds in order. *)
Lemma keys_keep_ok c pending response s :
  is_key c = true ->
  session_ok s -> bounds_ok s ->
  session_ok (loop c pending response s)
  /\ bounds_ok (loop c pending response s).
Proof.
  intros Hkey Hs Hb.
  assert (Hg : forall s', geom s' = geom s ->
                          session_ok s' /\ bounds_ok s').
  { intros s' H. destruct (geom_ok s s' H). auto. }
  unfold loop. unfold is_key in Hkey. cbv zeta in *.
  destruct (halted s); [auto |].
  destruct (Z.of_nat (nat_of_ascii c) =? 3);
    [apply Hg, saveAndExit_geom |].
  destruct (Z.of_nat (nat_of_ascii c) =? 27).
  - destruct pending as [| a rest]; [apply Hg, handleEscapeKey_geom |].
    destruct (Ascii.eqb_spec a "[");
      [subst a | destruct a as [[] [] [] [] [] [] [] []];
                 first [congruence | apply Hg, handleEscapeKey_geom]].
    destruct rest as [| arrowCode rest]; [auto |].
    destruct (arrow_direction arrowCode); [| auto].
    apply handleArrowKey_keeps_ok; assumption.
  - destruct ((Z.of_nat (nat_of_ascii c) >=? 49)
              && (Z.of_nat (nat_of_ascii c) <=? 54));
      [apply Hg, setMode_geom |].
    destruct ((Z.of_nat (nat_of_ascii c) =? 10)
              || (Z.of_nat (nat_of_ascii c) =? 13)) eqn:E; [auto |].
    apply orb_false_iff in E. destruct E as [E1 E2].
    rewrite E1, E2 in Hkey. discriminate.
Qed.

(** ** Reachable states *)

Lemma setRotation_session_ok r s :
  session_ok s -> session_ok (setRotation r s).
Proof.
  intros Hs.
  destruct (Z_lt_ge_dec r 0) as [Hlo | Hlo];
    [rewrite setRotation_out_of_range by lia; exact Hs |].
  destruct (Z_le_gt_dec r 3) as [Hhi | Hhi];
    [| rewrite setRotation_out_of_range by lia; exact Hs].
  rewrite setRotation_in_range by lia.
  destruct s as [tr cr x y w h ft cm ls hu he nm ce hl].
  unfold session_ok. eval_setters. split; [lia | reflexivity].
Qed.

Lemma drawUsableCenter_rot s : rot (drawUsableCenter s) = rot s.
Proof.
  unfold drawUsableCenter.
  destruct ((usableWidth s =? 0) || (usableHeight s =? 0));
    destruct s; reflexivity.
Qed.

Lemma rot_session_ok s s' :
  rot s' = rot s -> session_ok s -> session_ok s'.
Proof.
  unfold rot, session_ok. intros H. injection H as -> ->. tauto.
Qed.

Lemma processCommand_session_ok command s :
  session_ok s -> session_ok (processCommand command s).
Proof.
  intros Hs. unfold processCommand. cbv zeta.
  repeat match goal with
  | |- context [if ?c then _ else _] => destruct c
  end;
  try (apply setRotation_session_ok; exact Hs);
  try exact Hs.
  - (* test *)
    unfold runCalibrationTest. cbn [fold_left].
    apply (rot_session_ok _ _ (drawUsableCenter_rot _)).
    repeat apply setRotation_session_ok. exact Hs.
  - (* center *)
    apply (rot_session_ok _ _ (drawUsableCenter_rot _)). exact Hs.
  - (* bounds *)
    unfold processBounds. cbv zeta.
    match goal with
    | |- context [if ?c then _ else _] => destruct c
    end; [| exact Hs].
    refine (rot_session_ok s _ _ Hs). destruct s; reflexivity.
  - (* export *)
    rewrite exportConfig_state. exact Hs.
Qed.

Lemma loop_session_ok c pending response s :
  session_ok s -> session_ok (loop c pending response s).
Proof.
  intros Hs.
  assert (Hg : forall s', geom s' = geom s -> session_ok s').
  { intros s' H. destruct (geom_ok s s' H). auto. }
  unfold loop. cbv zeta.
  destruct (halted s); [exact Hs |].
  destruct (Z.of_nat (nat_of_ascii c) =? 3);
    [apply Hg, saveAndExit_geom |].
  destruct (Z.of_nat (nat_of_ascii c) =? 27).
  - destruct pending as [| a rest]; [apply Hg, handleEscapeKey_geom |].
    destruct (Ascii.eqb_spec a "[");
      [subst a | destruct a as [[] [] [] [] [] [] [] []];
                 first [congruence | apply Hg, handleEscapeKey_geom]].
    destruct rest as [| arrowCode rest]; [exact Hs |].
    destruct (arrow_direction arrowCode) as [direction |]; [| exact Hs].
    unfold handleArrowKey.
    destruct (currentMode s); try exact Hs.
    + unfold adjustEdge. cbv zeta.
      repeat match goal with
      | |- context [if ?c then _ else _] => destruct c
      end; cbv beta iota; try exact Hs;
      (eapply rot_session_ok; [| exact Hs]);
      rewrite accepted_edit_rot; destruct s; reflexivity.
    + unfold moveFrame. cbv zeta.
      repeat match goal with
      | |- context [if ?c then _ else _] => destruct c
      end; cbv beta iota; try exact Hs;
      (eapply rot_session_ok; [| exact Hs]);
      rewrite accepted_edit_rot; destruct s; reflexivity.
    + unfold adjustThickness.
      repeat match goal with
      | |- context [if ?c then _ else _] => destruct c
      end; cbv beta iota; try exact Hs;
      (eapply rot_session_ok; [| exact Hs]);
      unfold redrawFrame; rewrite validateAndClampBounds_clamp, clamp_closed;
      destruct s; reflexivity.
    + apply rotateDisplay_keeps_ok. exact Hs.
  - destruct ((Z.of_nat (nat_of_ascii c) >=? 49)
              && (Z.of_nat (nat_of_ascii c) <=? 54));
      [apply Hg, setMode_geom |].
    destruct ((Z.of_nat (nat_of_ascii c) =? 10)
              || (Z.of_nat (nat_of_ascii c) =? 13)); [exact Hs |].
    apply processCommand_session_ok. exact Hs.
Qed.

Lemma setup_ok choice name :
  halted (setup choice name initial_globals) = false ->
  session_ok (setup choice name initial_globals) /\
  invariants 160 128 (setup choice name initial_globals).
Proof.
  intros H. rewrite (setup_not_halted choice name H).
  unfold session_ok, invariants, origin_nonneg, inside_surface, min_size.
  cbn. lia.
Qed.

(** Every state the sketch reaches is a session in the sense of the data
    model: rotation in 0..3, canvas rotated alike. *)
Lemma reachable_session_ok s : reachable s -> session_ok s.
Proof.
  induction 1 as [choice name H | s c pending response _ IH].
  - apply setup_ok. exact H.
  - apply loop_session_ok. exact IH.
Qed.

(** ** What the edits do to valid bounds *)








(** ** What the edits leave alone *)

Lemma accepted_edit_other s :
  other (redrawFrame (markModified (fst (validateAndClampBounds s))))
  = other s.
Proof.
  rewrite accepted_edit, clamp_closed.
  destruct s as [tr cr x y w h ft cm ls hu he nm ce hl].
  unfold other. eval_setters. reflexivity.
Qed.

Ltac other_leaf :=
  lazymatch goal with
  | |- ?a = ?a => reflexivity
  | |- _ => rewrite accepted_edit_other; unfold other; eval_setters;
            reflexivity
  end.

Lemma adjustEdge_other key s : other (adjustEdge key s) = other s.
Proof.
  destruct s as [tr cr x y w h ft cm ls hu he nm ce hl].
  unfold adjustEdge. cbv zeta. split_ifs; other_leaf.
Qed.

Lemma moveFrame_other key s : other (moveFrame key s) = other s.
Proof.
  destruct s as [tr cr x y w h ft cm ls hu he nm ce hl].
  unfold moveFrame. cbv zeta. split_ifs; other_leaf.
Qed.

Lemma setRotation_other r s :
  other (setRotation r s) = other s /\
  hasUnsavedChanges (setRotation r s) = hasUnsavedChanges s.
Proof.
  unfold setRotation.
  destruct ((r >=? 0) && (r <=? 3)); destruct s; split; reflexivity.
Qed.

Lemma drawUsableCenter_other s :
  other (drawUsableCenter s) = other s /\
  hasUnsavedChanges (drawUsableCenter s) = hasUnsavedChanges s.
Proof.
  unfold drawUsableCenter.
  destruct ((usableWidth s =? 0) || (usableHeight s =? 0));
    destruct s; split; reflexivity.
Qed.

Lemma runCalibrationTest_other s :
  other (runCalibrationTest s) = other s /\
  hasUnsavedChanges (runCalibrationTest s) = hasUnsavedChanges s.
Proof.
  unfold runCalibrationTest. cbn [fold_left].
  destruct (drawUsableCenter_other
              (setRotation 3 (setRotation 2 (setRotation 1
                 (setRotation 0 s))))) as [-> ->].
  destruct (setRotation_other 3
              (setRotation 2 (setRotation 1 (setRotation 0 s))))
    as [-> ->].
  destruct (setRotation_other 2 (setRotation 1 (setRotation 0 s)))
    as [-> ->].
  destruct (setRotation_other 1 (setRotation 0 s)) as [-> ->].
  apply setRotation_other.
Qed.

Lemma processBounds_other command s :
  other (processBounds command s) = other s /\
  hasUnsavedChanges (processBounds command s) = hasUnsavedChanges s.
Proof.
  unfold processBounds. cbv zeta.
  match goal with
  | |- context [if ?c then _ else _] => destruct c
  end; destruct s; split; reflexivity.
Qed.

Lemma processCommand_other command s :
  other (processCommand command s) = other s /\
  hasUnsavedChanges (processCommand command s) = hasUnsavedChanges s.
Proof.
  unfold processCommand. cbv zeta.
  split_ifs;
    first [ apply setRotation_other | apply runCalibrationTest_other
          | apply drawUsableCenter_other | apply processBounds_other
          | rewrite exportConfig_state; split; reflexivity
          | split; reflexivity ].
Qed.

(** X3: no legacy text command ever sets the unsaved-changes flag, or
    touches the mode, the thickness, the last-saved snapshot or the
    display name: not the ones that turn the display or rewrite the
    bounds either. *)
Theorem processCommand_never_marks (command : string) (s : State) :
  hasUnsavedChanges (processCommand command s) = hasUnsavedChanges s /\
  currentMode (processCommand command s) = currentMode s /\
  frameThickness (processCommand command s) = frameThickness s /\
  lastSavedState (processCommand command s) = lastSavedState s /\
  hasEverSaved (processCommand command s) = hasEverSaved s /\
  currentDisplayName (processCommand command s) = currentDisplayName s /\
  halted (processCommand command s) = halted s.
Proof.
  destruct (processCommand_other command s) as [Ho Hu]. unfold other in Ho.
  injection Ho as H1 H2 H3 H4 H5 H6 H7.
  repeat split; assumption.
Qed.

(** ** Thickness *)

Lemma other_thickness s s' :
  other s' = other s -> frameThickness s' = frameThickness s.
Proof. unfold other. intros H. injection H as H1 _. exact H1. Qed.

Lemma adjustThickness_range key s :
  1 <= frameThickness s <= 5 ->
  1 <= frameThickness (adjustThickness key s) <= 5.
Proof.
  destruct s as [tr cr x y w h ft cm ls hu he nm ce hl].
  intros Ht. eval_setters in Ht. unfold adjustThickness.
  repeat step_if;
    try match goal with
    | |- context [frameThickness
                    (redrawFrame (markModified (set_frameThickness ?v ?s)))] =>
        destruct (redraw_after_thickness v s) as [-> _]
    end;
    eval_setters; lia.
Qed.

Lemma rotateDisplay_other key s : other (rotateDisplay key s) = other s.
Proof.
  unfold rotateDisplay, setRotation. cbv zeta.
  split_ifs; destruct s; reflexivity.
Qed.

Lemma handleArrowKey_thickness key s :
  1 <= frameThickness s <= 5 ->
  1 <= frameThickness (handleArrowKey key s) <= 5.
Proof.
  intros Ht. unfold handleArrowKey.
  destruct (currentMode s); try exact Ht.
  - rewrite (other_thickness _ _ (adjustEdge_other key s)). exact Ht.
  - rewrite (other_thickness _ _ (moveFrame_other key s)). exact Ht.
  - apply adjustThickness_range. exact Ht.
  - rewrite (other_thickness _ _ (rotateDisplay_other key s)). exact Ht.
Qed.

Lemma saveAndExit_thickness s :
  frameThickness (snd (saveAndExit s)) = frameThickness s.
Proof.
  destruct s as [tr cr x y w h ft cm ls hu he nm ce hl].
  unfold saveAndExit, exportConfig. eval_setters.
  destruct ((w =? 0) || (h =? 0)); reflexivity.
Qed.

Lemma setMode_thickness mode response s :
  frameThickness (setMode mode response s) = frameThickness s.
Proof.
  unfold setMode. destruct ((mode >=? 1) && (mode <=? 6)); [| reflexivity].
  cbv zeta.
  destruct (currentMode (set_currentMode (CalibrationMode_of (mode - 1)) s));
    try (destruct s; reflexivity).
  - rewrite saveAndExit_thickness. destruct s; reflexivity.
  - unfold exitWithoutSaving.
    match goal with
    | |- context [if ?c then _ else _] => destruct c
    end; destruct s; reflexivity.
Qed.

Lemma handleEscapeKey_thickness s :
  frameThickness (handleEscapeKey s) = frameThickness s.
Proof.
  unfold handleEscapeKey.
  match goal with
  | |- context [if ?c then _ else _] => destruct c
  end; [destruct s; reflexivity |].
  destruct (currentMode s); try reflexivity.
  apply saveAndExit_thickness.
Qed.

Lemma loop_thickness c pending response s :
  1 <= frameThickness s <= 5 ->
  1 <= frameThickness (loop c pending response s) <= 5.
Proof.
  intros Ht. unfold loop. cbv zeta.
  destruct (halted s); [exact Ht |].
  destruct (Z.of_nat (nat_of_ascii c) =? 3);
    [rewrite saveAndExit_thickness; exact Ht |].
  destruct (Z.of_nat (nat_of_ascii c) =? 27).
  - destruct pending as [| a rest];
      [rewrite handleEscapeKey_thickness; exact Ht |].
    destruct (Ascii.eqb_spec a "[");
      [subst a | destruct a as [[] [] [] [] [] [] [] []];
                 first [congruence
                       | rewrite handleEscapeKey_thickness; exact Ht]].
    destruct rest as [| arrowCode rest]; [exact Ht |].
    destruct (arrow_direction arrowCode); [| exact Ht].
    apply handleArrowKey_thickness. exact Ht.
  - destruct ((Z.of_nat (nat_of_ascii c) >=? 49)
              && (Z.of_nat (nat_of_ascii c) <=? 54));
      [rewrite setMode_thickness; exact Ht |].
    destruct ((Z.of_nat (nat_of_ascii c) =? 10)
              || (Z.of_nat (nat_of_ascii c) =? 13)); [exact Ht |].
    rewrite (other_thickness _ _ (proj1 (processCommand_other _ s))).
    exact Ht.
Qed.

(** X4: in every state the sketch can reach, whatever was typed, the
    rotation is one of 0..3, the canvas is rotated the same way, and the
    frame thickness lies between 1 and 5. *)
Theorem reachable_invariants (s : State) :
  reachable s ->
  session_ok s /\ 1 <= frameThickness s <= 5.
Proof.
  intros Hr. split; [apply reachable_session_ok; exact Hr |].
  induction Hr as [choice name H | s c pending response _ IH].
  - rewrite (setup_not_halted choice name H). cbn. lia.
  - apply loop_thickness. exact IH.
Qed.

Lemma reachable_invariants_witness :
  let s := loop "t" "est" "y"
             (loop "027" "[A" "y" (loop "3" EmptyString "y" bootstrap)) in
  frameThickness s = 3 /\ session_ok s /\ 1 <= frameThickness s <= 5.
Proof.
  cbv zeta. split; [vm_compute; reflexivity |].
  apply reachable_invariants.
  repeat apply reach_loop.
  apply (reach_setup "1" "DueLCD01"). reflexivity.
Defined.

Lemma key_reachable_reachable s : key_reachable s -> reachable s.
Proof.
  induction 1 as [choice name H | s c pending response _ IH _].
  - apply reach_setup. exact H.
  - apply reach_loop. exact IH.
Qed.

(** X5: as long as the operator uses only the keys of the arrow-key
    interface (Ctrl-C, escape and arrows, the digits 1 to 6, line ends),
    the usable bounds are always either the unset sentinel (0,0,0,0) or a
    rectangle that satisfies every invariant on the current surface. *)
Theorem keys_keep_bounds_ok (s : State) :
  key_reachable s -> bounds_ok s.
Proof.
  intros Hk.
  assert (H : session_ok s /\ bounds_ok s).
  { induction Hk as [choice name H | s c pending response _ IH Hkey].
    - destruct (setup_ok choice name H) as [Hs Hi]. split; [exact Hs |].
      right. rewrite (setup_not_halted choice name H) in *. exact Hi.
    - destruct IH as [Hs Hb]. apply keys_keep_ok; assumption. }
  apply H.
Qed.

Lemma keys_keep_bounds_ok_witness :
  let s := loop "027" "[A" "y"
             (loop "3" EmptyString "y"
                (loop "027" "[C" "y" (loop "4" EmptyString "y" bootstrap))) in
  bounds s = (0, 0, 10, 10) /\ bounds_ok s.
Proof.
  cbv zeta. split; [vm_compute; reflexivity |].
  apply keys_keep_bounds_ok.
  repeat (apply key_loop; [| reflexivity]).
  apply (key_setup "1" "DueLCD01"). reflexivity.
Defined.

(** ** Legacy commands that rewrite the calibration *)

(** X6: the [test] command ends, whatever the session was, at rotation 3
    on the 160 by 128 surface with the estimated bounds (1,2,158,125): it
    discards the calibration in progress, and it does not set the
    unsaved-changes flag. *)
Theorem runCalibrationTest_outcome (s : State) :
  let s' := runCalibrationTest s in
  currentRotation s' = 3 /\ tft_width s' = 160 /\ tft_height s' = 128 /\
  bounds s' = (1, 2, 158, 125) /\
  hasUnsavedChanges s' = hasUnsavedChanges s /\
  s' = processCommand "test" s.
Proof.
  destruct s as [tr cr x y w h ft cm ls hu he nm ce hl].
  cbv zeta. repeat split.
Qed.

(** X7: [drawUsableCenter] (the [center] command) leaves set bounds alone;
    on unset bounds it installs the estimate (1, 2, width - 2, height - 3),
    which satisfies the invariants, and does not set the unsaved-changes
    flag.  Either way the bounds are set afterwards, so a second call
    changes nothing. *)
Theorem drawUsableCenter_sets_bounds (s : State) :
  session_ok s ->
  let s' := drawUsableCenter s in
  bounds_unset s' = false /\
  (bounds_unset s = false -> s' = s) /\
  (bounds_unset s = true ->
   bounds s' = (1, 2, tft_width s - 2, tft_height s - 3) /\
   invariants (tft_width s') (tft_height s') s') /\
  hasUnsavedChanges s' = hasUnsavedChanges s /\
  drawUsableCenter s' = s'.
Proof.
  intros [Hr Ht].
  destruct s as [tr cr x y w h ft cm ls hu he nm ce hl].
  cbn in Hr, Ht. subst tr.
  unfold drawUsableCenter, bounds_unset, invariants, origin_nonneg,
    inside_surface, min_size.
  destruct (rotation_cases cr Hr) as [-> | [-> | [-> | ->]]];
    (destruct (Z.eqb_spec w 0) as [-> | Hw];
     [| assert (Ew : (w =? 0) = false) by (apply Z.eqb_neq; exact Hw)]);
    (destruct (Z.eqb_spec h 0) as [-> | Hh];
     [| assert (Eh : (h =? 0) = false) by (apply Z.eqb_neq; exact Hh)]);
    cbn -[Z.eqb]; rewrite ?Ew, ?Eh; cbn;
    repeat split; intros; try discriminate; try reflexivity; try lia;
    rewrite ?Ew, ?Eh; reflexivity.
Qed.

Lemma drawUsableCenter_sets_bounds_witness :
  let s := rotateDisplay "R" bootstrap in
  bounds s = (0, 0, 0, 0) /\
  bounds (drawUsableCenter s) = (1, 2, 126, 157) /\
  bounds_unset (drawUsableCenter s) = false /\
  drawUsableCenter bootstrap = bootstrap.
Proof.
  cbv zeta.
  assert (H1 : session_ok (rotateDisplay "R" bootstrap))
    by (unfold session_ok; cbn; lia).
  assert (H2 : session_ok bootstrap) by (unfold session_ok; cbn; lia).
  destruct (drawUsableCenter_sets_bounds _ H1) as (Hs & _ & Hu & _).
  destruct (drawUsableCenter_sets_bounds _ H2) as (_ & Hk & _).
  split; [reflexivity |].
  split; [apply (Hu eq_refl) |].
  split; [exact Hs | apply Hk; reflexivity].
Defined.

(** ** Leaving the session *)

(** X8: exit-without-saving (the key [6]) ends the session exactly when
    there are no unsaved changes or the operator answers [y] or [Y]; any
    other answer, escape included, only puts the mode back to None. *)
Theorem exit_requires_confirmation (s : State) (response : ascii) :
  halted s = false ->
  let s' := setMode 6 response s in
  (halted s' = true <->
   hasUnsavedChanges s = false \/ response = "y"%char \/ response = "Y"%char)
  /\ (halted s' = false -> s' = set_currentMode MODE_NONE s).
Proof.
  destruct s as [tr cr x y w h ft cm ls hu he nm ce hl].
  cbn [halted]. intros ->. cbv zeta.
  assert (E : setMode 6 response
                (mkState tr cr x y w h ft cm ls hu he nm ce false)
              = exitWithoutSaving response
                  (mkState tr cr x y w h ft MODE_EXIT_NO_SAVE ls hu he nm ce
                     false)) by reflexivity.
  rewrite E. clear E.
  unfold exitWithoutSaving, checkUnsavedChanges. eval_setters.
  destruct hu; cbn [negb andb].
  - destruct (Ascii.eqb_spec response "027") as [-> | H27].
    + cbn. split; [| reflexivity].
      split; [discriminate | intros [H | [H | H]]; discriminate].
    + destruct (Ascii.eqb_spec response "y") as [-> | Hy];
        [cbn; split; [split; auto | discriminate] |].
      destruct (Ascii.eqb_spec response "Y") as [-> | HY];
        [cbn; split; [split; auto | discriminate] |].
      cbn. split; [| reflexivity].
      split; [discriminate | intros [H | [H | H]]; congruence].
  - cbn. split; [split; auto | discriminate].
Qed.

Lemma exit_requires_confirmation_witness :
  let s := adjustEdge "R" bootstrap in
  hasUnsavedChanges s = true /\
  halted (setMode 6 "y" s) = true /\
  setMode 6 "n" s = set_currentMode MODE_NONE s /\
  halted (setMode 6 "n" bootstrap) = true.
Proof.
  cbv zeta.
  assert (H1 : halted (adjustEdge "R" bootstrap) = false)
    by (vm_compute; reflexivity).
  assert (H2 : halted bootstrap = false) by reflexivity.
  destruct (exit_requires_confirmation _ "y" H1) as [[_ Hy] _].
  destruct (exit_requires_confirmation _ "n" H1) as [_ Hn].
  destruct (exit_requires_confirmation _ "n" H2) as [[_ Hb] _].
  split; [vm_compute; reflexivity |].
  split; [apply Hy; right; left; reflexivity |].
  split; [apply Hn; vm_compute; reflexivity |].
  apply Hb. left. reflexivity.
Defined.

Lemma setMode_5_mode s response :
  currentMode (setMode 5 response s) = MODE_SAVE_EXIT /\
  hasUnsavedChanges (setMode 5 response s) = false /\
  halted (setMode 5 response s) = halted s.
Proof.
  destruct s as [tr cr x y w h ft cm ls hu he nm ce hl].
  unfold setMode, saveAndExit, exportConfig. eval_setters. cbn.
  destruct ((w =? 0) || (h =? 0)); repeat split.
Qed.


(** X10: after a save ([5]) there are no unsaved changes, so
    exit-without-saving ([6]) ends the session at once, whatever the
    operator would have answered. *)
Theorem exit_after_save (s : State) (response response' : ascii) :
  halted (setMode 6 response' (setMode 5 response s)) = true.
Proof.
  destruct (setMode_5_mode s response) as (_ & Hu & _).
  destruct (setMode 5 response s)
    as [tr cr x y w h ft cm ls hu he nm ce hl].
  cbn in Hu. subst hu. reflexivity.
Qed.

(** ** The flag the clamp returns *)

Lemma fix_if_skip c f p : c (fst p) = false -> fix_if c f p = p.
Proof. unfold fix_if. intros ->. reflexivity. Qed.

Lemma fix_if_quiet c f p :
  snd (fix_if c f p) = false ->
  c (fst p) = false /\ snd p = false /\ fix_if c f p = p.
Proof.
  unfold fix_if. destruct (c (fst p)); cbn [snd]; intros H;
    [discriminate | auto].
Qed.

Lemma clamp_valid_unmodified maxX maxY s :
  invariants maxX maxY s -> validateAndClampBounds_at maxX maxY s = (s, false).
Proof.
  intros [[Hx Hy] [[Hw Hh] [Hmw Hmh]]].
  unfold validateAndClampBounds_at. cbv zeta.
  repeat match goal with
  | |- context [fix_if ?c ?f (s, false)] =>
      rewrite (fix_if_skip c f (s, false))
        by (cbv beta; cbn [fst];
            first [ apply Z.ltb_ge; lia
                  | rewrite Z.gtb_ltb; apply Z.ltb_ge; lia
                  | rewrite Z.geb_leb; apply Z.leb_gt; lia ])
  end.
  reflexivity.
Qed.

Lemma clamp_unmodified_valid maxX maxY s :
  snd (validateAndClampBounds_at maxX maxY s) = false ->
  invariants maxX maxY s.
Proof.
  unfold validateAndClampBounds_at. cbv zeta. intros H.
  repeat match type of H with
  | snd (fix_if ?c ?f ?p) = false =>
      let Hc := fresh "Hc" in
      let E := fresh "E" in
      apply fix_if_quiet in H; destruct H as (Hc & H & E)
  end.
  clear H.
  repeat match goal with
  | E : fix_if ?c ?f (s, false) = (s, false) |- _ =>
      rewrite E in *; clear E
  end.
  cbv beta in *. cbn [fst] in *.
  repeat match goal with
  | H : (_ <? _) = false |- _ => apply Z.ltb_ge in H
  | H : (_ >? _) = false |- _ => rewrite Z.gtb_ltb in H; apply Z.ltb_ge in H
  | H : (_ >=? _) = false |- _ => rewrite Z.geb_leb in H; apply Z.leb_gt in H
  end.
  unfold invariants, origin_nonneg, inside_surface, min_size. lia.
Qed.

(** X11: [validateAndClampBounds] answers [false] (not modified) exactly
    when the bounds already satisfy every invariant on the surface, and in
    that case it leaves the state as it was. *)
Theorem clamp_flag_spec (maxX maxY : Z) (s : State) :
  (snd (validateAndClampBounds_at maxX maxY s) = false
   <-> invariants maxX maxY s) /\
  (snd (validateAndClampBounds_at maxX maxY s) = false ->
   fst (validateAndClampBounds_at maxX maxY s) = s) /\
  (snd (validateAndClampBounds s) = false
   <-> invariants (tft_width s) (tft_height s) s).
Proof.
  assert (H : forall mx my,
            snd (validateAndClampBounds_at mx my s) = false
            <-> invariants mx my s).
  { intros mx my. split; [apply clamp_unmodified_valid |].
    intros Hi. rewrite (clamp_valid_unmodified mx my s Hi). reflexivity. }
  split; [apply H |]. split; [| unfold validateAndClampBounds; apply H].
  intros Hq. apply H in Hq.
  rewrite (clamp_valid_unmodified maxX maxY s Hq). reflexivity.
Qed.

Lemma clamp_flag_spec_witness :
  snd (validateAndClampBounds bootstrap) = false /\
  fst (validateAndClampBounds_at 160 128 bootstrap) = bootstrap.
Proof.
  destruct (clamp_flag_spec 160 128 bootstrap) as ([_ Hv] & Hs & _).
  assert (Hi : invariants 160 128 bootstrap)
    by (apply invariantsb_spec; reflexivity).
  split; [| exact (Hs (Hv Hi))].
  unfold validateAndClampBounds.
  change (tft_width bootstrap) with 160.
  change (tft_height bootstrap) with 128.
  exact (Hv Hi).
Defined.

(** ** Export and the [bounds] command *)

(** X12: the inclusive edges round-trip, in both directions, wherever the
    sketch's [int] arithmetic stays in range.  After
    [setUsableBounds L R T B], [exportConfig] reports the bounds-not-set
    error exactly when [R = L - 1] or [B = T - 1] (a zero width or
    height), and otherwise prints a record whose four edge lines are
    [left = L], [right = R], [top = T] and [bottom = B].  And on bounds
    that are set, [exportConfig] prints a record, and [setUsableBounds]
    given the four edges of that record restores the bounds. *)
Theorem export_bounds_round_trip (s s0 : State) (l r t b : Z) :
  edges_in_range l r t b ->
  bounds_in_range s ->
  bounds_unset s = false ->
  let s1 := setUsableBounds l r t b s0 in
  (fst (exportConfig s1) = BoundsNotSet <-> r = l - 1 \/ b = t - 1) /\
  (r <> l - 1 -> b <> t - 1 ->
   exists lines,
     fst (exportConfig s1) = ConfigFile lines /\
     nth 21 lines EmptyString = "left = " ++ String_of_int l /\
     nth 22 lines EmptyString = "right = " ++ String_of_int r /\
     nth 23 lines EmptyString = "top = " ++ String_of_int t /\
     nth 24 lines EmptyString = "bottom = " ++ String_of_int b) /\
  (exists lines,
     fst (exportConfig s) = ConfigFile lines /\
     nth 21 lines EmptyString = "left = " ++ String_of_int (usableOriginX s) /\
     nth 22 lines EmptyString
     = "right = " ++ String_of_int (rightEdge (export_locals s)) /\
     nth 23 lines EmptyString = "top = " ++ String_of_int (usableOriginY s) /\
     nth 24 lines EmptyString
     = "bottom = " ++ String_of_int (bottomEdge (export_locals s))) /\
  bounds (setUsableBounds (usableOriginX s) (rightEdge (export_locals s))
            (usableOriginY s) (bottomEdge (export_locals s)) s0)
  = bounds s.
Proof.
  intros _ _ Hset s1.
  assert (Ex : usableOriginX s1 = l) by (destruct s0; reflexivity).
  assert (Ey : usableOriginY s1 = t) by (destruct s0; reflexivity).
  assert (Ew : usableWidth s1 = r - l + 1) by (destruct s0; reflexivity).
  assert (Eh : usableHeight s1 = b - t + 1) by (destruct s0; reflexivity).
  clearbody s1.
  assert (Hlines : forall q,
             nth 21 (config_file q) EmptyString
             = "left = " ++ String_of_int (usableOriginX q) /\
             nth 22 (config_file q) EmptyString
             = "right = " ++ String_of_int (rightEdge (export_locals q)) /\
             nth 23 (config_file q) EmptyString
             = "top = " ++ String_of_int (usableOriginY q) /\
             nth 24 (config_file q) EmptyString
             = "bottom = " ++ String_of_int (bottomEdge (export_locals q)))
    by (intros q; repeat split).
  split; [| split; [| split]].
  - unfold exportConfig. rewrite Ew, Eh.
    destruct (Z.eqb_spec (r - l + 1) 0) as [E1 | E1];
      destruct (Z.eqb_spec (b - t + 1) 0) as [E2 | E2]; cbn [orb fst];
      split; intros H; try reflexivity; try discriminate; lia.
  - intros Hr Hb. exists (config_file s1).
    destruct (Hlines s1) as (L1 & L2 & L3 & L4).
    rewrite L1, L2, L3, L4. cbn [export_locals rightEdge bottomEdge].
    rewrite Ex, Ey, Ew, Eh.
    replace (l + (r - l + 1) - 1) with r by lia.
    replace (t + (b - t + 1) - 1) with b by lia.
    repeat split.
    unfold exportConfig. rewrite Ew, Eh.
    destruct (Z.eqb_spec (r - l + 1) 0); [lia |].
    destruct (Z.eqb_spec (b - t + 1) 0); [lia |].
    reflexivity.
  - exists (config_file s). split; [| apply Hlines].
    unfold exportConfig. unfold bounds_unset in Hset. rewrite Hset.
    reflexivity.
  - destruct s, s0. unfold export_locals, setUsableBounds. eval_setters.
    cbn [rightEdge bottomEdge]. repeat (f_equal; try lia).
Qed.

Lemma export_bounds_round_trip_witness :
  let s1 := setUsableBounds 1 158 2 127 bootstrap in
  fst (exportConfig s1) = ConfigFile (config_file s1) /\
  nth 22 (config_file s1) EmptyString = "right = 158" /\
  nth 24 (config_file s1) EmptyString = "bottom = 127" /\
  fst (exportConfig (setUsableBounds 5 4 0 9 bootstrap)) = BoundsNotSet /\
  bounds (setUsableBounds 0 159 0 127 s1) = bounds bootstrap.
Proof.
  cbv zeta.
  assert (R1 : edges_in_range 1 158 2 127)
    by (unfold edges_in_range, int_range; lia).
  assert (R2 : edges_in_range 5 4 0 9)
    by (unfold edges_in_range, int_range; lia).
  assert (Rb : bounds_in_range bootstrap)
    by (unfold bounds_in_range, int_range; vm_compute;
        repeat split; congruence).
  assert (Hb : bounds_unset bootstrap = false) by reflexivity.
  destruct (export_bounds_round_trip bootstrap
              (setUsableBounds 1 158 2 127 bootstrap) 1 158 2 127
              R1 Rb Hb) as (_ & Hrec & _ & Hback).
  destruct (export_bounds_round_trip bootstrap bootstrap 5 4 0 9 R2 Rb Hb)
    as (Herr & _).
  repeat match goal with |- _ /\ _ => split end.
  - reflexivity.
  - reflexivity.
  - reflexivity.
  - apply Herr. left. reflexivity.
  - exact Hback.
Defined.

(** ** The frame on the canvas *)

Lemma in_upto i n : In i (upto n) <-> 0 <= i < n.
Proof.
  unfold upto. rewrite in_map_iff. split.
  - intros (k & <- & Hk). apply in_seq in Hk. lia.
  - intros Hi. exists (Z.to_nat i). split; [lia |].
    apply in_seq. lia.
Qed.

Lemma constrain_range amt low high :
  low <= high -> low <= constrain amt low high <= high.
Proof.
  unfold constrain. intros H.
  destruct (Z.ltb_spec amt low); [lia |].
  destruct (Z.gtb_spec amt high); lia.
Qed.

Lemma constrain_inside amt low high :
  low <= amt <= high -> constrain amt low high = amt.
Proof.
  unfold constrain. intros H.
  destruct (Z.ltb_spec amt low); [lia |].
  destruct (Z.gtb_spec amt high); lia.
Qed.

Lemma flat_map_singletons {A B : Type} (g : A -> list B) (f : A -> B) l :
  (forall a, In a l -> g a = [f a]) -> flat_map g l = map f l.
Proof.
  induction l as [| a l IH]; intros H; [reflexivity |].
  cbn [flat_map map]. rewrite (H a (or_introl eq_refl)).
  rewrite IH by (intros a' Ha'; apply H; right; exact Ha').
  reflexivity.
Qed.

(** X13: whatever the usable bounds and the thickness are, clamped or
    not, every rectangle [drawFrame] asks for has positive sides and lies
    on the surface of the current rotation. *)
Theorem drawFrame_on_screen (s : State) (r : Rect) :
  session_ok s -> In r (drawFrame s) ->
  on_screen (tft_width s) (tft_height s) r.
Proof.
  intros Hs Hin.
  assert (HW : 7 <= tft_width s /\ 7 <= tft_height s).
  { destruct (session_ok_surface s Hs) as [[-> ->] | [-> ->]]; lia. }
  destruct HW as [HW HH].
  unfold drawFrame in Hin. cbv zeta in Hin.
  set (W := tft_width s) in *. set (H := tft_height s) in *.
  destruct ((usableWidth s >? 0) && (usableHeight s >? 0)) eqn:E.
  - apply andb_true_iff in E. destruct E as [Ew Eh].
    rewrite Z.gtb_ltb in Ew, Eh. apply Z.ltb_lt in Ew, Eh.
    apply in_flat_map in Hin. destruct Hin as (i & Hi & Hr).
    apply in_upto in Hi.
    pose proof (constrain_range (usableOriginX s) 0 (W - 1)) as Hcx.
    pose proof (constrain_range (usableOriginY s) 0 (H - 1)) as Hcy.
    set (cx := constrain (usableOriginX s) 0 (W - 1)) in *.
    set (cy := constrain (usableOriginY s) 0 (H - 1)) in *.
    pose proof (constrain_range (usableWidth s) 1 (W - cx)) as Hcw.
    pose proof (constrain_range (usableHeight s) 1 (H - cy)) as Hch.
    set (cw := constrain (usableWidth s) 1 (W - cx)) in *.
    set (ch := constrain (usableHeight s) 1 (H - cy)) in *.
    destruct ((cw - 2 * i >? 0) && (ch - 2 * i >? 0)) eqn:E;
      [| destruct Hr].
    apply andb_true_iff in E. destruct E as [E1 E2].
    rewrite Z.gtb_ltb in E1, E2. apply Z.ltb_lt in E1, E2.
    destruct Hr as [<- | []].
    unfold on_screen. cbn [rect_x rect_y rect_w rect_h]. lia.
  - cbn [In] in Hin.
    destruct Hin as [<- | [<- | [<- | [<- | []]]]];
      unfold on_screen; cbn [rect_x rect_y rect_w rect_h]; lia.
Qed.

Lemma drawFrame_on_screen_witness :
  let s := setUsableBounds (-5) 200 100 400 bootstrap in
  drawFrame s =
    [ mkRect 0 100 160 28 ST77XX_WHITE; mkRect 1 101 158 26 ST77XX_WHITE ] /\
  on_screen 160 128 (mkRect 1 101 158 26 ST77XX_WHITE).
Proof.
  cbv zeta. split; [vm_compute; reflexivity |].
  assert (Hs : session_ok (setUsableBounds (-5) 200 100 400 bootstrap))
    by (unfold session_ok; cbn; lia).
  apply (drawFrame_on_screen _ _ Hs).
  vm_compute. right. left. reflexivity.
Defined.

(** X14: on bounds that satisfy the invariants, with a thickness between
    1 and 5, [drawFrame] draws exactly [frameThickness] white rectangles:
    the usable rectangle itself and its insets by 1, 2, ... pixels. *)
Theorem drawFrame_nested (s : State) :
  invariants (tft_width s) (tft_height s) s ->
  1 <= frameThickness s <= 5 ->
  drawFrame s =
  map (fun i => mkRect (usableOriginX s + i) (usableOriginY s + i)
                  (usableWidth s - 2 * i) (usableHeight s - 2 * i)
                  ST77XX_WHITE)
      (upto (frameThickness s)) /\
  List.length (drawFrame s) = Z.to_nat (frameThickness s).
Proof.
  intros [[Hx Hy] [[Hw Hh] [Hmw Hmh]]] Ht.
  assert (E : drawFrame s =
    map (fun i => mkRect (usableOriginX s + i) (usableOriginY s + i)
                    (usableWidth s - 2 * i) (usableHeight s - 2 * i)
                    ST77XX_WHITE)
        (upto (frameThickness s))).
  { unfold drawFrame. cbv zeta.
    set (W := tft_width s) in *. set (H := tft_height s) in *.
    destruct (Z.gtb_spec (usableWidth s) 0); [| lia].
    destruct (Z.gtb_spec (usableHeight s) 0); [| lia].
    cbn [andb].
    rewrite (constrain_inside (usableOriginX s) 0 (W - 1)) by lia.
    rewrite (constrain_inside (usableOriginY s) 0 (H - 1)) by lia.
    rewrite (constrain_inside (usableWidth s) 1) by lia.
    rewrite (constrain_inside (usableHeight s) 1) by lia.
    assert (Eq : min_of (frameThickness s)
                   (min_of (Z.quot (usableWidth s) 2)
                      (Z.quot (usableHeight s) 2))
                 = frameThickness s).
    { rewrite !Z.quot_div_nonneg by lia. unfold min_of.
      repeat match goal with
      | |- context [if ?a <? ?b then _ else _] => destruct (Z.ltb_spec a b)
      end; try reflexivity;
      pose proof (Z.div_le_lower_bound (usableWidth s) 2 5);
      pose proof (Z.div_le_lower_bound (usableHeight s) 2 5); lia. }
    rewrite Eq.
    apply flat_map_singletons. intros i Hi. apply in_upto in Hi.
    destruct (Z.gtb_spec (usableWidth s - 2 * i) 0); [| lia].
    destruct (Z.gtb_spec (usableHeight s - 2 * i) 0); [| lia].
    reflexivity. }
  split; [exact E |].
  rewrite E. unfold upto. rewrite !length_map, length_seq. reflexivity.
Qed.

Lemma drawFrame_nested_witness :
  drawFrame bootstrap =
    [ mkRect 0 0 160 128 ST77XX_WHITE; mkRect 1 1 158 126 ST77XX_WHITE ].
Proof.
  assert (Hi : invariants (tft_width bootstrap) (tft_height bootstrap)
                 bootstrap) by (apply invariantsb_spec; reflexivity).
  assert (Ht : 1 <= frameThickness bootstrap <= 5) by (cbn; lia).
  destruct (drawFrame_nested bootstrap Hi Ht) as [-> _].
  reflexivity.
Defined.

(** ** Reading the display name *)

Lemma all_printable_app s c :
  all_printable s -> printable c -> all_printable (s ++ String c EmptyString).
Proof.
  induction s as [| a s IH]; cbn; intros Hs Hc; [auto |].
  destruct Hs as [Ha Hs]. auto.
Qed.

Lemma all_printable_take n s :
  all_printable s -> all_printable (WString.take n s).
Proof.
  revert n. induction s as [| a s IH]; intros [| n] Hs; cbn; auto.
  destruct Hs as [Ha Hs]. auto.
Qed.

Lemma readSerialLine_from_result incoming :
  forall input line rest,
    all_printable input ->
    readSerialLine_from input incoming = Some (line, rest) ->
    line <> EmptyString /\ all_printable line.
Proof.
  induction incoming as [| c incoming IH]; intros input line rest Hp H;
    [discriminate |].
  cbn [readSerialLine_from] in H. cbv zeta in H.
  set (n := Z.of_nat (nat_of_ascii c)) in *.
  destruct ((n =? 10) || (n =? 13)).
  - destruct (Z.gtb_spec (WString.length input) 0) as [Hl | Hl].
    + injection H as <- <-. split; [| exact Hp].
      intros ->. cbn in Hl. lia.
    + apply (IH _ _ _ Hp H).
  - destruct ((n >=? 32) && (n <=? 126)) eqn:E.
    + apply andb_true_iff in E. destruct E as [E1 E2].
      rewrite Z.geb_leb in E1. apply Z.leb_le in E1, E2.
      refine (IH _ _ _ _ H). apply all_printable_app; [exact Hp |].
      unfold printable. fold n. lia.
    + destruct ((n =? 8) || (n =? 127)); [| apply (IH _ _ _ Hp H)].
      destruct (WString.length input >? 0); [| apply (IH _ _ _ Hp H)].
      refine (IH _ _ _ _ H). apply all_printable_take. exact Hp.
Qed.

(** X15: a line that [readSerialLine] returns is never empty and holds
    printable characters only (ASCII 32 to 126), whatever bytes arrive:
    empty lines, control bytes and backspaces on an empty line are
    skipped. *)
Theorem readSerialLine_result (incoming rest : list ascii) (line : string) :
  readSerialLine incoming = Some (line, rest) ->
  line <> EmptyString /\ all_printable line.
Proof.
  unfold readSerialLine. apply readSerialLine_from_result. exact I.
Qed.

Lemma readSerialLine_result_witness :
  readSerialLine
    (list_ascii_of_string
       (String "013" (String "010" (String "008" ("Dux" ++ String "127"
          ("eLCD" ++ String "007" ("03" ++ String "013" "rest")))))))
  = Some ("DueLCD03", list_ascii_of_string "rest")
  /\ "DueLCD03" <> EmptyString /\ all_printable "DueLCD03".
Proof.
  split; [vm_compute; reflexivity |].
  apply (readSerialLine_result
           (list_ascii_of_string
              (String "013" (String "010" (String "008" ("Dux" ++ String "127"
                 ("eLCD" ++ String "007" ("03" ++ String "013" "rest")))))))
           (list_ascii_of_string "rest")).
  vm_compute. reflexivity.
Defined.

Lemma remove_last_app s c : remove_last (s ++ String c EmptyString) = s.
Proof.
  unfold remove_last.
  induction s as [| a s IH]; [reflexivity |].
  cbn [String.append String.length].
  replace (S (String.length (s ++ String c EmptyString)) - 1)%nat
    with (S (String.length (s ++ String c EmptyString) - 1))%nat.
  - cbn [WString.take]. rewrite IH. reflexivity.
  - destruct s; cbn; lia.
Qed.

Lemma append_snoc s c r :
  (s ++ String c EmptyString) ++ r = s ++ String c r.
Proof. induction s as [| a s IH]; cbn; [| rewrite IH]; reflexivity. Qed.

Lemma readSerialLine_from_typed name :
  forall input rest,
    all_printable name -> input ++ name <> EmptyString ->
    readSerialLine_from input
      (list_ascii_of_string name ++ "010"%char :: rest)%list
    = Some (input ++ name, rest).
Proof.
  induction name as [| c name IH]; intros input rest Hp Hne.
  - cbn. replace (input ++ EmptyString) with input in *
      by (clear; induction input; cbn; congruence).
    destruct input as [| a input]; [congruence |].
    cbn [WString.length String.length].
    destruct (Z.gtb_spec (Z.of_nat (S (String.length input))) 0); [| lia].
    reflexivity.
  - destruct Hp as [Hc Hp]. unfold printable in Hc.
    cbn [list_ascii_of_string List.app readSerialLine_from]. cbv zeta.
    set (n := Z.of_nat (nat_of_ascii c)) in *.
    destruct (Z.eqb_spec n 10); [lia |].
    destruct (Z.eqb_spec n 13); [lia |]. cbn [orb].
    destruct (Z.geb_spec n 32); [| lia].
    destruct (Z.leb_spec n 126); [| lia]. cbn [andb].
    rewrite IH; [rewrite append_snoc; reflexivity | exact Hp |].
    rewrite append_snoc. destruct input; discriminate.
Qed.

(** X16: a non-empty printable name typed and ended with a line feed comes
    back as typed, with the bytes behind it left unread; and a printable
    character followed by a backspace is as if neither had been typed. *)
Theorem readSerialLine_typed (name : string) (c : ascii)
    (input : string) (rest : list ascii) :
  all_printable name -> name <> EmptyString -> printable c ->
  readSerialLine (list_ascii_of_string name ++ "010"%char :: rest)%list
  = Some (name, rest) /\
  readSerialLine_from input (c :: "008"%char :: rest)
  = readSerialLine_from input rest.
Proof.
  intros Hp Hne Hc. split.
  - unfold readSerialLine.
    rewrite (readSerialLine_from_typed name EmptyString rest Hp Hne).
    reflexivity.
  - unfold printable in Hc.
    cbn [readSerialLine_from]. cbv zeta.
    set (n := Z.of_nat (nat_of_ascii c)) in *.
    destruct (Z.eqb_spec n 10); [lia |].
    destruct (Z.eqb_spec n 13); [lia |]. cbn [orb].
    destruct (Z.geb_spec n 32); [| lia].
    destruct (Z.leb_spec n 126); [| lia]. cbn [andb].
    change (Z.of_nat (nat_of_ascii "008")) with 8. cbn -[WString.length].
    assert (Hl : (WString.length (input ++ String c EmptyString) >? 0)
                 = true).
    { unfold WString.length. rewrite Z.gtb_ltb. apply Z.ltb_lt.
      destruct input; cbn [String.append String.length]; lia. }
    rewrite Hl, remove_last_app. reflexivity.
Qed.

Lemma readSerialLine_typed_witness :
  readSerialLine (list_ascii_of_string "DueLCD01" ++ ["010"%char; "1"%char])
  = Some ("DueLCD01", ["1"%char]) /\
  readSerialLine_from "Du" ["x"%char; "008"%char; "e"%char; "010"%char]
  = Some ("Due", []).
Proof.
  assert (Hp : all_printable "DueLCD01")
    by (cbn; unfold printable; cbn; lia).
  assert (Hx : printable "x") by (unfold printable; cbn; lia).
  destruct (readSerialLine_typed "DueLCD01" "x" "Du"
              ["e"%char; "010"%char] Hp ltac:(discriminate) Hx)
    as [_ Hb].
  destruct (readSerialLine_typed "DueLCD01" "x" "Du" ["1"%char] Hp
              ltac:(discriminate) Hx) as [Ht _].
  split; [exact Ht |].
  rewrite Hb. reflexivity.
Defined.

(** X17: the session starts exactly when the operator chooses option 1 or
    2: a name read by [readSerialLine] is never empty, so the empty-name
    halt cannot happen, and the session then starts at rotation 1 with the
    whole published surface as bounds and nothing marked unsaved. *)
Theorem setup_starts (incoming rest rest' : list ascii)
    (choice name : string) :
  readSerialLine incoming = Some (choice, rest) ->
  readSerialLine rest = Some (name, rest') ->
  (halted (setup choice name initial_globals) = false
   <-> choice = "1" \/ choice = "2") /\
  (halted (setup choice name initial_globals) = false ->
   setup choice name initial_globals =
   mkState 1 1 0 0 160 128 2 MODE_NONE (mkSaved 1 0 0 0 0 2)
     false false name true false).
Proof.
  intros _ Hname.
  destruct (readSerialLine_from_result rest EmptyString name rest' I Hname)
    as [Hne _].
  split; [| apply setup_not_halted].
  unfold setup, selectOrCreateDisplay. cbv zeta.
  destruct name as [| c name]; [congruence |].
  destruct (String.eqb_spec choice "1") as [-> | H1].
  - cbn. split; auto.
  - destruct (String.eqb_spec choice "2") as [-> | H2].
    + cbn. split; auto.
    + cbn. split; [discriminate | intros [H | H]; congruence].
Qed.

Lemma setup_starts_witness :
  halted (setup "2" "DueLCD03" initial_globals) = false /\
  bounds (setup "2" "DueLCD03" initial_globals) = (0, 0, 160, 128).
Proof.
  destruct (setup_starts
              (list_ascii_of_string
                 (String "013" ("2" ++ String "013"
                    ("DueLCD03" ++ String "010" EmptyString))))
              (list_ascii_of_string
                 ("DueLCD03" ++ String "010" EmptyString))
              [] "2" "DueLCD03" eq_refl eq_refl) as [[_ Hh] Hs].
  split; [apply Hh; right; reflexivity |].
  rewrite Hs by (apply Hh; right; reflexivity). reflexivity.
Defined.

(** ** Initial bounds *)

(** X18: in every rotation [initializeBoundsFromPublished] makes the
    usable bounds the whole surface of the canvas, (0, 0, width, height):
    the published 160 by 128 in the landscape rotations and its swap in
    the portrait ones.  These bounds satisfy the invariants, and the clamp
    leaves them alone. *)
Theorem initial_bounds_whole_surface (s : State) :
  session_ok s ->
  let s' := initializeBoundsFromPublished s in
  bounds s' = (0, 0, tft_width s, tft_height s) /\
  invariants (tft_width s') (tft_height s') s' /\
  validateAndClampBounds s' = (s', false).
Proof.
  intros [Hr Ht]. cbv zeta.
  assert (Hi : bounds (initializeBoundsFromPublished s)
               = (0, 0, tft_width s, tft_height s) /\
               invariants (tft_width (initializeBoundsFromPublished s))
                 (tft_height (initializeBoundsFromPublished s))
                 (initializeBoundsFromPublished s)).
  { destruct s as [tr cr x y w h ft cm ls hu he nm ce hl].
    cbn in Hr, Ht. subst tr.
    unfold invariants, origin_nonneg, inside_surface, min_size.
    destruct (rotation_cases cr Hr) as [-> | [-> | [-> | ->]]];
      cbn; repeat split;
      unfold PUBLISHED_WIDTH, PUBLISHED_HEIGHT, Tft.ST7735_TFTWIDTH_128,
        Tft.ST7735_TFTHEIGHT_160; lia. }
  destruct Hi as [Hb Hi]. split; [exact Hb |]. split; [exact Hi |].
  unfold validateAndClampBounds. apply clamp_valid_unmodified. exact Hi.
Qed.

Lemma initial_bounds_whole_surface_witness :
  bounds (initializeBoundsFromPublished (setRotation 2 bootstrap))
  = (0, 0, 128, 160).
Proof.
  assert (Hs : session_ok (setRotation 2 bootstrap))
    by (unfold session_ok; cbn; lia).
  destruct (initial_bounds_whole_surface _ Hs) as [-> _]. reflexivity.
Defined.

(** ** Malformed [bounds] lines *)

Lemma drop_drop a b s :
  WString.drop a (WString.drop b s) = WString.drop (b + a)%nat s.
Proof.
  revert s. induction b as [| b IH]; intros s; [reflexivity |].
  destruct s as [| c s]; cbn [WString.drop Nat.add].
  - destruct a; reflexivity.
  - apply IH.
Qed.

Lemma strchr_found ch r :
  forall pos, 0 <= pos ->
    let q := WString.strchr ch pos r in
    q = -1 \/
    (pos <= q /\
     (S (count_char ch (WString.drop (S (Z.to_nat (q - pos))) r))
      <= count_char ch r)%nat).
Proof.
  induction r as [| c r IH]; intros pos Hpos; cbn [WString.strchr];
    [left; reflexivity |].
  cbv zeta. cbn [count_char].
  destruct (Ascii.eqb c ch).
  - right. split; [lia |].
    replace (pos - pos) with 0 by lia. cbn [Z.to_nat WString.drop]. lia.
  - destruct (IH (pos + 1) ltac:(lia)) as [-> | [Hq Hc]];
      [left; reflexivity |].
    right. split; [lia |].
    replace (Z.to_nat (WString.strchr ch (pos + 1) r - pos))
      with (S (Z.to_nat (WString.strchr ch (pos + 1) r - (pos + 1))))
      by lia.
    cbn [WString.drop]. exact Hc.
Qed.

Lemma indexOf_found ch from s :
  0 < WString.indexOf ch from s ->
  (S (count_char ch
        (WString.drop (Z.to_nat (WString.indexOf ch from s + 1)) s))
   <= count_char ch (WString.drop (Z.to_nat from) s))%nat
  /\ 0 <= from.
Proof.
  unfold WString.indexOf.
  destruct (Z.ltb_spec from 0); cbn [orb]; [lia |].
  destruct (Z.geb_spec from (WString.length s)); [lia |].
  intros Hq.
  destruct (strchr_found ch (WString.drop (Z.to_nat from) s) from
              ltac:(lia)) as [E | [Hle Hc]]; [lia |].
  split; [| lia].
  rewrite drop_drop in Hc.
  replace (Z.to_nat from
           + S (Z.to_nat
                  (WString.strchr ch from (WString.drop (Z.to_nat from) s)
                   - from)))%nat
    with (Z.to_nat
            (WString.strchr ch from (WString.drop (Z.to_nat from) s) + 1))
    in Hc by lia.
  exact Hc.
Qed.

Lemma count_char_drop ch n s :
  (count_char ch (WString.drop n s) <= count_char ch s)%nat.
Proof.
  revert s. induction n as [| n IH]; intros s; [cbn; lia |].
  destruct s as [| c s]; cbn [WString.drop count_char]; [lia |].
  specialize (IH s). destruct (Ascii.eqb c ch); lia.
Qed.

(** X19: a [bounds] line whose parameter text holds fewer than three
    commas is a format error and changes nothing at all. *)
Theorem processBounds_malformed (command : string) (s : State) :
  (count_char "," (WString.substring_from 7 command) < 3)%nat ->
  processBounds command s = s.
Proof.
  intros Hc. unfold processBounds. cbv zeta.
  set (params := WString.substring_from 7 command) in *.
  set (p1 := WString.indexOf "," 0 params).
  set (p2 := WString.indexOf "," (p1 + 1) params).
  set (p3 := WString.indexOf "," (p2 + 1) params).
  destruct (Z.gtb_spec p1 0) as [H1 | H1]; [| reflexivity].
  destruct (Z.gtb_spec p2 0) as [H2 | H2]; [| reflexivity].
  destruct (Z.gtb_spec p3 0) as [H3 | H3]; [| reflexivity].
  exfalso.
  destruct (indexOf_found "," 0 params H1) as [C1 _].
  destruct (indexOf_found "," (p1 + 1) params H2) as [C2 _].
  destruct (indexOf_found "," (p2 + 1) params H3) as [C3 _].
  fold p1 in C1. fold p2 in C2. fold p3 in C3.
  cbn [Z.to_nat WString.drop] in C1.
  pose proof (count_char_drop "," (Z.to_nat (p3 + 1)) params).
  lia.
Qed.

Lemma processBounds_malformed_witness :
  processBounds "bounds 1,158 2 127" bootstrap = bootstrap /\
  processBounds "bounds" bootstrap = bootstrap.
Proof.
  split; apply processBounds_malformed; vm_compute; lia.
Defined.

(** ** The display registry *)

Section RegistryFacts.
Import DisplayManager.

Lemma existsb_find_name n m :
  existsb (fun d => same_name (getName d) (Some n)) m = false <->
  getDisplay_by_name n m = None.
Proof.
  unfold getDisplay_by_name.
  induction m as [| d m IH]; cbn [existsb find]; [tauto |].
  destruct (same_name (getName d) (Some n)); cbn [orb]; [| exact IH].
  split; discriminate.
Qed.

Lemma find_app_new n m cfg :
  getDisplay_by_name n m = None ->
  getDisplay_by_name n (m ++ [new_instance cfg])%list
  = if same_name (name cfg) (Some n) then Some (new_instance cfg) else None.
Proof.
  unfold getDisplay_by_name.
  induction m as [| d m IH]; cbn [find List.app]; [intros _; reflexivity |].
  destruct (same_name (getName d) (Some n)); [discriminate | exact IH].
Qed.

Lemma find_app_old n m d' :
  same_name (getName d') (Some n) = false ->
  getDisplay_by_name n (m ++ [d'])%list = getDisplay_by_name n m.
Proof.
  unfold getDisplay_by_name. intros Hd.
  induction m as [| d m IH]; cbn [find List.app]; [rewrite Hd; reflexivity |].
  destruct (same_name (getName d) (Some n)); [reflexivity | exact IH].
Qed.

Lemma addDisplay_cases MAX cfg m :
  (exists n,
     addDisplay MAX cfg m = (true, m ++ [new_instance cfg])%list /\
     displayCount m < MAX /\ name cfg = Some n /\
     width cfg <> 0 /\ height cfg <> 0 /\
     getDisplay_by_name n m = None)
  \/
  (addDisplay MAX cfg m = (false, m) /\
   (MAX <= displayCount m \/ name cfg = None \/ width cfg = 0
    \/ height cfg = 0
    \/ exists n, name cfg = Some n /\ getDisplay_by_name n m <> None)).
Proof.
  unfold addDisplay.
  destruct (Z.geb_spec (displayCount m) MAX) as [Hfull | Hroom];
    [right; split; [reflexivity | left; exact Hfull] |].
  destruct (name cfg) as [n |] eqn:En;
    [| right; split; [reflexivity | right; left; reflexivity]].
  destruct (Z.eqb_spec (width cfg) 0) as [Hw | Hw];
    [right; split; [reflexivity | right; right; left; exact Hw] |].
  destruct (Z.eqb_spec (height cfg) 0) as [Hh | Hh];
    [right; split; [reflexivity | right; right; right; left; exact Hh] |].
  cbn [orb].
  destruct (existsb (fun d => same_name (getName d) (Some n)) m) eqn:Ex.
  - right. split; [reflexivity |]. do 4 right. exists n.
    split; [reflexivity |].
    intros Hnone. apply existsb_find_name in Hnone. congruence.
  - left. exists n. apply existsb_find_name in Ex. auto 10.
Qed.

(** X20: a display that [addDisplay] accepts is found again: by its name,
    and at the index the count had before; the count grows by one, and
    every other name and every earlier index answers as before. *)
Theorem addDisplay_then_getDisplay (MAX : Z) (cfg : DisplayConfig)
    (m m' : Registry) :
  addDisplay MAX cfg m = (true, m') ->
  exists n,
    name cfg = Some n /\
    getDisplay_by_name n m' = Some (new_instance cfg) /\
    getDisplay_by_index (displayCount m) m' = Some (new_instance cfg) /\
    displayCount m' = displayCount m + 1 /\
    (forall n', n' <> n ->
       getDisplay_by_name n' m' = getDisplay_by_name n' m) /\
    (forall i, 0 <= i < displayCount m ->
       getDisplay_by_index i m' = getDisplay_by_index i m).
Proof.
  intros Hadd.
  destruct (addDisplay_cases MAX cfg m)
    as [(n & E & _ & Hn & _ & _ & Hnew) | [E _]];
    [| rewrite E in Hadd; discriminate].
  rewrite E in Hadd. injection Hadd as <-.
  exists n. split; [exact Hn |].
  assert (Hc : displayCount (m ++ [new_instance cfg])%list
               = displayCount m + 1).
  { unfold displayCount. rewrite length_app. cbn [List.length]. lia. }
  split.
  { rewrite (find_app_new n m cfg Hnew), Hn. cbn [same_name].
    rewrite String.eqb_refl. reflexivity. }
  split.
  { unfold getDisplay_by_index. rewrite Hc.
    destruct (Z.ltb_spec (displayCount m) (displayCount m + 1)); [| lia].
    unfold displayCount. rewrite Nat2Z.id, nth_error_app2 by lia.
    rewrite Nat.sub_diag. reflexivity. }
  split; [exact Hc |].
  split.
  - intros n' Hn'. apply find_app_old.
    unfold getName, new_instance. cbn [config]. rewrite Hn. cbn [same_name].
    apply String.eqb_neq. congruence.
  - intros i Hi. unfold getDisplay_by_index. rewrite Hc.
    destruct (Z.ltb_spec i (displayCount m + 1)); [| lia].
    destruct (Z.ltb_spec i (displayCount m)); [| lia].
    apply nth_error_app1. unfold displayCount in Hi. lia.
Qed.

Lemma addDisplay_then_getDisplay_witness :
  exists n,
    name (DisplayManager.sample_config "DueLCD01") = Some n /\
    getDisplay_by_name n [new_instance (DisplayManager.sample_config "DueLCD01")]
    = Some (new_instance (DisplayManager.sample_config "DueLCD01")).
Proof.
  destruct (addDisplay_then_getDisplay 4 (DisplayManager.sample_config "DueLCD01") []
              [new_instance (DisplayManager.sample_config "DueLCD01")] eq_refl)
    as (n & Hn & Hg & _).
  exists n. split; assumption.
Defined.

(** X21: [addDisplay] refuses exactly when the registry is full, the
    configuration has no name or a zero width or height, or a display of
    that name is already registered; a refusal leaves the registry as it
    was. *)
Theorem addDisplay_refusal (MAX : Z) (cfg : DisplayConfig) (m : Registry) :
  (fst (addDisplay MAX cfg m) = false <->
   MAX <= displayCount m \/ name cfg = None \/ width cfg = 0
   \/ height cfg = 0
   \/ exists n, name cfg = Some n /\ getDisplay_by_name n m <> None) /\
  (fst (addDisplay MAX cfg m) = false -> snd (addDisplay MAX cfg m) = m).
Proof.
  destruct (addDisplay_cases MAX cfg m)
    as [(n & E & Hroom & Hn & Hw & Hh & Hnew) | [E Hwhy]]; rewrite E;
    cbn [fst snd].
  - split; [| discriminate]. split; [discriminate |].
    intros [H | [H | [H | [H | (n' & H1 & H2)]]]]; try congruence; try lia.
  - split; [| reflexivity]. split; [intros _; exact Hwhy | reflexivity].
Qed.

Lemma find_none_names n m :
  getDisplay_by_name n m = None -> ~ In (Some n) (map getName m).
Proof.
  unfold getDisplay_by_name.
  induction m as [| d m IH]; cbn [find map In]; [tauto |].
  destruct (same_name (getName d) (Some n)) eqn:E; [discriminate |].
  intros Hnone [Hd | Hin]; [| exact (IH Hnone Hin)].
  rewrite Hd in E. cbn [same_name] in E. rewrite String.eqb_refl in E.
  discriminate.
Qed.

Lemma addDisplay_keeps_ok MAX cfg m :
  registry_ok MAX m -> registry_ok MAX (snd (addDisplay MAX cfg m)).
Proof.
  intros (Hnd & Hall & Hc).
  destruct (addDisplay_cases MAX cfg m)
    as [(n & E & Hroom & Hn & Hw & Hh & Hnew) | [E _]]; rewrite E;
    cbn [snd]; [| repeat split; assumption].
  unfold registry_ok. rewrite map_app. cbn [map].
  split; [| split].
  - apply NoDup_app; [exact Hnd | | ].
    + constructor; [intros [] | constructor].
    + intros o Ho [<- | []]. revert Ho.
      unfold getName, new_instance. cbn [config]. rewrite Hn.
      apply find_none_names. exact Hnew.
  - apply Forall_app. split; [exact Hall |].
    constructor; [| constructor].
    unfold getName, new_instance. cbn [config]. rewrite Hn.
    repeat split; [discriminate | exact Hw | exact Hh].
  - unfold displayCount in *. rewrite length_app. cbn [List.length]. lia.
Qed.

Lemma addDisplays_keep_ok MAX cfgs :
  forall m, registry_ok MAX m -> registry_ok MAX (addDisplays MAX cfgs m).
Proof.
  unfold addDisplays.
  induction cfgs as [| cfg cfgs IH]; intros m Hm; [exact Hm |].
  cbn [fold_left]. apply IH. apply addDisplay_keeps_ok. exact Hm.
Qed.

Lemma unique_name_found m :
  NoDup (map getName m) ->
  forall d n, In d m -> getName d = Some n ->
              getDisplay_by_name n m = Some d.
Proof.
  unfold getDisplay_by_name.
  induction m as [| d0 m IH]; intros Hnd d n Hin Hn; [destruct Hin |].
  cbn [map] in Hnd. inversion Hnd as [| ? ? Hnot Hnd']; subst.
  cbn [find].
  destruct Hin as [-> | Hin].
  - rewrite Hn. cbn [same_name]. rewrite String.eqb_refl. reflexivity.
  - destruct (same_name (getName d0) (Some n)) eqn:E;
      [| apply IH; assumption].
    exfalso. apply Hnot.
    destruct (getName d0) as [n0 |]; [| discriminate].
    cbn [same_name] in E. apply String.eqb_eq in E. subst n0.
    rewrite <- Hn. apply in_map. exact Hin.
Qed.

(** X22: a registry filled by [addDisplay] alone, whatever configurations
    were offered and in whatever order, never holds a name twice, holds
    only displays with a name and a non-zero size, and never more than
    [MAX_DISPLAYS] of them; so [getDisplay] by name finds every registered
    display, and no other one. *)
Theorem registry_invariant (MAX : Z) (cfgs : list DisplayConfig) :
  0 <= MAX ->
  let m := addDisplays MAX cfgs [] in
  registry_ok MAX m /\
  (forall d n, In d m -> getName d = Some n ->
               getDisplay_by_name n m = Some d) /\
  (forall d n, getDisplay_by_name n m = Some d ->
               In d m /\ getName d = Some n).
Proof.
  intros HM m.
  assert (Hok : registry_ok MAX m).
  { apply addDisplays_keep_ok. unfold registry_ok, displayCount. cbn.
    repeat split; [constructor | constructor | exact HM]. }
  split; [exact Hok |]. split.
  - apply unique_name_found. apply Hok.
  - intros d n Hf. unfold getDisplay_by_name in Hf.
    apply find_some in Hf. destruct Hf as [Hin Hs]. split; [exact Hin |].
    destruct (getName d) as [n0 |]; [| discriminate].
    cbn [same_name] in Hs. apply String.eqb_eq in Hs. congruence.
Qed.

Lemma registry_invariant_witness :
  let m := addDisplays 2
             [sample_config "A"; sample_config "B"; sample_config "A";
              sample_config "C"] [] in
  m = [new_instance (sample_config "A"); new_instance (sample_config "B")]
  /\ registry_ok 2 m.
Proof.
  cbv zeta. split; [vm_compute; reflexivity |].
  apply (registry_invariant 2
           [sample_config "A"; sample_config "B"; sample_config "A";
            sample_config "C"]). lia.
Defined.

Lemma initialize_cases d :
  (initialize d = (true, mkInstance (config d) true (imageFrameEnabled d)
                           (imageFrameThickness d))
   /\ (initialized d = true \/ ~ bad_pins d))
  \/ (initialize d = (false, d) /\ initialized d = false /\ bad_pins d).
Proof.
  unfold initialize, bad_pins.
  destruct d as [c i e t]. cbn [initialized config imageFrameEnabled
    imageFrameThickness].
  destruct i; [left; split; [reflexivity | left; reflexivity] |].
  destruct (Z.eqb_spec (cs c) 0); [right; cbn; auto |].
  destruct (Z.eqb_spec (dc c) 0); [right; cbn; auto |].
  destruct (Z.eqb_spec (rst c) 0); [right; cbn; auto |].
  left. cbn. split; [reflexivity | right; tauto].
Qed.

(** X23: [initializeAll] tries every display, also after one has failed:
    afterwards each display is initialized unless one of its pins CS, DC
    or RST is 0; the answer is [true] exactly when all of them are
    initialized; the configurations are untouched; and a second call
    changes nothing and gives the same answer. *)
Theorem initializeAll_spec (m : Registry) :
  let r := initializeAll m in
  map config (snd r) = map config m /\
  Forall (fun d => initialized d = true \/ bad_pins d) (snd r) /\
  (fst r = true <-> Forall (fun d => initialized d = true) (snd r)) /\
  initializeAll (snd r) = r.
Proof.
  cbv zeta. induction m as [| d m IH].
  - cbn. repeat split; constructor.
  - destruct IH as (IH1 & IH2 & IH3 & IH4).
    cbn [initializeAll].
    destruct (initializeAll m) as [ok rest] eqn:Er. cbn [fst snd] in *.
    destruct (initialize_cases d) as [[E Hd] | (E & Hi & Hb)]; rewrite E.
    + cbn [fst snd map andb initializeAll]. rewrite IH4.
      unfold initialize at 1. cbn [initialized].
      split; [cbn [config]; f_equal; exact IH1 |].
      split; [constructor; [left; reflexivity | exact IH2] |].
      split; [| reflexivity].
      rewrite IH3. split.
      * intros H. constructor; [reflexivity | exact H].
      * intros H. inversion H; assumption.
    + cbn [fst snd map andb initializeAll]. rewrite IH4, E.
      split; [f_equal; exact IH1 |].
      split; [constructor; [right; exact Hb | exact IH2] |].
      split; [| reflexivity].
      split; [discriminate |].
      intros H. inversion H; congruence.
Qed.

Lemma to_int16_id z : -32768 <= z <= 32767 -> to_int16 z = z.
Proof.
  intros Hz. unfold to_int16.
  rewrite Z.mod_small by lia. lia.
Qed.

Lemma frame_layers_seq x y w h :
  -32768 <= x -> x + 255 <= 32767 -> -32768 <= y -> y + 255 <= 32767 ->
  -32768 + 510 <= w <= 32767 -> -32768 + 510 <= h <= 32767 ->
  forall n a, (a + n <= 256)%nat ->
    frame_layers x y w h (map Z.of_nat (seq a n)) =
    map (fun i => (x + i, y + i, w - 2 * i, h - 2 * i))
      (map Z.of_nat
         (seq a (Nat.min n (Z.to_nat ((Z.min w h + 1) / 2) - a)))).
Proof.
  intros Hx1 Hx2 Hy1 Hy2 Hw Hh.
  induction n as [| n IH]; intros a Ha; [reflexivity |].
  cbn [seq map frame_layers]. cbv zeta.
  rewrite !to_int16_id by lia.
  destruct (Z.leb_spec (w - 2 * Z.of_nat a) 0) as [Hfw | Hfw];
    [| destruct (Z.leb_spec (h - 2 * Z.of_nat a) 0) as [Hfh | Hfh]];
    cbn [orb].
  - replace (Z.to_nat ((Z.min w h + 1) / 2) - a)%nat with O; [reflexivity |].
    assert ((Z.min w h + 1) / 2 < Z.of_nat a + 1)
      by (apply Z.div_lt_upper_bound; lia).
    lia.
  - replace (Z.to_nat ((Z.min w h + 1) / 2) - a)%nat with O; [reflexivity |].
    assert ((Z.min w h + 1) / 2 < Z.of_nat a + 1)
      by (apply Z.div_lt_upper_bound; lia).
    lia.
  - assert (Z.of_nat a + 1 <= (Z.min w h + 1) / 2)
      by (apply Z.div_le_lower_bound; lia).
    replace (Z.to_nat ((Z.min w h + 1) / 2) - a)%nat
      with (S (Z.to_nat ((Z.min w h + 1) / 2) - S a))%nat by lia.
    cbn [Nat.min seq map]. rewrite IH by lia. reflexivity.
Qed.

Lemma drawImageFrame_layers (d : DisplayInstance)
    (thickness adjustTop adjustBottom adjustLeft adjustRight : Z) :
  initialized d = true ->
  frame_args_ok d thickness adjustTop adjustBottom adjustLeft adjustRight ->
  let left := usableX (config d) - adjustLeft in
  let top := usableY (config d) - adjustTop in
  let right := usableX (config d) + usableWidth (config d) - 1
               + adjustRight in
  let bottom := usableY (config d) + usableHeight (config d) - 1
                + adjustBottom in
  -10 <= left -> -10 <= top ->
  drawImageFrame d thickness adjustTop adjustBottom adjustLeft adjustRight
  = map (fun i => (left + i, top + i,
                   right - left + 1 - 2 * i, bottom - top + 1 - 2 * i))
      (upto (Z.min thickness
               ((Z.min (right - left + 1) (bottom - top + 1) + 1) / 2))).
Proof.
  intros Hinit Hargs left top right bottom Hl Ht.
  unfold frame_args_ok in Hargs. cbv zeta in Hargs.
  destruct Hargs as (Hx & Hy & Hw & Hh & Hth & HaT & HaB & HaL & HaR).
  unfold drawImageFrame. rewrite Hinit. cbn [negb]. cbv zeta.
  fold left top.
  replace (usableY (config d) + usableHeight (config d) - 1
           + adjustBottom) with bottom by reflexivity.
  replace (usableX (config d) + usableWidth (config d) - 1
           + adjustRight) with right by reflexivity.
  assert (Hr : -400 <= right <= 3000) by (subst right; lia).
  assert (Hb : -400 <= bottom <= 3000) by (subst bottom; lia).
  assert (Hl2 : left <= 1200) by (subst left; lia).
  assert (Ht2 : top <= 1200) by (subst top; lia).
  rewrite (to_int16_id left), (to_int16_id top), (to_int16_id right),
    (to_int16_id bottom) by lia.
  rewrite (to_int16_id (right - left + 1)),
    (to_int16_id (bottom - top + 1)) by lia.
  destruct (Z.ltb_spec left (-10)); [lia |].
  destruct (Z.ltb_spec top (-10)); [lia |].
  set (w := right - left + 1). set (h := bottom - top + 1).
  destruct (Z.leb_spec w 0) as [Hw0 | Hw0];
    [| destruct (Z.leb_spec h 0) as [Hh0 | Hh0]]; cbn [orb].
  - assert ((Z.min w h + 1) / 2 < 1)
      by (apply Z.div_lt_upper_bound; lia).
    unfold upto. replace (Z.to_nat (Z.min thickness _)) with O by lia.
    reflexivity.
  - assert ((Z.min w h + 1) / 2 < 1)
      by (apply Z.div_lt_upper_bound; lia).
    unfold upto. replace (Z.to_nat (Z.min thickness _)) with O by lia.
    reflexivity.
  - unfold upto.
    rewrite (frame_layers_seq left top w h) by (subst w h; lia).
    rewrite Nat.sub_0_r, Z2Nat.inj_min. reflexivity.
Qed.

(** X24: for an initialized display and arguments in range, with the
    adjusted left and top edges not beyond 10 pixels off the display,
    [drawImageFrame] draws the adjusted rectangle and its insets, as many
    as the thickness asks for and the rectangle has room for, and nothing
    when the rectangle is empty; and [isWithinFrameBounds] accepts exactly
    the pixels of the outermost of these rectangles. *)
Theorem frame_agrees_with_bounds (d : DisplayInstance)
    (thickness adjustTop adjustBottom adjustLeft adjustRight : Z) :
  initialized d = true ->
  frame_args_ok d thickness adjustTop adjustBottom adjustLeft adjustRight ->
  let left := usableX (config d) - adjustLeft in
  let top := usableY (config d) - adjustTop in
  let right := usableX (config d) + usableWidth (config d) - 1
               + adjustRight in
  let bottom := usableY (config d) + usableHeight (config d) - 1
                + adjustBottom in
  -10 <= left -> -10 <= top ->
  drawImageFrame d thickness adjustTop adjustBottom adjustLeft adjustRight
  = map (fun i => (left + i, top + i,
                   right - left + 1 - 2 * i, bottom - top + 1 - 2 * i))
      (upto (Z.min thickness
               ((Z.min (right - left + 1) (bottom - top + 1) + 1) / 2)))
  /\
  forall px py,
    isWithinFrameBounds d px py adjustTop adjustBottom adjustLeft adjustRight
    = true
    <-> left <= px <= right /\ top <= py <= bottom.
Proof.
  intros Hinit Hargs left top right bottom Hl Ht.
  unfold frame_args_ok in Hargs. cbv zeta in Hargs.
  destruct Hargs as (Hx & Hy & Hw & Hh & Hth & HaT & HaB & HaL & HaR).
  split.
  - apply drawImageFrame_layers;
      [exact Hinit | | exact Hl | exact Ht].
    unfold frame_args_ok. cbv zeta. repeat split; lia.
  - intros px py. unfold isWithinFrameBounds. cbv zeta.
    fold left top.
    replace (usableY (config d) + usableHeight (config d) - 1
             + adjustBottom) with bottom by reflexivity.
    replace (usableX (config d) + usableWidth (config d) - 1
             + adjustRight) with right by reflexivity.
    rewrite (to_int16_id left), (to_int16_id top), (to_int16_id right),
      (to_int16_id bottom) by (subst left top right bottom; lia).
    rewrite !andb_true_iff, !Z.geb_leb, !Z.leb_le. tauto.
Qed.

Lemma frame_agrees_with_bounds_witness :
  let d := mkInstance (sample_config "DueLCD01") true false 1 in
  drawImageFrame d 2 1 0 1 0
  = [(0, 1, 159, 127); (1, 2, 157, 125)] /\
  (isWithinFrameBounds d 0 1 1 0 1 0 = true <->
   0 <= 0 <= 158 /\ 1 <= 1 <= 127).
Proof.
  cbv zeta.
  assert (Ha : frame_args_ok
                 (mkInstance (sample_config "DueLCD01") true false 1)
                 2 1 0 1 0)
    by (unfold frame_args_ok; cbn; lia).
  destruct (frame_agrees_with_bounds
              (mkInstance (sample_config "DueLCD01") true false 1)
              2 1 0 1 0 eq_refl Ha
              ltac:(cbn; lia) ltac:(cbn; lia)) as [Hd Hw].
  split; [rewrite Hd; reflexivity | apply Hw].
Defined.

End RegistryFacts.

(** ** Clearing the image frame *)

Section FrameFacts.
Import DisplayManager.

(** X25: with no edge adjustments, the only rectangle that
    [enableImageFrame(false, ...)] paints over among those that
    [enableImageFrame(true, ...)] drew is the usable rectangle itself:
    the frame is drawn inwards and cleared outwards, so with a thickness
    of 2 or more the inner layers are drawn and never cleared. *)
Theorem clear_misses_inner_layers (d : DisplayInstance) (thickness : Z) :
  initialized d = true ->
  frame_args_ok d thickness 0 0 0 0 ->
  let drawn := snd (enableImageFrame true thickness 0 0 0 0 d) in
  let cleared :=
    snd (enableImageFrame false thickness 0 0 0 0
           (fst (enableImageFrame true thickness 0 0 0 0 d))) in
  (forall r, In r drawn -> In r cleared ->
     r = (usableX (config d), usableY (config d),
          usableWidth (config d), usableHeight (config d))) /\
  (2 <= thickness -> 3 <= usableWidth (config d) ->
   3 <= usableHeight (config d) ->
   In (usableX (config d) + 1, usableY (config d) + 1,
       usableWidth (config d) - 2, usableHeight (config d) - 2) drawn).
Proof.
  intros Hinit Hargs drawn cleared.
  assert (Hd : drawn =
    map (fun i => (usableX (config d) - 0 + i, usableY (config d) - 0 + i,
                   usableX (config d) + usableWidth (config d) - 1 + 0
                   - (usableX (config d) - 0) + 1 - 2 * i,
                   usableY (config d) + usableHeight (config d) - 1 + 0
                   - (usableY (config d) - 0) + 1 - 2 * i))
      (upto (Z.min thickness
               ((Z.min
                   (usableX (config d) + usableWidth (config d) - 1 + 0
                    - (usableX (config d) - 0) + 1)
                   (usableY (config d) + usableHeight (config d) - 1 + 0
                    - (usableY (config d) - 0) + 1) + 1) / 2)))).
  { subst drawn. unfold enableImageFrame. cbn [snd].
    unfold frame_args_ok in Hargs. cbv zeta in Hargs.
    apply (drawImageFrame_layers
             (mkInstance (config d) (initialized d) true thickness)
             thickness 0 0 0 0);
      [exact Hinit | exact Hargs | cbn [config]; lia | cbn [config]; lia]. }
  unfold frame_args_ok in Hargs. cbv zeta in Hargs.
  destruct Hargs as (Hx & Hy & Hw & Hh & Hth & _).
  split.
  - intros r Hr Hc. rewrite Hd in Hr.
    apply in_map_iff in Hr. destruct Hr as (i & <- & Hi).
    apply in_upto in Hi.
    subst cleared. unfold enableImageFrame in Hc. cbn [fst snd] in Hc.
    unfold clearImageFrame in Hc.
    cbn [initialized config imageFrameThickness] in Hc.
    rewrite Hinit in Hc. cbn [negb] in Hc. cbv zeta in Hc.
    apply in_map_iff in Hc. destruct Hc as (j & Hc & Hj).
    apply in_upto in Hj.
    rewrite (to_int16_id (usableX (config d))),
      (to_int16_id (usableY (config d))),
      (to_int16_id (usableWidth (config d))),
      (to_int16_id (usableHeight (config d))) in Hc by lia.
    rewrite (to_int16_id (usableX (config d) - j)),
      (to_int16_id (usableY (config d) - j)),
      (to_int16_id (usableWidth (config d) + 2 * j)),
      (to_int16_id (usableHeight (config d) + 2 * j)) in Hc by lia.
    injection Hc as H1 H2 H3 H4.
    assert (i = 0) by lia. subst i.
    f_equal; [f_equal; [f_equal |] |]; lia.
  - intros H2 H3w H3h. rewrite Hd. apply in_map_iff. exists 1.
    split; [f_equal; [f_equal; [f_equal |] |]; lia |].
    apply in_upto.
    assert (2 <= (Z.min
                    (usableX (config d) + usableWidth (config d) - 1 + 0
                     - (usableX (config d) - 0) + 1)
                    (usableY (config d) + usableHeight (config d) - 1 + 0
                     - (usableY (config d) - 0) + 1) + 1) / 2)
      by (apply Z.div_le_lower_bound; lia).
    lia.
Qed.

Lemma clear_misses_inner_layers_witness :
  let d := mkInstance (sample_config "DueLCD01") true false 1 in
  snd (enableImageFrame true 2 0 0 0 0 d)
  = [(1, 2, 158, 126); (2, 3, 156, 124)] /\
  snd (enableImageFrame false 2 0 0 0 0
         (fst (enableImageFrame true 2 0 0 0 0 d)))
  = [(1, 2, 158, 126); (0, 1, 160, 128)] /\
  In (2, 3, 156, 124) (snd (enableImageFrame true 2 0 0 0 0 d)).
Proof.
  cbv zeta.
  assert (Ha : frame_args_ok
                 (mkInstance (sample_config "DueLCD01") true false 1)
                 2 0 0 0 0)
    by (unfold frame_args_ok; cbn; lia).
  destruct (clear_misses_inner_layers
              (mkInstance (sample_config "DueLCD01") true false 1) 2
              eq_refl Ha) as [_ Hin].
  split; [vm_compute; reflexivity |].
  split; [vm_compute; reflexivity |].
  apply Hin; cbn; lia.
Defined.

End FrameFacts.

(** ** Numbers as text *)

Ltac digit_step IH :=
  cbn [NilEmpty.string_of_uint String.append WString.digits
       Pos.of_uint_acc Pos.of_uint];
  match goal with
  | |- context [WString.isdigit ?c] =>
      change (WString.isdigit c) with true
  end;
  match goal with
  | |- context [Z.of_nat (nat_of_ascii ?c)] =>
      let v := eval vm_compute in (Z.of_nat (nat_of_ascii c)) in
      change (Z.of_nat (nat_of_ascii c)) with v
  end;
  cbv iota.

Lemma digits_stop acc rest :
  ends_number rest -> WString.digits acc rest = acc.
Proof.
  destruct rest as [| c r]; cbn [ends_number WString.digits];
    [reflexivity | intros ->; reflexivity].
Qed.

Lemma uint_digits_acc d :
  forall acc rest,
    ends_number rest ->
    WString.digits (Z.pos acc) (NilEmpty.string_of_uint d ++ rest)
    = Z.pos (Pos.of_uint_acc d acc).
Proof.
  induction d as [| d IH | d IH | d IH | d IH | d IH | d IH | d IH | d IH
                  | d IH | d IH]; intros acc rest Hr;
    [ cbn [NilEmpty.string_of_uint String.append Pos.of_uint_acc];
      apply digits_stop; exact Hr
    | digit_step IH; rewrite <- (IH _ rest Hr); f_equal; lia .. ].
Qed.

Lemma uint_digits d :
  forall rest,
    ends_number rest ->
    WString.digits 0 (NilEmpty.string_of_uint d ++ rest)
    = Z.of_N (Pos.of_uint d).
Proof.
  induction d as [| d IH | d IH | d IH | d IH | d IH | d IH | d IH | d IH
                  | d IH | d IH]; intros rest Hr;
    [ cbn [NilEmpty.string_of_uint String.append Pos.of_uint];
      apply digits_stop; exact Hr
    | digit_step IH; apply IH; exact Hr
    | digit_step IH; cbn [Z.of_N];
      rewrite <- (uint_digits_acc d _ rest Hr); f_equal .. ].
Qed.

(** ** Well-formed [bounds] lines *)

Lemma length_app a b :
  String.length (a ++ b) = (String.length a + String.length b)%nat.
Proof.
  induction a as [| c a IH]; cbn [String.append String.length Nat.add];
    [reflexivity | rewrite IH; reflexivity].
Qed.

Lemma app_assoc_string a b c : (a ++ b) ++ c = a ++ b ++ c.
Proof.
  induction a as [| x a IH]; cbn [String.append];
    [reflexivity | rewrite IH; reflexivity].
Qed.

Lemma app_nil_string a : a ++ EmptyString = a.
Proof.
  induction a as [| x a IH]; cbn [String.append];
    [reflexivity | rewrite IH; reflexivity].
Qed.

Lemma drop_app a b : WString.drop (String.length a) (a ++ b) = b.
Proof.
  induction a as [| x a IH]; cbn [String.append String.length WString.drop];
    [destruct b; reflexivity | exact IH].
Qed.

Lemma take_app a b : WString.take (String.length a) (a ++ b) = a.
Proof.
  induction a as [| x a IH]; cbn [String.append String.length WString.take];
    [destruct b; reflexivity | rewrite IH; reflexivity].
Qed.

Lemma strchr_skip ch a r :
  count_char ch a = 0%nat ->
  forall pos,
    WString.strchr ch pos (a ++ String ch r)
    = pos + Z.of_nat (String.length a).
Proof.
  induction a as [| x a IH]; cbn [String.append String.length count_char
                                  WString.strchr]; intros Hc pos.
  - rewrite Ascii.eqb_refl. lia.
  - destruct (Ascii.eqb x ch); [discriminate |].
    rewrite (IH Hc). lia.
Qed.

(** The first [ch] at or after the end of [a], when [b] holds none. *)
Lemma indexOf_app ch a b r :
  count_char ch b = 0%nat ->
  WString.indexOf ch (WString.length a) (a ++ b ++ String ch r)
  = WString.length a + WString.length b.
Proof.
  intros Hb. unfold WString.indexOf, WString.length.
  rewrite !length_app. cbn [String.length].
  destruct (Z.ltb_spec (Z.of_nat (String.length a)) 0); [lia |].
  cbn [orb].
  destruct (Z.geb_spec (Z.of_nat (String.length a))
              (Z.of_nat (String.length a
                         + (String.length b + S (String.length r)))));
    [lia |].
  rewrite Nat2Z.id, drop_app. apply strchr_skip. exact Hb.
Qed.

(** The text between two positions of a concatenation. *)
Lemma substring_app a b c :
  WString.substring (WString.length a)
    (WString.length a + WString.length b) (a ++ b ++ c) = b.
Proof.
  unfold WString.substring, WString.length.
  rewrite !length_app.
  destruct (Z.gtb_spec (Z.of_nat (String.length a))
              (Z.of_nat (String.length a) + Z.of_nat (String.length b)));
    [lia |].
  destruct (Z.geb_spec (Z.of_nat (String.length a))
              (Z.of_nat (String.length a
                         + (String.length b + String.length c)))) as [Hge |].
  - destruct b; [reflexivity | cbn [String.length] in Hge; lia].
  - destruct (Z.gtb_spec
                (Z.of_nat (String.length a) + Z.of_nat (String.length b))
                (Z.of_nat (String.length a
                           + (String.length b + String.length c))));
      [lia |].
    replace (Z.to_nat (Z.of_nat (String.length a)
                       + Z.of_nat (String.length b)
                       - Z.of_nat (String.length a)))
      with (String.length b) by lia.
    rewrite Nat2Z.id, drop_app. apply take_app.
Qed.

Lemma substring_from_app a b :
  WString.substring_from (WString.length a) (a ++ b) = b.
Proof.
  unfold WString.substring_from.
  pose proof (substring_app a b EmptyString) as H.
  rewrite app_nil_string in H.
  replace (WString.length (a ++ b))
    with (WString.length a + WString.length b);
    [exact H |].
  unfold WString.length. rewrite length_app. lia.
Qed.

Lemma processBounds_split pre A B C D s :
  WString.length pre = 7 ->
  A <> EmptyString ->
  count_char "," A = 0%nat ->
  count_char "," B = 0%nat ->
  count_char "," C = 0%nat ->
  processBounds (pre ++ A ++ "," ++ B ++ "," ++ C ++ "," ++ D) s
  = setUsableBounds (WString.toInt A) (WString.toInt B)
      (WString.toInt C) (WString.toInt D) s.
Proof.
  intros Hpre HA CA CB CC. unfold processBounds. cbv zeta.
  rewrite <- Hpre, substring_from_app.
  cbn [String.append].
  set (params := A ++ String "," (B ++ String "," (C ++ String "," D))).
  assert (E1 : WString.indexOf "," 0 params = WString.length A).
  { pose proof (indexOf_app "," EmptyString A
                  (B ++ String "," (C ++ String "," D)) CA) as H.
    exact H. }
  set (P1 := A ++ ",").
  assert (L1 : WString.length P1 = WString.length A + 1).
  { unfold P1, WString.length. rewrite length_app. cbn [String.length]. lia. }
  assert (F1 : params = P1 ++ B ++ String "," (C ++ String "," D)).
  { unfold P1, params. rewrite app_assoc_string. reflexivity. }
  assert (E2 : WString.indexOf "," (WString.length A + 1) params
               = WString.length P1 + WString.length B).
  { rewrite <- L1, F1. apply indexOf_app. exact CB. }
  set (P2 := P1 ++ B ++ ",").
  assert (L2 : WString.length P2 = WString.length P1 + WString.length B + 1).
  { unfold P2, WString.length. rewrite !length_app. cbn [String.length].
    lia. }
  assert (F2 : params = P2 ++ C ++ String "," D).
  { rewrite F1. unfold P2. rewrite !app_assoc_string. reflexivity. }
  assert (E3 : WString.indexOf ","
                 (WString.length P1 + WString.length B + 1) params
               = WString.length P2 + WString.length C).
  { rewrite <- L2, F2. apply indexOf_app. exact CC. }
  set (P3 := P2 ++ C ++ ",").
  assert (L3 : WString.length P3 = WString.length P2 + WString.length C + 1).
  { unfold P3, WString.length. rewrite !length_app. cbn [String.length].
    lia. }
  assert (F3 : params = P3 ++ D).
  { rewrite F2. unfold P3. rewrite !app_assoc_string. reflexivity. }
  rewrite E1, E2, E3.
  assert (HlA : 0 < WString.length A).
  { unfold WString.length. destruct A; [congruence |].
    cbn [String.length]. lia. }
  assert (Hl : forall x, 0 <= WString.length x)
    by (intros x; unfold WString.length; lia).
  pose proof (Hl B). pose proof (Hl C). pose proof (Hl P1). pose proof (Hl P2).
  destruct (Z.gtb_spec (WString.length A) 0); [| lia].
  destruct (Z.gtb_spec (WString.length P1 + WString.length B) 0); [| lia].
  destruct (Z.gtb_spec (WString.length P2 + WString.length C) 0); [| lia].
  cbn [andb].
  assert (S1 : WString.substring 0 (WString.length A) params = A).
  { exact (substring_app EmptyString A _). }
  assert (S2 : WString.substring (WString.length A + 1)
                 (WString.length P1 + WString.length B) params = B).
  { rewrite <- L1, F1. apply substring_app. }
  assert (S3 : WString.substring (WString.length P1 + WString.length B + 1)
                 (WString.length P2 + WString.length C) params = C).
  { rewrite <- L2, F2. apply substring_app. }
  assert (S4 : WString.substring_from
                 (WString.length P2 + WString.length C + 1) params = D).
  { rewrite <- L3, F3. apply substring_from_app. }
  rewrite S1, S2, S3, S4. reflexivity.
Qed.

Lemma digit_not_sign c :
  WString.isdigit c = true ->
  WString.isspace c = false /\ Ascii.eqb c "-" = false /\
  Ascii.eqb c "+" = false /\ Ascii.eqb c "," = false /\
  WString.tolower c = c.
Proof.
  destruct c as [[] [] [] [] [] [] [] []]; intros H;
    try discriminate H; repeat split; reflexivity.
Qed.

Lemma decimal_char_plain c :
  decimal_char c = true ->
  WString.isspace c = false /\ Ascii.eqb c "," = false /\
  WString.tolower c = c.
Proof.
  destruct c as [[] [] [] [] [] [] [] []]; intros H;
    try discriminate H; repeat split; reflexivity.
Qed.

Lemma toInt_digit_start c r :
  WString.isdigit c = true ->
  WString.toInt (String c r) = WString.digits 0 (String c r).
Proof.
  intros H. destruct (digit_not_sign c H) as (Hs & Hm & Hp & _).
  unfold WString.toInt. cbn [WString.skip_space].
  rewrite Hs, Hm, Hp. reflexivity.
Qed.

Lemma uint_all_digits d :
  all_chars WString.isdigit (NilEmpty.string_of_uint d) = true.
Proof.
  induction d; cbn [NilEmpty.string_of_uint all_chars];
    [reflexivity | rewrite IHd; reflexivity ..].
Qed.

Lemma all_chars_weaken (p q : ascii -> bool) s :
  (forall c, p c = true -> q c = true) ->
  all_chars p s = true -> all_chars q s = true.
Proof.
  intros Hpq. induction s as [| c s IH]; cbn [all_chars]; [reflexivity |].
  intros H. apply andb_true_iff in H. destruct H as [Hc Hs].
  rewrite (Hpq c Hc), (IH Hs). reflexivity.
Qed.

(** The decimal text of an integer: digits after an optional sign, never
    empty. *)
Lemma String_of_int_shape z :
  all_chars decimal_char (String_of_int z) = true /\
  String_of_int z <> EmptyString.
Proof.
  assert (Hd : forall d,
             all_chars decimal_char (NilZero.string_of_uint d) = true /\
             NilZero.string_of_uint d <> EmptyString).
  { intros d. unfold NilZero.string_of_uint.
    destruct d; try (split; [reflexivity | discriminate]);
      (split; [| cbn [NilEmpty.string_of_uint]; discriminate]);
      apply (all_chars_weaken WString.isdigit);
      try apply uint_all_digits;
      intros c Hc; unfold decimal_char; rewrite Hc; reflexivity. }
  unfold String_of_int. destruct (Z.to_int z) as [d | d];
    cbn [NilZero.string_of_int].
  - apply Hd.
  - split; [| discriminate]. cbn [all_chars].
    destruct (Hd d) as [-> _]. reflexivity.
Qed.

(** [toInt] reads back the decimal text of an integer, also when other
    text follows the number. *)
Lemma toInt_String_of_int z rest :
  ends_number rest ->
  WString.toInt (String_of_int z ++ rest) = z.
Proof.
  intros Hr.
  assert (Hp : forall p,
             WString.digits 0 (NilZero.string_of_uint (Pos.to_uint p) ++ rest)
             = Z.pos p /\
             exists c r, NilZero.string_of_uint (Pos.to_uint p) = String c r
                         /\ WString.isdigit c = true).
  { intros p. pose proof (DecimalPos.Unsigned.to_uint_nonnil p) as Hn.
    pose proof (DecimalPos.Unsigned.of_to p) as Hof.
    unfold NilZero.string_of_uint.
    destruct (Pos.to_uint p) as [| d | d | d | d | d | d | d | d | d | d]
      eqn:E; [congruence | ..];
      (split;
       [ rewrite (uint_digits _ rest Hr), Hof; reflexivity
       | cbn [NilEmpty.string_of_uint]; eexists; eexists;
         split; [reflexivity | reflexivity] ]). }
  unfold String_of_int, Z.to_int. destruct z as [| p | p];
    cbn [NilZero.string_of_int].
  - cbn [NilZero.string_of_uint NilEmpty.string_of_uint String.append].
    rewrite toInt_digit_start by reflexivity.
    cbn [WString.digits]. change (WString.isdigit "0") with true.
    cbv iota. change (10 * 0 + (Z.of_nat (nat_of_ascii "0") - 48)) with 0.
    apply digits_stop. exact Hr.
  - destruct (Hp p) as [Hv (c & r & E & Hc)].
    rewrite <- Hv. rewrite E. cbn [String.append].
    apply toInt_digit_start. exact Hc.
  - destruct (Hp p) as [Hv _].
    cbn [String.append]. unfold WString.toInt. cbn [WString.skip_space].
    change (WString.isspace "-") with false. cbv iota.
    change (Ascii.eqb "-" "-") with true. cbv iota.
    rewrite Hv. reflexivity.
Qed.

Lemma all_chars_count p ch s :
  (forall c, p c = true -> Ascii.eqb c ch = false) ->
  all_chars p s = true -> count_char ch s = 0%nat.
Proof.
  intros Hp. induction s as [| c s IH]; cbn [all_chars count_char];
    [reflexivity |].
  intros H. apply andb_true_iff in H. destruct H as [Hc Hs].
  rewrite (Hp c Hc). apply IH. exact Hs.
Qed.

Lemma drop_trailing_space_plain s :
  all_chars (fun c => negb (WString.isspace c)) s = true ->
  WString.drop_trailing_space s = s.
Proof.
  induction s as [| c s IH]; cbn [all_chars WString.drop_trailing_space];
    [reflexivity |].
  intros H. apply andb_true_iff in H. destruct H as [Hc Hs].
  rewrite (IH Hs). apply negb_true_iff in Hc. rewrite Hc.
  destruct s; reflexivity.
Qed.

Lemma drop_trailing_space_app a b :
  WString.drop_trailing_space b <> EmptyString ->
  WString.drop_trailing_space (a ++ b) = a ++ WString.drop_trailing_space b.
Proof.
  intros Hb. induction a as [| c a IH];
    cbn [String.append WString.drop_trailing_space]; [reflexivity |].
  rewrite IH.
  destruct (a ++ WString.drop_trailing_space b) eqn:E; [| reflexivity].
  destruct a; cbn [String.append] in E; [congruence | discriminate].
Qed.

Lemma decimal_no_space s :
  all_chars decimal_char s = true ->
  all_chars (fun c => negb (WString.isspace c)) s = true.
Proof.
  apply all_chars_weaken. intros c Hc.
  destruct (decimal_char_plain c Hc) as [-> _]. reflexivity.
Qed.

Lemma decimal_no_comma s :
  all_chars decimal_char s = true -> count_char "," s = 0%nat.
Proof.
  apply all_chars_count. intros c Hc.
  destruct (decimal_char_plain c Hc) as (_ & E & _). exact E.
Qed.

Lemma decimal_lower s :
  all_chars decimal_char s = true -> WString.toLowerCase s = s.
Proof.
  induction s as [| c s IH]; cbn [all_chars WString.toLowerCase];
    [reflexivity |].
  intros H. apply andb_true_iff in H. destruct H as [Hc Hs].
  destruct (decimal_char_plain c Hc) as (_ & _ & ->).
  rewrite (IH Hs). reflexivity.
Qed.

Lemma startsWith_app p x : WString.startsWith (p ++ x) p = true.
Proof.
  unfold WString.startsWith.
  induction p as [| a p IH]; cbn [String.append String.prefix];
    [destruct x; reflexivity |].
  destruct (ascii_dec a a); [exact IH | congruence].
Qed.

(** A line that starts with [bounds ] and ends with a decimal numeral is
    its own trimmed form and is dispatched to the bounds branch. *)
Lemma processCommand_bounds_branch middle last s :
  all_chars decimal_char last = true ->
  last <> EmptyString ->
  processCommand ("bounds " ++ middle ++ last) s
  = processBounds ("bounds " ++ middle ++ last) s.
Proof.
  intros Hl Hne.
  assert (Ht : WString.trim ("bounds " ++ middle ++ last)
               = "bounds " ++ middle ++ last).
  { unfold WString.trim.
    change (WString.skip_space ("bounds " ++ middle ++ last))
      with ("bounds " ++ middle ++ last).
    rewrite <- app_assoc_string.
    rewrite drop_trailing_space_app;
      rewrite (drop_trailing_space_plain last (decimal_no_space _ Hl));
      [reflexivity | exact Hne]. }
  unfold processCommand. cbv zeta. rewrite Ht.
  repeat match goal with
         | |- context [String.eqb ?a ?b] =>
             let v := eval lazy in (String.eqb a b) in
             change (String.eqb a b) with v; cbv iota
         end.
  change (WString.toLowerCase ("bounds " ++ middle ++ last))
    with ("bounds " ++ WString.toLowerCase (middle ++ last)).
  rewrite startsWith_app. reflexivity.
Qed.

(** X26: a [bounds] line is split at its first three commas.  With a
    non-empty first field and no comma inside the first three, the four
    fields are read with [toInt] and handed to [setUsableBounds]; the
    seven characters before the fields are skipped unread, and whatever
    follows the fourth number, further commas included, is ignored. *)
Theorem processBounds_fields (pre A B C D : string) (s : State) :
  WString.length pre = 7 ->
  A <> EmptyString ->
  count_char "," A = 0%nat ->
  count_char "," B = 0%nat ->
  count_char "," C = 0%nat ->
  processBounds (pre ++ A ++ "," ++ B ++ "," ++ C ++ "," ++ D) s
  = setUsableBounds (WString.toInt A) (WString.toInt B)
      (WString.toInt C) (WString.toInt D) s.
Proof.
  apply processBounds_split.
Qed.

Lemma processBounds_fields_witness :
  processBounds ("BOUNDS " ++ " 7" ++ "," ++ "" ++ "," ++ "-3x" ++ ","
                 ++ "120,9") bootstrap
  = setUsableBounds 7 0 (-3) 120 bootstrap.
Proof.
  apply (processBounds_fields "BOUNDS " " 7" "" "-3x" "120,9" bootstrap);
    [reflexivity | discriminate | reflexivity | reflexivity | reflexivity].
Defined.

(** X27: a [bounds] line whose parameter text begins with a comma is
    refused whatever follows: the first comma sits at position 0, which
    the test [commaPos1 > 0] counts as absent. *)
Theorem processBounds_empty_left (pre rest : string) (s : State) :
  WString.length pre = 7 ->
  processBounds (pre ++ "," ++ rest) s = s.
Proof.
  intros Hpre. unfold processBounds. cbv zeta.
  rewrite <- Hpre, substring_from_app.
  assert (E : WString.indexOf "," 0 ("," ++ rest) = 0).
  { exact (indexOf_app "," EmptyString EmptyString rest eq_refl). }
  rewrite E. reflexivity.
Qed.

Lemma processBounds_empty_left_witness :
  processBounds ("bounds " ++ "," ++ "158,2,127") bootstrap = bootstrap.
Proof.
  apply (processBounds_empty_left "bounds " "158,2,127" bootstrap).
  reflexivity.
Defined.

(** X28: numbers survive the trip through text.  The line [bounds L,R,T,B]
    written with the decimal text that [String(int)] gives for four
    integers is trimmed to itself, dispatched to the bounds branch, split
    and read back as the same four integers. *)
Theorem processCommand_bounds_decimal (l r t b : Z) (s : State) :
  int_range l -> int_range r -> int_range t -> int_range b ->
  processCommand
    ("bounds " ++ String_of_int l ++ "," ++ String_of_int r ++ ","
     ++ String_of_int t ++ "," ++ String_of_int b) s
  = setUsableBounds l r t b s.
Proof.
  intros _ _ _ _.
  destruct (String_of_int_shape l) as [Sl Nl].
  destruct (String_of_int_shape r) as [Sr _].
  destruct (String_of_int_shape t) as [St _].
  destruct (String_of_int_shape b) as [Sb Nb].
  pose proof (processCommand_bounds_branch
                (String_of_int l ++ "," ++ String_of_int r ++ ","
                 ++ String_of_int t ++ ",")
                (String_of_int b) s Sb Nb) as Hd.
  rewrite !app_assoc_string in Hd. rewrite Hd.
  rewrite (processBounds_split "bounds " _ _ _ _ s eq_refl Nl
             (decimal_no_comma _ Sl) (decimal_no_comma _ Sr)
             (decimal_no_comma _ St)).
  pose proof (toInt_String_of_int l EmptyString I) as El.
  pose proof (toInt_String_of_int r EmptyString I) as Er.
  pose proof (toInt_String_of_int t EmptyString I) as Et.
  pose proof (toInt_String_of_int b EmptyString I) as Eb.
  rewrite app_nil_string in El, Er, Et, Eb.
  rewrite El, Er, Et, Eb. reflexivity.
Qed.

Lemma processCommand_bounds_decimal_witness :
  processCommand "bounds -4,158,0,127" bootstrap
  = setUsableBounds (-4) 158 0 127 bootstrap.
Proof.
  apply (processCommand_bounds_decimal (-4) 158 0 127 bootstrap);
    unfold int_range; lia.
Defined.
